(** * Pokhara multi-hazard monitoring: the raster hazard-processing core

    A shallow embedding of the numeric core of the backend
    ([processing/flood/sar_processing.py], [processing/multi_hazard.py],
    [processing/utils/raster_utils.py], [processing/landslide/model.py])
    and the properties of it that the specification states.

    Conventions of the embedding.
    - A numpy sample is a [sample]: a rational or [NaN].  An array is
      given by its dtype, [float32] or [float64], and its samples.
    - A cast to [float32] rounds to the nearest binary32 number, ties to
      even ([Np.float32_of]): [astype(np.float32)], and the cast numpy
      makes of a Python scalar that is compared with a [float32] array.
      A Python float and a [float64] sample are taken as the rational
      they hold, and the arithmetic on arrays is the exact one: the
      rounding of a sum, product or quotient and the infinities are not
      represented.
    - A 2-D numpy array is a [grid]: the list of its rows.
    - A Python dict is a [dict]: its items in insertion order, which is the
      order [sorted] and [sum] traverse them in.
    - An exception is a value of [exn]; a function that can raise returns a
      [result].
    - Reading and writing raster files is outside the embedding: a function
      that takes a path in the source takes the array read from it here,
      and [save_cog] is dropped. *)

From Stdlib Require Import String Ascii ZArith QArith Qminmax Qround Qabs Qpower.
From Stdlib Require Import Bool Lia Lqa List.
Import ListNotations.

(* ===================================================================== *)
(** ** Exceptions *)
(* ===================================================================== *)

Inductive exn : Type :=
| ValueError (msg : string)
| KeyError (key : string)
| TypeError (msg : string)
| IndexError (msg : string)
| ZeroDivisionError
| OverflowError (msg : string)
| LibraryError (msg : string).

Inductive result (A : Type) : Type :=
| Ok (a : A)
| Raise (e : exn).

Arguments Ok {A} a.
Arguments Raise {A} e.

Definition bind {A B : Type} (r : result A) (k : A -> result B) : result B :=
  match r with
  | Ok a => k a
  | Raise e => Raise e
  end.

Notation "x <- r ;; k" := (bind r (fun x => k))
  (at level 61, r at next level, right associativity).

(* ===================================================================== *)
(** ** numpy samples *)
(* ===================================================================== *)

Module Np.

Inductive sample : Type :=
| NaN
| Num (q : Q).

(** *** dtypes and casts *)

Inductive dtype : Type :=
| float32
| float64.

(** The nearest integer, ties to the even one. *)
Definition round_half_even (x : Q) : Z :=
  let f := Qfloor x in
  match Qcompare (x - inject_Z f) (1 # 2) with
  | Lt => f
  | Gt => (f + 1)%Z
  | Eq => if Z.even f then f else (f + 1)%Z
  end.

(** The integer part of the binary logarithm of a positive rational. *)
Definition ilog2 (q : Q) : Z :=
  let e := (Z.log2 (Qnum q) - Z.log2 (Zpos (Qden q)))%Z in
  if Qle_bool (2 ^ e) q then e else (e - 1)%Z.

(** The exponent of the binade of [q], which is [emin] for zero and the
    subnormal numbers. *)
Definition exponent (emin : Z) (q : Q) : Z :=
  if Qle_bool (Qabs q) 0 then emin else Z.max (ilog2 (Qabs q)) emin.

(** Rounding to [prec] significant bits, to nearest and ties to even.
    The exponent has no upper limit here: a value beyond the largest
    number of the format, which IEEE 754 rounds to an infinity, is given a
    value above every number of the format, and compares with them as the
    infinity does. *)
Definition round_float (prec emin : Z) (q : Q) : Q :=
  let ulp := 2 ^ (exponent emin q - (prec - 1)) in
  Qred (inject_Z (round_half_even (q / ulp)) * ulp).

(** binary32: 24 significant bits, least normal exponent -126. *)
Definition float32_of (q : Q) : Q := round_float 24 (-126) q.

(** A Python scalar or a sample as a value of the dtype. *)
Definition cast (dt : dtype) (q : Q) : Q :=
  match dt with
  | float32 => float32_of q
  | float64 => q
  end.

Definition cast_sample (dt : dtype) (x : sample) : sample :=
  match x with
  | NaN => NaN
  | Num q => Num (cast dt q)
  end.

Definition isnan (x : sample) : bool :=
  match x with NaN => true | Num _ => false end.

Definition Qlt_bool (a b : Q) : bool := negb (Qle_bool b a).

(** Comparisons: every ordered comparison with NaN is False, [!=] is True. *)
Definition lt (a b : sample) : bool :=
  match a, b with Num x, Num y => Qlt_bool x y | _, _ => false end.

Definition le (a b : sample) : bool :=
  match a, b with Num x, Num y => Qle_bool x y | _, _ => false end.

Definition gt (a b : sample) : bool := lt b a.

Definition ne (a b : sample) : bool :=
  match a, b with Num x, Num y => negb (Qeq_bool x y) | _, _ => true end.

(** Arithmetic: NaN propagates; a division by zero, which numpy answers
    with an infinity or NaN, is NaN here. *)
Definition add (a b : sample) : sample :=
  match a, b with Num x, Num y => Num (x + y) | _, _ => NaN end.

Definition sub (a b : sample) : sample :=
  match a, b with Num x, Num y => Num (x - y) | _, _ => NaN end.

Definition mul (a b : sample) : sample :=
  match a, b with Num x, Num y => Num (x * y) | _, _ => NaN end.

Definition div (a b : sample) : sample :=
  match a, b with
  | Num x, Num y => if Qeq_bool y 0 then NaN else Num (x / y)
  | _, _ => NaN
  end.

(** [np.minimum] / [np.maximum] as used by the reductions and by [clip]. *)
Definition minimum (a b : sample) : sample :=
  match a, b with
  | Num x, Num y => Num (if Qle_bool x y then x else y)
  | _, _ => NaN
  end.

Definition maximum (a b : sample) : sample :=
  match a, b with
  | Num x, Num y => Num (if Qle_bool x y then y else x)
  | _, _ => NaN
  end.

Definition clip (x lo hi : sample) : sample :=
  match x with
  | NaN => NaN
  | Num _ => minimum (maximum x lo) hi
  end.

(** Equality of the values two samples hold. *)
Definition same (a b : sample) : Prop :=
  match a, b with
  | NaN, NaN => True
  | Num x, Num y => x == y
  | _, _ => False
  end.

(** *** Grids *)

(** The rows of a 2-D array; its shape is the number of rows and the width
    of the first (an array without rows has shape (0, 0) here). *)
Definition grid (A : Type) : Type := list (list A).

Definition shape {A} (g : grid A) : nat * nat :=
  (length g, length (hd [] g)).

Definition shape_eqb (s t : nat * nat) : bool :=
  Nat.eqb (fst s) (fst t) && Nat.eqb (snd s) (snd t).

(** Every row has the width [shape] reports. *)
Definition rect {A} (g : grid A) : Prop :=
  Forall (fun row => length row = snd (shape g)) g.

Definition size {A} (g : grid A) : nat := length (concat g).

Definition get {A} (g : grid A) (i j : nat) : option A :=
  match nth_error g i with
  | Some row => nth_error row j
  | None => None
  end.

Definition map {A B} (f : A -> B) (g : grid A) : grid B :=
  List.map (List.map f) g.

Fixpoint zip_with {A B C} (f : A -> B -> C) (l : list A) (m : list B) : list C :=
  match l, m with
  | a :: l', b :: m' => f a b :: zip_with f l' m'
  | _, _ => []
  end.

Definition map2 {A B C} (f : A -> B -> C) (g : grid A) (h : grid B) : grid C :=
  zip_with (zip_with f) g h.

Fixpoint imap_from {A B} (f : nat -> A -> B) (n : nat) (l : list A) : list B :=
  match l with
  | [] => []
  | a :: l' => f n a :: imap_from f (S n) l'
  end.

Definition imap {A B} (f : nat -> A -> B) (l : list A) : list B :=
  imap_from f 0 l.

(** [array.astype(dt)] *)
Definition astype (dt : dtype) (g : grid sample) : grid sample :=
  map (cast_sample dt) g.

(** *** Reductions over the whole array *)

Definition amin (g : grid sample) : result sample :=
  match concat g with
  | [] => Raise (ValueError "zero-size array to reduction operation minimum which has no identity")
  | x :: l => Ok (fold_left minimum l x)
  end.

Definition amax (g : grid sample) : result sample :=
  match concat g with
  | [] => Raise (ValueError "zero-size array to reduction operation maximum which has no identity")
  | x :: l => Ok (fold_left maximum l x)
  end.

Definition asum (l : list sample) : sample := fold_left add l (Num 0).

(** The mean of the samples in exact arithmetic. *)
Definition exact_mean (g : grid sample) : sample :=
  div (asum (concat g)) (Num (inject_Z (Z.of_nat (size g)))).

(** [np.sum] of an integer array. *)
Definition isum (g : grid Z) : Z := fold_left Z.add (concat g) 0%Z.

(** [.astype(np.uint8)] of a boolean array. *)
Definition u8_of_bool (b : bool) : Z := if b then 1%Z else 0%Z.

End Np.

Abbreviation sample := Np.sample.
Abbreviation NaN := Np.NaN.
Abbreviation Num := Np.Num.
Abbreviation grid := Np.grid.

(** A Python number: an [int] or a [float]. *)
Inductive number : Type :=
| PyInt (n : Z)
| PyFloat (x : Q).

(* ===================================================================== *)
(** ** Python dicts *)
(* ===================================================================== *)

Definition dict (V : Type) : Type := list (string * V).

Fixpoint dict_find {V} (d : dict V) (k : string) : option V :=
  match d with
  | [] => None
  | (k', v) :: d' => if String.eqb k' k then Some v else dict_find d' k
  end.

(** [d[k]] *)
Definition dict_get {V} (d : dict V) (k : string) : result V :=
  match dict_find d k with
  | Some v => Ok v
  | None => Raise (KeyError k)
  end.

(** [d.get(k, default)] *)
Definition dict_get_default {V} (d : dict V) (k : string) (default : V) : V :=
  match dict_find d k with
  | Some v => v
  | None => default
  end.

Definition keys {V} (d : dict V) : list string := List.map fst d.
Definition values {V} (d : dict V) : list V := List.map snd d.

(** [sorted]: stable, by the order [leb] decides. *)
Fixpoint insert_sorted {A} (leb : A -> A -> bool) (x : A) (l : list A) : list A :=
  match l with
  | [] => [x]
  | y :: l' => if leb x y then x :: l else y :: insert_sorted leb x l'
  end.

Fixpoint sorted {A} (leb : A -> A -> bool) (l : list A) : list A :=
  match l with
  | [] => []
  | x :: l' => insert_sorted leb x (sorted leb l')
  end.

(* ===================================================================== *)
(** ** scipy.ndimage binary morphology *)
(* ===================================================================== *)

(** The part of [scipy.ndimage] the flood pipeline calls, for a structuring
    element of odd side with its origin at the centre, [border_value=0] and
    no mask (the defaults the source leaves in place). *)
Module Ndimage.

(** [generate_binary_structure(2, 1)]: the 4-connected cross. *)
Definition generate_binary_structure_2_1 : grid bool :=
  [ [false; true; false];
    [true;  true; true ];
    [false; true; false] ].

(** Pixel of a boolean image; outside the image is the border value 0. *)
Definition pixel (g : grid bool) (i j : Z) : bool :=
  if (i <? 0)%Z || (j <? 0)%Z then false
  else nth (Z.to_nat j) (nth (Z.to_nat i) g []) false.

(** Offsets, from the centre, of the cells of the structuring element
    that are set. *)
Definition offsets (structure : grid bool) : list (Z * Z) :=
  concat (Np.imap (fun a row =>
    concat (Np.imap (fun b (s : bool) =>
      if s
      then [ ((Z.of_nat a - Z.of_nat (length structure / 2))%Z,
              (Z.of_nat b - Z.of_nat (length row / 2))%Z) ]
      else []) row)) structure).

Definition erode_step (structure : grid bool) (g : grid bool) : grid bool :=
  Np.imap (fun i row =>
    Np.imap (fun j (_ : bool) =>
      forallb (fun d => pixel g (Z.of_nat i + fst d) (Z.of_nat j + snd d))
              (offsets structure)) row) g.

Definition dilate_step (structure : grid bool) (g : grid bool) : grid bool :=
  Np.imap (fun i row =>
    Np.imap (fun j (_ : bool) =>
      existsb (fun d => pixel g (Z.of_nat i - fst d) (Z.of_nat j - snd d))
              (offsets structure)) row) g.

Definition grid_eqb (g h : grid bool) : bool :=
  if list_eq_dec (list_eq_dec bool_dec) g h then true else false.

(** [iterations < 1]: the step is repeated until the image no longer
    changes.  Erosion only clears pixels and dilation only sets them (the
    centre of the element is set), so one more round than the image has
    pixels is enough ([binary_erosion_stable], [binary_dilation_stable]). *)
Fixpoint until_stable (fuel : nat) (step : grid bool -> grid bool)
  (g : grid bool) : grid bool :=
  match fuel with
  | O => g
  | S fuel' =>
      let g' := step g in
      if grid_eqb g g' then g else until_stable fuel' step g'
  end.

Definition repeat_step (step : grid bool -> grid bool) (iterations : Z)
  (g : grid bool) : grid bool :=
  if (1 <=? iterations)%Z
  then Nat.iter (Z.to_nat iterations) step g
  else until_stable (S (Np.size g)) step g.

Definition binary_erosion (input structure : grid bool) (iterations : Z) : grid bool :=
  repeat_step (erode_step structure) iterations input.

Definition binary_dilation (input structure : grid bool) (iterations : Z) : grid bool :=
  repeat_step (dilate_step structure) iterations input.

Definition binary_opening (input structure : grid bool) (iterations : Z) : grid bool :=
  binary_dilation (binary_erosion input structure iterations) structure iterations.

Definition binary_closing (input structure : grid bool) (iterations : Z) : grid bool :=
  binary_erosion (binary_dilation input structure iterations) structure iterations.

End Ndimage.

(* ===================================================================== *)
(** ** processing/flood/sar_processing.py *)
(* ===================================================================== *)

(** [valid_mask = ~np.isnan(sar_array) & (sar_array != -9999)] *)
Definition valid_sample (x : sample) : bool :=
  negb (Np.isnan x) && Np.ne x (Num (-9999)).

Section SarProcessing.

(** [skimage.filters.threshold_otsu], applied to the 1-D array of the
    valid samples. *)
Variable threshold_otsu : list sample -> result sample.

(** [sar_array < threshold] compares in the dtype of the array: numpy
    casts a Python float to it.  The threshold that skimage computes from
    samples of that dtype is a value of it, which the cast leaves as it
    is. *)
Definition apply_threshold (dtype : Np.dtype) (sar_array : grid sample)
  (threshold : option sample) (use_otsu : bool) : result (grid Z) :=
  threshold <-
    (if use_otsu
     then threshold_otsu (filter valid_sample (concat sar_array))
     else match threshold with
          | Some t => Ok t
          | None => Raise (TypeError "unsupported format string passed to NoneType.__format__")
          end) ;;
  let threshold := Np.cast_sample dtype threshold in
  Ok (Np.map (fun x =>
        if valid_sample x then Np.u8_of_bool (Np.lt x threshold) else 0%Z)
      sar_array).

(** [dem_array > elevation_threshold] compares in the dtype of the
    elevation array. *)
Definition apply_dem_mask (water_mask : grid Z) (dtype : Np.dtype)
  (dem_array : grid sample) (elevation_threshold : sample) : result (grid Z) :=
  let elevation_threshold := Np.cast_sample dtype elevation_threshold in
  if Np.shape_eqb (Np.shape water_mask) (Np.shape dem_array)
  then Ok (Np.map2 (fun (m : Z) (e : sample) =>
             if Np.gt e elevation_threshold then 0%Z else m)
           water_mask dem_array)
  else Raise (IndexError "boolean index did not match indexed array").

Definition apply_morphological_operations (mask : grid Z) (kernel_size : Z) : grid Z :=
  let structure := Ndimage.generate_binary_structure_2_1 in
  let opened :=
    Ndimage.binary_opening (Np.map (fun v => negb (v =? 0)%Z) mask) structure kernel_size in
  let cleaned := Ndimage.binary_closing opened structure kernel_size in
  Np.map Np.u8_of_bool cleaned.

Definition dimensions_mismatch : exn :=
  ValueError "SAR and DEM dimensions mismatch".

(** The two rasters read are given by their dtypes and samples. *)
Definition process_sar_for_flood (sar_dtype : Np.dtype) (sar_array : grid sample)
  (dem_dtype : Np.dtype) (dem_array : grid sample)
  (threshold : option sample) (use_otsu : bool) (dem_threshold : sample)
  (morphology_kernel : Z) : result (grid Z) :=
  if negb (Np.shape_eqb (Np.shape sar_array) (Np.shape dem_array))
  then Raise dimensions_mismatch
  else
    water_mask <- apply_threshold sar_dtype sar_array threshold use_otsu ;;
    water_mask <- apply_dem_mask water_mask dem_dtype dem_array dem_threshold ;;
    Ok (apply_morphological_operations water_mask morphology_kernel).


End SarProcessing.

Record flood_statistics : Type := {
  flood_pixels : Z;
  flood_area_m2 : Q;
  flood_area_km2 : Q;
  total_pixels : Z;
  flood_percentage : sample
}.

(** [flood_pixels * (pixel_size ** 2)], for the [np.uint64] that the sum
    of a [uint8] mask is.  With an [int] the product is a [uint64]: the
    square has to be in the range of the type and the product wraps
    around; with a [float] it is a [float64]. *)
Definition uint64_times (flood_pixels : Z) (pixel_size : number) : result Q :=
  match pixel_size with
  | PyInt n =>
      let square := (n * n)%Z in
      if (square <? 2 ^ 64)%Z
      then Ok (inject_Z ((flood_pixels * square) mod 2 ^ 64))
      else Raise (OverflowError "Python integer out of bounds for uint64")
  | PyFloat x => Ok (inject_Z flood_pixels * (x * x))
  end.

(** The mask is the [uint8] array the pipeline writes.  Its sum does not
    wrap around: an array has fewer than [2^63] samples. *)
Definition calculate_flood_statistics (flood_mask : grid Z) (pixel_size : number)
  : result flood_statistics :=
  let flood_pixels := Np.isum flood_mask in
  flood_area_m2 <- uint64_times flood_pixels pixel_size ;;
  let flood_area_km2 := flood_area_m2 / 1000000 in
  Ok {| flood_pixels := flood_pixels;
        flood_area_m2 := flood_area_m2;
        flood_area_km2 := flood_area_km2;
        total_pixels := Z.of_nat (Np.size flood_mask);
        flood_percentage :=
          Np.mul (Np.div (Num (inject_Z flood_pixels))
                         (Num (inject_Z (Z.of_nat (Np.size flood_mask)))))
                 (Num 100) |}.

(* ===================================================================== *)
(** ** config.py *)
(* ===================================================================== *)

Definition MULTI_HAZARD_CONFIG_weights : dict Q :=
  [ ("landslide"%string, 4 # 10); ("flood"%string, 4 # 10); ("exposure"%string, 2 # 10) ].

Definition MULTI_HAZARD_CONFIG_normalization_method : string := "min_max".

Definition MULTI_HAZARD_CONFIG_classification_thresholds : dict Q :=
  [ ("very_low"%string, 2 # 10); ("low"%string, 4 # 10);
    ("moderate"%string, 6 # 10); ("high"%string, 8 # 10) ].

Definition LANDSLIDE_CONFIG_classification_thresholds : dict Q :=
  [ ("very_low"%string, 2 # 10); ("low"%string, 4 # 10);
    ("moderate"%string, 6 # 10); ("high"%string, 8 # 10) ].

(* ===================================================================== *)
(** ** processing/multi_hazard.py *)
(* ===================================================================== *)

Section MultiHazard.

(** The [float32] reductions [mean()] and [std()] of numpy on an array
    that has samples: they accumulate in [float32], in an order of numpy's
    choosing, and are taken from numpy as they come. *)
Variable np_mean : grid sample -> sample.
Variable np_std : grid sample -> sample.

(** [array_f.mean()] and [array_f.std()]: NaN (and a warning) on an array
    without samples. *)
Definition mean (g : grid sample) : sample :=
  match concat g with
  | [] => NaN
  | _ :: _ => np_mean g
  end.

Definition std (g : grid sample) : sample :=
  match concat g with
  | [] => NaN
  | _ :: _ => np_std g
  end.

Definition normalize_raster (array : grid sample) (method : string)
  : result (grid sample) :=
  let array_f := Np.astype Np.float32 array in
  if String.eqb method "min_max" then
    min_val <- Np.amin array_f ;;
    max_val <- Np.amax array_f ;;
    if Np.gt max_val min_val
    then Ok (Np.map (fun x => Np.div (Np.sub x min_val) (Np.sub max_val min_val)) array_f)
    else Ok array_f
  else if String.eqb method "z_score" then
    let mean := mean array_f in
    let std := std array_f in
    if Np.gt std (Num 0)
    then Ok (Np.map (fun x => Np.clip (Np.div (Np.sub x mean) std) (Num 0) (Num 1)) array_f)
    else Ok array_f
  else Raise (ValueError "Unknown normalization method").

(** Python float division. *)
Definition float_div (a b : Q) : result Q :=
  if Qeq_bool b 0 then Raise ZeroDivisionError else Ok (a / b).

(** [w * array] and [array + array]; shapes that differ raise (numpy's
    broadcasting of an axis of length 1 is not represented). *)
Definition scale (w : Q) (g : grid sample) : grid sample :=
  Np.map (Np.mul (Num w)) g.

Definition add_arrays (g h : grid sample) : result (grid sample) :=
  if Np.shape_eqb (Np.shape g) (Np.shape h)
  then Ok (Np.map2 Np.add g h)
  else Raise (ValueError "operands could not be broadcast together").

(** [sum(weights.values())] *)
Definition sum_values (weights : dict Q) : Q :=
  fold_left Qplus (values weights) 0.

(** [exposure] is [Some] when [exposure_path] is given and the file
    exists. *)
Definition combine_hazards (landslide flood : grid sample)
  (exposure : option (grid sample)) (weights : option (dict Q))
  : result (grid sample) :=
  let weights :=
    match weights with
    | None => MULTI_HAZARD_CONFIG_weights
    | Some w => w
    end in
  landslide_norm <- normalize_raster landslide MULTI_HAZARD_CONFIG_normalization_method ;;
  flood_norm <- normalize_raster flood MULTI_HAZARD_CONFIG_normalization_method ;;
  (* Initialize risk *)
  w_l <- dict_get weights "landslide" ;;
  w_f <- dict_get weights "flood" ;;
  _ <- add_arrays (scale w_l landslide_norm) (scale w_f flood_norm) ;;
  match exposure with
  | Some exposure =>
      exposure_norm <- normalize_raster exposure MULTI_HAZARD_CONFIG_normalization_method ;;
      (* Recalculate with all three *)
      let total_weight := sum_values weights in
      w_l <- dict_get weights "landslide" ;;
      r_l <- float_div w_l total_weight ;;
      w_f <- dict_get weights "flood" ;;
      r_f <- float_div w_f total_weight ;;
      lf <- add_arrays (scale r_l landslide_norm) (scale r_f flood_norm) ;;
      w_e <- dict_get weights "exposure" ;;
      r_e <- float_div w_e total_weight ;;
      add_arrays lf (scale r_e exposure_norm)
  | None =>
      (* Normalize without exposure *)
      w_l <- dict_get weights "landslide" ;;
      w_f <- dict_get weights "flood" ;;
      let total_weight := w_l + w_f in
      r_l <- float_div w_l total_weight ;;
      r_f <- float_div w_f total_weight ;;
      add_arrays (scale r_l landslide_norm) (scale r_f flood_norm)
  end.

End MultiHazard.

(** The boolean-mask assignment [classified[mask] = v] at one pixel. *)
Definition assign (mask : bool) (v : Z) (classified : Z) : Z :=
  if mask then v else classified.

(** The five assignments at one pixel, for the bounds as the comparisons
    have them: in the dtype of the array. *)
Definition classify_risk_pixel (very_low low moderate high : Q) (x : sample) : Z :=
  let c := 0%Z in
  let c := assign (Np.le x (Num very_low)) 1 c in
  let c := assign (Np.gt x (Num very_low) && Np.le x (Num low)) 2 c in
  let c := assign (Np.gt x (Num low) && Np.le x (Num moderate)) 3 c in
  let c := assign (Np.gt x (Num moderate) && Np.le x (Num high)) 4 c in
  let c := assign (Np.gt x (Num high)) 5 c in
  c.

Definition classify_risk (dtype : Np.dtype) (risk_array : grid sample)
  (thresholds : option (dict Q)) : result (grid Z) :=
  let thresholds :=
    match thresholds with
    | None => MULTI_HAZARD_CONFIG_classification_thresholds
    | Some t => t
    end in
  very_low <- dict_get thresholds "very_low" ;;
  low <- dict_get thresholds "low" ;;
  moderate <- dict_get thresholds "moderate" ;;
  high <- dict_get thresholds "high" ;;
  Ok (Np.map (classify_risk_pixel (Np.cast dtype very_low) (Np.cast dtype low)
                (Np.cast dtype moderate) (Np.cast dtype high))
        risk_array).

(* ===================================================================== *)
(** ** processing/landslide/model.py *)
(* ===================================================================== *)

Definition class_mapping : dict Z :=
  [ ("very_low"%string, 1%Z); ("low"%string, 2%Z); ("moderate"%string, 3%Z);
    ("high"%string, 4%Z); ("very_high"%string, 5%Z) ].

Definition sorted_classes : list string :=
  [ "very_low"%string; "low"%string; "moderate"%string; "high"%string;
    "very_high"%string ].

(** The loop over [sorted_classes[:-1]] at one pixel; [prev_class] is
    [None] in the first round ([i == 0]).  Each bound is compared in the
    dtype of the array. *)
Fixpoint susceptibility_loop (dtype : Np.dtype) (thresholds : dict Q)
  (prev_class : option string) (classes : list string) (x : sample)
  (classified : Z) : Z :=
  match classes with
  | [] => classified
  | class_name :: rest =>
      let classified :=
        match dict_find thresholds class_name with
        | Some threshold =>
            let mask :=
              match prev_class with
              | None => Np.le x (Num (Np.cast dtype threshold))
              | Some prev_class =>
                  let prev_threshold := dict_get_default thresholds prev_class 0 in
                  Np.gt x (Num (Np.cast dtype prev_threshold))
                  && Np.le x (Num (Np.cast dtype threshold))
              end in
            assign mask (dict_get_default class_mapping class_name 0%Z) classified
        | None => classified
        end in
      susceptibility_loop dtype thresholds (Some class_name) rest x classified
  end.

Definition classify_susceptibility_pixel (dtype : Np.dtype) (thresholds : dict Q)
  (x : sample) : Z :=
  let classified :=
    susceptibility_loop dtype thresholds None (removelast sorted_classes) x 0%Z in
  match dict_find thresholds "high" with
  | Some high =>
      assign (Np.gt x (Num (Np.cast dtype high)))
             (dict_get_default class_mapping "very_high" 0%Z) classified
  | None => classified
  end.

Definition classify_susceptibility (dtype : Np.dtype) (probabilities : grid sample)
  (thresholds : dict Q) : grid Z :=
  Np.map (classify_susceptibility_pixel dtype thresholds) probabilities.

(* ===================================================================== *)
(** ** processing/utils/raster_utils.py *)
(* ===================================================================== *)

(** [{name: i+1 for i, name in enumerate(sorted(thresholds.keys()))}] *)
Definition default_class_values (thresholds : dict Q) : dict Z :=
  Np.imap (fun i name => (name, (Z.of_nat i + 1)%Z))
          (sorted String.leb (keys thresholds)).

(** [sorted(thresholds.items(), key=lambda x: x[1])] *)
Definition sorted_thresholds (thresholds : dict Q) : list (string * Q) :=
  sorted (fun a b => Qle_bool (snd a) (snd b)) thresholds.

(** The bound each round of the loop compares with, in the dtype of the
    array, and the class value it writes: [class_values[class_name]]. *)
Fixpoint loop_values (dtype : Np.dtype) (class_values : dict Z)
  (st : list (string * Q)) : result (list (Q * Z)) :=
  match st with
  | [] => Ok []
  | (class_name, threshold) :: rest =>
      v <- dict_get class_values class_name ;;
      vs <- loop_values dtype class_values rest ;;
      Ok ((Np.cast dtype threshold, v) :: vs)
  end.

(** The loop at one pixel; [prev_threshold] is [None] in the first round. *)
Fixpoint raster_loop (prev_threshold : option Q) (rounds : list (Q * Z))
  (x : sample) (classified : Z) : Z :=
  match rounds with
  | [] => classified
  | (threshold, v) :: rest =>
      let mask :=
        match prev_threshold with
        | None => Np.le x (Num threshold)
        | Some prev_threshold => Np.gt x (Num prev_threshold) && Np.le x (Num threshold)
        end in
      raster_loop (Some threshold) rest x (assign mask v classified)
  end.

(** [max(class_values.values())] *)
Definition max_value (class_values : dict Z) : result Z :=
  match values class_values with
  | [] => Raise (ValueError "max() arg is an empty sequence")
  | v :: vs => Ok (fold_left Z.max vs v)
  end.

(** Class values are taken to fit the [uint8] output array. *)
Definition classify_raster (dtype : Np.dtype) (continuous_array : grid sample)
  (thresholds : dict Q) (class_values : option (dict Z)) : result (grid Z) :=
  let class_values :=
    match class_values with
    | None => default_class_values thresholds
    | Some cv => cv
    end in
  let sorted_thresholds := sorted_thresholds thresholds in
  rounds <- loop_values dtype class_values sorted_thresholds ;;
  match rev sorted_thresholds with
  | [] => Ok (Np.map (fun x => raster_loop None rounds x 0%Z) continuous_array)
  | (_, highest_threshold) :: _ =>
      max_class <- max_value class_values ;;
      Ok (Np.map (fun x =>
            assign (Np.gt x (Num (Np.cast dtype highest_threshold))) max_class
                   (raster_loop None rounds x 0%Z))
          continuous_array)
  end.

(** [apply_colormap].  [int(s, 16)] is taken from the interpreter; the
    channels it returns are taken to fit the [uint8] output array. *)
Section Colormap.

Variable int16 : string -> result Z.

(** [s.lstrip('#')] *)
Fixpoint lstrip_hash (s : string) : string :=
  match s with
  | String "#"%char s' => lstrip_hash s'
  | _ => s
  end.

(** [tuple(int(hex_color[i:i+2], 16) for i in (0, 2, 4))] *)
Definition parse_hex_color (color : string) : result (Z * Z * Z) :=
  let hex_color := lstrip_hash color in
  r <- int16 (substring 0 2 hex_color) ;;
  g <- int16 (substring 2 2 hex_color) ;;
  b <- int16 (substring 4 2 hex_color) ;;
  Ok (r, g, b).

(** The colour each round of the loop writes, for the classes the colormap
    names. *)
Fixpoint colormap_rounds (colormap : dict string) (class_mapping : list (Z * string))
  : result (list (Z * (Z * Z * Z))) :=
  match class_mapping with
  | [] => Ok []
  | (value, class_name) :: rest =>
      match dict_find colormap class_name with
      | Some color =>
          rgb <- parse_hex_color color ;;
          rounds <- colormap_rounds colormap rest ;;
          Ok ((value, rgb) :: rounds)
      | None => colormap_rounds colormap rest
      end
  end.

(** [rgb[array == value] = [r, g, b]], round after round, at one pixel. *)
Fixpoint paint (rounds : list (Z * (Z * Z * Z))) (v : Z) (rgb : Z * Z * Z)
  : Z * Z * Z :=
  match rounds with
  | [] => rgb
  | (value, color) :: rest => paint rest v (if (v =? value)%Z then color else rgb)
  end.

Definition apply_colormap (array : grid Z) (colormap : dict string)
  (class_mapping : list (Z * string)) : result (grid (Z * Z * Z)) :=
  rounds <- colormap_rounds colormap class_mapping ;;
  Ok (Np.map (fun v => paint rounds v (0, 0, 0)%Z) array).

End Colormap.

(* ===================================================================== *)
(** ** processing/exposure/analysis.py *)
(* ===================================================================== *)






Definition classify_exposure_default_thresholds : dict Q :=
  [ ("very_low"%string, 2 # 10); ("low"%string, 4 # 10);
    ("moderate"%string, 6 # 10); ("high"%string, 8 # 10) ].

Definition classify_exposure (dtype : Np.dtype) (exposure : grid sample)
  (thresholds : option (dict Q)) : result (grid Z) :=
  let thresholds :=
    match thresholds with
    | None => classify_exposure_default_thresholds
    | Some t => t
    end in
  very_low <- dict_get thresholds "very_low" ;;
  low <- dict_get thresholds "low" ;;
  moderate <- dict_get thresholds "moderate" ;;
  high <- dict_get thresholds "high" ;;
  let very_low := Np.cast dtype very_low in
  let low := Np.cast dtype low in
  let moderate := Np.cast dtype moderate in
  let high := Np.cast dtype high in
  Ok (Np.map (fun x =>
        let c := 0%Z in
        let c := assign (Np.le x (Num very_low)) 1 c in
        let c := assign (Np.gt x (Num very_low) && Np.le x (Num low)) 2 c in
        let c := assign (Np.gt x (Num low) && Np.le x (Num moderate)) 3 c in
        let c := assign (Np.gt x (Num moderate) && Np.le x (Num high)) 4 c in
        let c := assign (Np.gt x (Num high)) 5 c in
        c)
      exposure).

(* ===================================================================== *)
(** ** processing/landslide: prediction over the whole area *)
(* ===================================================================== *)

(** The feature stack is a 3-D array [(n_bands, height, width)]: the list
    of its bands, which all have the shape of the first. *)

(** [features.reshape(n_bands, -1).T]: one row per pixel, in row-major
    order, holding the sample of each band there. *)
Definition features_2d (features : list (grid sample)) : list (list sample) :=
  let (height, width) := Np.shape (hd [] features) in
  List.map (fun p => List.map (fun band => nth p (concat band) NaN) features)
           (seq 0 (height * width)).

(** [~np.any(np.isnan(row)) & ~np.any(row == -9999)] *)
Definition valid_row (row : list sample) : bool :=
  negb (existsb Np.isnan row)
  && negb (existsb (fun x => negb (Np.ne x (Num (-9999)))) row).

(** [extract_features_for_prediction] of feature_extraction.py, on the
    stack read: the rows, the shape and the mask of the valid rows. *)
Definition extract_features_for_prediction (features : list (grid sample))
  : list (list sample) * (nat * nat) * list bool :=
  let rows := features_2d features in
  (rows, Np.shape (hd [] features), List.map valid_row rows).

(** [a[mask] = values] on [a = np.zeros(n)], for as many values as the
    mask selects. *)
Fixpoint scatter (mask : list bool) (vals : list sample) : list sample :=
  match mask with
  | [] => []
  | false :: mask' => Num 0 :: scatter mask' vals
  | true :: mask' =>
      match vals with
      | v :: vals' => v :: scatter mask' vals'
      | [] => Num 0 :: scatter mask' []
      end
  end.

(** A single value is broadcast to every selected place; another number
    of values than places raises. *)
Definition assign_masked (mask : list bool) (vals : list sample)
  : result (list sample) :=
  if Nat.eqb (length vals) (count_occ bool_dec mask true)
  then Ok (scatter mask vals)
  else match vals with
       | [v] => Ok (List.map (fun b : bool => if b then v else Num 0) mask)
       | _ => Raise (ValueError "NumPy boolean array indexing assignment cannot assign the input values to the output values")
       end.

(** [flat.reshape((height, width))] *)
Fixpoint reshape {A} (height width : nat) (flat : list A) : grid A :=
  match height with
  | O => []
  | S height' => firstn width flat :: reshape height' width (skipn width flat)
  end.

(** [features_2d[valid_mask]] *)
Fixpoint select {A} (mask : list bool) (rows : list A) : list A :=
  match mask, rows with
  | b :: mask', r :: rows' => if b then r :: select mask' rows' else select mask' rows'
  | _, _ => []
  end.

Section LandslidePrediction.

(** [model.predict_proba]: the probability of the positive class for each
    row given. *)
Variable predict_proba : list (list sample) -> result (list sample).

(** Steps 4 and 5 of [run_landslide_pipeline]: the probability raster and
    the classified raster for the feature stack read.  The probabilities
    are written into [np.zeros(n)], a [float64] array. *)
Definition predict_susceptibility (features : list (grid sample))
  : result (grid sample * grid Z) :=
  let '(features_2d, shape, valid_mask) := extract_features_for_prediction features in
  predicted <- predict_proba (select valid_mask features_2d) ;;
  probabilities_flat <- assign_masked valid_mask predicted ;;
  let probabilities := reshape (fst shape) (snd shape) probabilities_flat in
  let classified :=
    classify_susceptibility Np.float64 probabilities
      LANDSLIDE_CONFIG_classification_thresholds in
  Ok (probabilities, classified).

End LandslidePrediction.

(* ===================================================================== *)
(** ** The pipelines *)
(* ===================================================================== *)

(** [FLOOD_CONFIG] of config.py. *)
Definition FLOOD_CONFIG_sar_threshold : Q := -18.
Definition FLOOD_CONFIG_use_otsu : bool := true.
Definition FLOOD_CONFIG_dem_threshold : Q := 100.
Definition FLOOD_CONFIG_morphology_kernel_size : Z := 3.

Section Pipelines.

Variable threshold_otsu : list sample -> result sample.
Variable np_mean : grid sample -> sample.
Variable np_std : grid sample -> sample.

(** [run_flood_pipeline] of processing/flood/pipeline.py, up to the
    statistics: the mask and its statistics for the two rasters read.
    The statistics are taken with the default pixel size, the [int] 30. *)
Definition run_flood_pipeline (sar_dtype : Np.dtype) (sar_array : grid sample)
  (dem_dtype : Np.dtype) (dem_array : grid sample)
  : result (grid Z * flood_statistics) :=
  flood_mask <- process_sar_for_flood threshold_otsu sar_dtype sar_array
                  dem_dtype dem_array
                  (Some (Num FLOOD_CONFIG_sar_threshold)) FLOOD_CONFIG_use_otsu
                  (Num FLOOD_CONFIG_dem_threshold)
                  FLOOD_CONFIG_morphology_kernel_size ;;
  stats <- calculate_flood_statistics flood_mask (PyInt 30) ;;
  Ok (flood_mask, stats).

(** [run_multi_hazard_integration] of processing/multi_hazard.py, up to
    the classified raster; [exposure] is [Some] when the exposure file
    exists.  The combined risk is a [float32] array, as the normalized
    layers are. *)
Definition run_multi_hazard_integration (landslide flood : grid sample)
  (exposure : option (grid sample)) : result (grid sample * grid Z) :=
  risk <- combine_hazards np_mean np_std landslide flood exposure None ;;
  classified <- classify_risk Np.float32 risk None ;;
  Ok (risk, classified).

End Pipelines.

(* ===================================================================== *)
(** ** Readings of the specification's words *)
(* ===================================================================== *)

(** A sample is valid when it is a number other than the nodata sentinel. *)
Definition is_valid (x : sample) : Prop :=
  exists q, x = Num q /\ ~ q == -9999.

(** A sample holds a value strictly below [t]. *)
Definition below (x : sample) (t : Q) : Prop :=
  exists q, x = Num q /\ q < t.

(** An elevation sample strictly exceeds the ceiling. *)
Definition exceeds (e : sample) (ceiling : Q) : Prop :=
  exists q, e = Num q /\ ceiling < q.


(** A property of every sample of an array. *)
Definition every_pixel {A} (P : A -> Prop) (g : grid A) : Prop :=
  Forall (Forall P) g.

Definition binary_mask (mask : grid Z) : Prop :=
  every_pixel (fun m => m = 0%Z \/ m = 1%Z) mask.

Definition no_nan (x : sample) : Prop := Np.isnan x = false.

(** The valid samples of an array, in row-major order. *)
Definition valid_samples (g : grid sample) : list sample :=
  filter valid_sample (concat g).


(** The square of the pixel size is in the range of [uint64], as the
    product with the pixel count asks of an [int]. *)
Definition fits_uint64 (pixel_size : number) : Prop :=
  match pixel_size with
  | PyInt n => (n * n < 2 ^ 64)%Z
  | PyFloat _ => True
  end.

(** Number of pixels of a mask that are set. *)
Definition flagged (mask : grid Z) : nat :=
  count_occ Z.eq_dec (concat mask) 1%Z.

(** Two arrays hold the same values. *)
Definition same_grid (g h : grid sample) : Prop :=
  Forall2 (Forall2 Np.same) g h.

(** The four cut points of a threshold table, strictly increasing. *)
Definition increasing_thresholds (thresholds : dict Q) (very_low low moderate high : Q)
  : Prop :=
  dict_find thresholds "very_low" = Some very_low /\
  dict_find thresholds "low" = Some low /\
  dict_find thresholds "moderate" = Some moderate /\
  dict_find thresholds "high" = Some high /\
  very_low < low /\ low < moderate /\ moderate < high.

(** A value lies above the bound of the previous round, if there is one. *)
Definition above (prev_threshold : option Q) (q : Q) : Prop :=
  match prev_threshold with
  | None => True
  | Some p => p < q
  end.

(** The bound the loop of [classify_raster] ends on. *)
Fixpoint last_bound (prev_threshold : option Q) (rounds : list (Q * Z)) : option Q :=
  match rounds with
  | [] => prev_threshold
  | (threshold, _) :: rest => last_bound (Some threshold) rest
  end.

(** The widths of the rows of an array. *)
Definition row_lengths {A} (g : grid A) : list nat := List.map (@length A) g.

(** Number of pixels of a boolean image that are set, and that are not. *)
Definition count_set (g : grid bool) : nat :=
  length (filter (fun b : bool => b) (concat g)).

Definition count_unset (g : grid bool) : nat :=
  length (filter negb (concat g)).

(** Every pixel set in [g] is set in [h]. *)
Definition below_image (g h : grid bool) : Prop :=
  Forall2 (Forall2 (fun a b : bool => a = true -> b = true)) g h.

(** The cell [(a, b)] lies in the image. *)
Definition in_image {A} (g : grid A) (a b : Z) : Prop :=
  (0 <= a)%Z /\ (0 <= b)%Z /\ exists c, Np.get g (Z.to_nat a) (Z.to_nat b) = Some c.





(* ===================================================================== *)
(** ** Example inputs *)
(* ===================================================================== *)

(** The Otsu collaborator of a run in manual mode, which never calls it. *)
Definition otsu_not_called (_ : list sample) : result sample :=
  Raise (LibraryError "threshold_otsu").

Definition water : sample := Num (-22).
Definition land : sample := Num (-6).

Definition constant_grid {A} (rows cols : nat) (v : A) : grid A :=
  repeat (repeat v cols) rows.

(** [a[i, j] = v] *)
Definition set_pixel {A} (g : grid A) (i j : nat) (v : A) : grid A :=
  Np.imap (fun i' row =>
    Np.imap (fun j' x => if Nat.eqb i' i && Nat.eqb j' j then v else x) row) g.





(** A 2x3 scene: water on the left column, one nodata and one NaN sample. *)
Definition small_sar : grid sample :=
  [ [water; land; Num (-9999)];
    [water; NaN;  land] ].

Definition small_dem : grid sample :=
  [ [Num 80;  Num 90; Num 120];
    [Num 150; Num 95; Num 100] ].

Definition small_mask : grid Z :=
  [ [1; 0; 1];
    [1; 1; 0] ]%Z.

(** Small binary images: a 5x3 block, a 3x3 block with a stray pixel, and
    a 3x3 ring. *)
Definition block_image : grid Z :=
  [ [0; 0; 0; 0; 0; 0; 0];
    [0; 0; 1; 1; 1; 0; 0];
    [0; 0; 1; 1; 1; 0; 0];
    [0; 0; 1; 1; 1; 0; 0];
    [0; 0; 1; 1; 1; 0; 0];
    [0; 0; 1; 1; 1; 0; 0];
    [0; 0; 0; 0; 0; 0; 0] ]%Z.

Definition stray_pixel_image : grid Z :=
  [ [0; 0; 0; 0; 0];
    [0; 1; 1; 1; 0];
    [0; 1; 1; 1; 0];
    [0; 1; 1; 1; 0];
    [0; 0; 0; 0; 1] ]%Z.

Definition ring_image : grid Z :=
  [ [0; 0; 0; 0; 0];
    [0; 1; 1; 1; 0];
    [0; 1; 0; 1; 0];
    [0; 1; 1; 1; 0];
    [0; 0; 0; 0; 0] ]%Z.

Definition to_bool (g : grid Z) : grid bool := Np.map (fun v => negb (v =? 0)%Z) g.
Definition to_u8 (g : grid bool) : grid Z := Np.map Np.u8_of_bool g.

(** The reductions of a run with the [min_max] method, which takes
    none. *)
Definition mean_not_called (_ : grid sample) : sample := NaN.
Definition std_not_called (_ : grid sample) : sample := NaN.





Definition flat_dem : grid sample := constant_grid 9 9 (Num 0).

(** Two one-row hazard layers. *)
Definition layer_a : grid sample := [ [Num 0; Num 1] ].
Definition layer_b : grid sample := [ [Num 1; Num 0] ].

(** The weights 0.35 / 0.35 / 0.30, the same table with the entry of a role
    that is no input layer, and the table without the exposure entry. *)
Definition weights_table : dict Q :=
  [ ("landslide"%string, 35 # 100); ("flood"%string, 35 # 100);
    ("exposure"%string, 30 # 100) ].

Definition weights_with_extra_role : dict Q :=
  weights_table ++ [ ("seismic"%string, 1) ].

Definition weights_without_exposure : dict Q :=
  [ ("landslide"%string, 35 # 100); ("flood"%string, 35 # 100) ].

(** Risk values in each of the five bins of the configured thresholds,
    a NaN and a nodata sample. *)
Definition risk_samples : grid sample :=
  [ [Num (1 # 10); Num (3 # 10); Num (5 # 10); Num (7 # 10); Num (9 # 10);
     NaN; Num (-9999)] ].

(** A stand-in for the Otsu collaborator in runs that call it: the middle
    of the range of the values, and an error on no value. *)
Definition threshold_midrange (vals : list sample) : result sample :=
  match vals with
  | [] => Raise (LibraryError "threshold_otsu")
  | x :: l =>
      Ok (Np.div (Np.add (fold_left Np.minimum l x) (fold_left Np.maximum l x))
                 (Num 2))
  end.

(** Pixel [(i, j)] of an image with rows of the widths [widths] lies [n]
    pixels or more from each edge. *)
Definition inside (n : nat) (widths : list nat) (i j : nat) : Prop :=
  (n <= i /\ n <= j /\ i + n < length widths /\
   exists w, nth_error widths i = Some w /\ j + n < w)%nat.

(** A 9x9 binary mask with every pixel set. *)
Definition full_mask : grid Z := constant_grid 9 9 1%Z.

(** A 9x9 scene of water with one land pixel in the corner, and the 9x9
    mask whose central 3x3 block is set. *)
Definition mixed_scene : grid sample :=
  set_pixel (constant_grid 9 9 water) 0 0 land.

Definition centre_mask : grid Z :=
  Np.imap (fun i row =>
    Np.imap (fun j (_ : Z) =>
      if (3 <=? i)%nat && (i <=? 5)%nat && (3 <=? j)%nat && (j <=? 5)%nat
      then 1%Z else 0%Z) row) (constant_grid 9 9 0%Z).

(** The statistics of that mask for the pixel size 30. *)
Definition centre_statistics : flood_statistics :=
  {| flood_pixels := 9;
     flood_area_m2 := 8100;
     flood_area_km2 := 8100 / 1000000;
     total_pixels := 81;
     flood_percentage := Num (9 / 81 * 100) |}.

(** An array with one NaN sample, and an array of no sample. *)
Definition nan_array : grid sample := [ [Num 2; NaN]; [Num 3; Num 6] ].
Definition empty_array : grid sample := [ []; [] ].

(** [sqrt] on the squares the examples need, zero elsewhere. *)
Definition sqrt_of_squares (q : Q) : Q :=
  if Qeq_bool q (9 # 4) then 3 # 2 else if Qeq_bool q 4 then 2 else 0.

(** Stand-ins for the [float32] reductions: the mean in exact arithmetic,
    and the root of the mean squared deviation from it. *)
Definition exact_std (sqrt : Q -> Q) (g : grid sample) : sample :=
  let m := Np.exact_mean g in
  match Np.exact_mean (Np.map (fun x => Np.mul (Np.sub x m) (Np.sub x m)) g) with
  | NaN => NaN
  | Num v => Num (sqrt v)
  end.

Definition two_level_array : grid sample := [ [Num 0; Num 4] ].

(** A sample is a number of [0, 1]. *)
Definition in_unit (x : sample) : Prop :=
  exists v, x = Num v /\ 0 <= v <= 1.

(** Hazard layers with values in [0, 1]. *)
Definition probability_layer : grid sample :=
  [ [Num (1 # 10); Num (9 # 10)]; [Num (5 # 10); Num (3 # 10)] ].

Definition flood_layer : grid sample :=
  [ [Num 0; Num 1]; [Num 1; Num 0] ].

Definition exposure_layer : grid sample :=
  [ [Num (2 # 10); Num (2 # 10)]; [Num 1; Num 0] ].

Definition zero_weights : dict Q :=
  [ ("landslide"%string, 0); ("flood"%string, 0) ].

Definition landslide_only_weights : dict Q :=
  [ ("landslide"%string, 1) ].

(** A threshold table without the last bound. *)
Definition thresholds_without_high : dict Q :=
  [ ("very_low"%string, 2 # 10); ("low"%string, 4 # 10);
    ("moderate"%string, 6 # 10) ].




Definition population_counts : grid sample :=
  [ [Num 10; Num 250]; [Num 0; Num 40] ].

(** [COLORMAPS['flood']] of config.py and the class mapping the preview
    uses with it. *)
Definition COLORMAPS_flood : dict string :=
  [ ("no_flood"%string, "#F7F7F7"%string); ("flood"%string, "#3498DB"%string) ].

Definition flood_class_mapping : list (Z * string) :=
  [ (0%Z, "no_flood"%string); (1%Z, "flood"%string) ].

(** A stand-in for [int(s, 16)]: its value on two hexadecimal digits, an
    error elsewhere. *)
Definition hex_digit (c : ascii) : result Z :=
  let n := Z.of_N (N_of_ascii c) in
  if (48 <=? n)%Z && (n <=? 57)%Z then Ok (n - 48)%Z
  else if (65 <=? n)%Z && (n <=? 70)%Z then Ok (n - 55)%Z
  else if (97 <=? n)%Z && (n <=? 102)%Z then Ok (n - 87)%Z
  else Raise (ValueError "invalid literal for int() with base 16").

Definition int16_two_digits (s : string) : result Z :=
  match s with
  | String a (String b EmptyString) =>
      hi <- hex_digit a ;; lo <- hex_digit b ;; Ok (16 * hi + lo)%Z
  | _ => Raise (ValueError "invalid literal for int() with base 16")
  end.

(** A threshold table without the second bound. *)
Definition thresholds_without_low : dict Q :=
  [ ("very_low"%string, 2 # 10); ("moderate"%string, 6 # 10);
    ("high"%string, 8 # 10) ].

(** A stack of two 2x2 bands; the second has a nodata and a NaN sample. *)
Definition feature_stack : list (grid sample) :=
  [ [ [Num 10; Num 20]; [Num 30; Num 40] ];
    [ [Num 1; Num (-9999)]; [NaN; Num 4] ] ].

(** A stand-in for the classifier: probability 0.9 for every row. *)
Definition predict_high (rows : list (list sample)) : result (list sample) :=
  Ok (List.map (fun _ => Num (9 # 10)) rows).

(* ===================================================================== *)
(** ** Facts about rounding *)
(* ===================================================================== *)

Lemma Qcompare_cases (a b : Q) :
  (Qcompare a b = Lt /\ a < b) \/ (Qcompare a b = Eq /\ a == b) \/
  (Qcompare a b = Gt /\ b < a).
Proof.
  destruct (Qcompare a b) eqn:E.
  - right. left. split; [reflexivity|]. now apply Qeq_alt.
  - left. split; [reflexivity|]. now apply Qlt_alt.
  - right. right. split; [reflexivity|]. now apply Qgt_alt.
Qed.

Lemma round_half_even_near (x : Q) :
  (Qfloor x <= Np.round_half_even x <= Qfloor x + 1)%Z.
Proof.
  unfold Np.round_half_even. cbv zeta.
  destruct (Qcompare _ _); [destruct (Z.even _)|..]; lia.
Qed.

Lemma round_half_even_le (x y : Q) :
  x <= y -> (Np.round_half_even x <= Np.round_half_even y)%Z.
Proof.
  intro H. pose proof (Qfloor_resp_le x y H) as F.
  destruct (Z.eq_dec (Qfloor x) (Qfloor y)) as [E|N].
  - unfold Np.round_half_even. cbv zeta. rewrite E.
    destruct (Qcompare_cases (x - inject_Z (Qfloor y)) (1 # 2)) as [[-> X]|[[-> X]|[-> X]]];
    destruct (Qcompare_cases (y - inject_Z (Qfloor y)) (1 # 2)) as [[-> Y]|[[-> Y]|[-> Y]]];
    try destruct (Z.even (Qfloor y)); try lia; exfalso; lra.
  - pose proof (round_half_even_near x). pose proof (round_half_even_near y). lia.
Qed.

Lemma round_half_even_Z (n : Z) : Np.round_half_even (inject_Z n) = n.
Proof.
  unfold Np.round_half_even. cbv zeta. rewrite Qfloor_Z.
  destruct (Qcompare_cases (inject_Z n - inject_Z n) (1 # 2)) as [[-> X]|[[-> X]|[-> X]]];
    [reflexivity | exfalso; lra | exfalso; lra].
Qed.

Lemma pow2_pos (k : Z) : 0 < 2 ^ k.
Proof. apply Qpower_0_lt. reflexivity. Qed.

Lemma pow2_succ (k : Z) : 2 ^ (k + 1) == 2 * 2 ^ k.
Proof. rewrite Qpower_plus by discriminate. change (2 ^ 1) with 2. ring. Qed.

Lemma pow2_le (a b : Z) : (a <= b)%Z -> 2 ^ a <= 2 ^ b.
Proof. intro H. apply Qpower_le_compat_l; [exact H | discriminate]. Qed.

Lemma pow2_log2 (n : Z) :
  (0 < n)%Z -> 2 ^ Z.log2 n <= inject_Z n /\ inject_Z n < 2 * 2 ^ Z.log2 n.
Proof.
  intro H. destruct (Z.log2_spec n H) as [L U].
  pose proof (Z.log2_nonneg n) as P.
  split.
  - change 2 with (inject_Z 2) at 1. rewrite <- Zpower_Qpower by exact P.
    rewrite <- Zle_Qle. exact L.
  - rewrite <- pow2_succ. change 2 with (inject_Z 2).
    rewrite <- Zpower_Qpower by lia. rewrite <- Zlt_Qlt.
    replace (Z.log2 n + 1)%Z with (Z.succ (Z.log2 n)) by lia. exact U.
Qed.

Lemma ilog2_spec (q : Q) :
  0 < q -> 2 ^ Np.ilog2 q <= q /\ q < 2 ^ (Np.ilog2 q + 1).
Proof.
  intro Hq. unfold Np.ilog2. cbv zeta.
  destruct q as [n d]. cbn [Qnum Qden].
  assert (Hn : (0 < n)%Z) by (unfold Qlt in Hq; simpl in Hq; lia).
  destruct (pow2_log2 n Hn) as [An Bn].
  destruct (pow2_log2 (Zpos d) eq_refl) as [Ad Bd].
  set (ln := Z.log2 n) in *. set (ld := Z.log2 (Zpos d)) in *.
  pose proof (pow2_pos ln) as Pn. pose proof (pow2_pos ld) as Pd.
  pose proof (pow2_pos (ln - ld)) as Pe.
  assert (E : 2 ^ (ln - ld) * 2 ^ ld == 2 ^ ln).
  { rewrite <- Qpower_plus by discriminate.
    replace (ln - ld + ld)%Z with ln by lia. reflexivity. }
  assert (Q : (n # d) * inject_Z (Zpos d) == inject_Z n).
  { rewrite (Qmake_Qdiv n d). field. discriminate. }
  assert (D : 0 < inject_Z (Zpos d)) by reflexivity.
  destruct (Qle_bool (2 ^ (ln - ld)) (n # d)) eqn:C.
  - apply Qle_bool_iff in C. split; [exact C|].
    rewrite pow2_succ. nra.
  - assert (C' : n # d < 2 ^ (ln - ld)).
    { apply Qnot_le_lt. intro H. apply Qle_bool_iff in H. congruence. }
    replace (ln - ld - 1 + 1)%Z with (ln - ld)%Z by lia. split; [|exact C'].
    assert (H2 : 2 * 2 ^ (ln - ld - 1) == 2 ^ (ln - ld)).
    { rewrite <- pow2_succ. replace (ln - ld - 1 + 1)%Z with (ln - ld)%Z by lia.
      reflexivity. }
    pose proof (pow2_pos (ln - ld - 1)). nra.
Qed.

Lemma pow2_lt_inv (a b : Z) : 2 ^ a < 2 ^ b -> (a < b)%Z.
Proof. intro H. apply (Qpower_lt_compat_l_inv 2); [exact H | reflexivity]. Qed.

Lemma Qle_bool_false (a b : Q) : Qle_bool a b = false -> b < a.
Proof.
  intro H. apply Qnot_le_lt. intro C. apply Qle_bool_iff in C. congruence.
Qed.

Lemma exponent_min (emin : Z) (q : Q) : (emin <= Np.exponent emin q)%Z.
Proof. unfold Np.exponent. destruct (Qle_bool _ _); lia. Qed.

Lemma exponent_upper (emin : Z) (q : Q) : Qabs q < 2 ^ (Np.exponent emin q + 1).
Proof.
  unfold Np.exponent. destruct (Qle_bool (Qabs q) 0) eqn:E.
  - apply Qle_bool_iff in E. pose proof (pow2_pos (emin + 1)). lra.
  - apply Qle_bool_false in E. destruct (ilog2_spec _ E) as [_ U].
    eapply Qlt_le_trans; [exact U|]. apply pow2_le. lia.
Qed.

Lemma exponent_lower (emin : Z) (q : Q) :
  (emin < Np.exponent emin q)%Z -> 2 ^ Np.exponent emin q <= Qabs q.
Proof.
  unfold Np.exponent. destruct (Qle_bool (Qabs q) 0) eqn:E; [lia|].
  apply Qle_bool_false in E. destruct (ilog2_spec _ E) as [L _].
  intro H. replace (Z.max (Np.ilog2 (Qabs q)) emin) with (Np.ilog2 (Qabs q)) by lia.
  exact L.
Qed.

Lemma exponent_le (emin : Z) (x y : Q) :
  Qabs x <= Qabs y -> (Np.exponent emin x <= Np.exponent emin y)%Z.
Proof.
  intro H. unfold Np.exponent.
  destruct (Qle_bool (Qabs x) 0) eqn:Ex.
  - destruct (Qle_bool (Qabs y) 0); lia.
  - apply Qle_bool_false in Ex.
    destruct (Qle_bool (Qabs y) 0) eqn:Ey.
    + apply Qle_bool_iff in Ey. exfalso. lra.
    + apply Qle_bool_false in Ey.
      destruct (ilog2_spec _ Ex) as [Lx _]. destruct (ilog2_spec _ Ey) as [_ Uy].
      assert (Np.ilog2 (Qabs x) < Np.ilog2 (Qabs y) + 1)%Z by (apply pow2_lt_inv; lra).
      lia.
Qed.

Section Rounding.


Variables prec emin : Z.
Hypothesis prec_pos : (1 <= prec)%Z.

Let ulp (q : Q) : Q := 2 ^ (Np.exponent emin q - (prec - 1)).

Lemma round_float_eq (q : Q) :
  Np.round_float prec emin q == inject_Z (Np.round_half_even (q / ulp q)) * ulp q.
Proof. unfold Np.round_float. cbv zeta. apply Qred_correct. Qed.

Lemma ulp_pos (q : Q) : 0 < ulp q.
Proof. apply pow2_pos. Qed.

Lemma ulp_scale (q : Q) (k : Z) :
  (0 <= k)%Z -> inject_Z (2 ^ k) * ulp q == 2 ^ (k + (Np.exponent emin q - (prec - 1))).
Proof.
  intro H. change 2%Z with (Qnum 2) at 1.
  unfold ulp. rewrite Qpower_plus by discriminate.
  change (inject_Z (Qnum 2 ^ k)) with (inject_Z (2 ^ k)).
  rewrite (Zpower_Qpower 2 k H). reflexivity.
Qed.

(** A value at most an integer multiple of the unit rounds to at most it. *)
Lemma round_float_le_multiple (q : Q) (n : Z) :
  q <= inject_Z n * ulp q -> Np.round_float prec emin q <= inject_Z n * ulp q.
Proof.
  intro H. rewrite round_float_eq. pose proof (ulp_pos q) as P.
  apply Qmult_le_compat_r; [|lra].
  rewrite <- Zle_Qle. rewrite <- (round_half_even_Z n).
  apply round_half_even_le. apply Qle_shift_div_r; assumption.
Qed.

Lemma round_float_ge_multiple (q : Q) (n : Z) :
  inject_Z n * ulp q <= q -> inject_Z n * ulp q <= Np.round_float prec emin q.
Proof.
  intro H. rewrite round_float_eq. pose proof (ulp_pos q) as P.
  apply Qmult_le_compat_r; [|lra].
  rewrite <- Zle_Qle. rewrite <- (round_half_even_Z n) at 1.
  apply round_half_even_le. apply Qle_shift_div_l; assumption.
Qed.

Lemma binade_top (q : Q) :
  inject_Z (2 ^ prec) * ulp q == 2 ^ (Np.exponent emin q + 1).
Proof.
  rewrite ulp_scale by lia.
  replace (prec + (Np.exponent emin q - (prec - 1)))%Z with (Np.exponent emin q + 1)%Z by lia.
  reflexivity.
Qed.

Lemma binade_bottom (q : Q) :
  inject_Z (2 ^ (prec - 1)) * ulp q == 2 ^ Np.exponent emin q.
Proof.
  rewrite ulp_scale by lia.
  replace (prec - 1 + (Np.exponent emin q - (prec - 1)))%Z with (Np.exponent emin q) by lia.
  reflexivity.
Qed.

Lemma round_float_upper (q : Q) :
  Np.round_float prec emin q <= 2 ^ (Np.exponent emin q + 1).
Proof.
  rewrite <- binade_top. apply round_float_le_multiple. rewrite binade_top.
  pose proof (exponent_upper emin q). pose proof (Qle_Qabs q). lra.
Qed.

Lemma round_float_lower (q : Q) :
  - 2 ^ (Np.exponent emin q + 1) <= Np.round_float prec emin q.
Proof.
  rewrite <- binade_top.
  setoid_replace (- (inject_Z (2 ^ prec) * ulp q))
    with (inject_Z (- 2 ^ prec) * ulp q)
    by (rewrite inject_Z_opp; ring).
  apply round_float_ge_multiple.
  rewrite inject_Z_opp.
  setoid_replace (- inject_Z (2 ^ prec) * ulp q)
    with (- (inject_Z (2 ^ prec) * ulp q)) by ring.
  rewrite binade_top.
  pose proof (exponent_upper emin q). pose proof (Qle_Qabs (- q)).
  rewrite Qabs_opp in H0. lra.
Qed.

Lemma round_float_normal_pos (q : Q) :
  (emin < Np.exponent emin q)%Z -> 0 <= q ->
  2 ^ Np.exponent emin q <= Np.round_float prec emin q.
Proof.
  intros H Hq. rewrite <- binade_bottom. apply round_float_ge_multiple.
  rewrite binade_bottom. pose proof (exponent_lower emin q H).
  rewrite Qabs_pos in H0 by exact Hq. exact H0.
Qed.

Lemma round_float_normal_neg (q : Q) :
  (emin < Np.exponent emin q)%Z -> q <= 0 ->
  Np.round_float prec emin q <= - 2 ^ Np.exponent emin q.
Proof.
  intros H Hq. rewrite <- binade_bottom.
  setoid_replace (- (inject_Z (2 ^ (prec - 1)) * ulp q))
    with (inject_Z (- 2 ^ (prec - 1)) * ulp q)
    by (rewrite inject_Z_opp; ring).
  apply round_float_le_multiple.
  rewrite inject_Z_opp.
  setoid_replace (- inject_Z (2 ^ (prec - 1)) * ulp q)
    with (- (inject_Z (2 ^ (prec - 1)) * ulp q)) by ring.
  rewrite binade_bottom. pose proof (exponent_lower emin q H).
  rewrite Qabs_neg in H0 by exact Hq. lra.
Qed.

Lemma round_float_same_binade (x y : Q) :
  Np.exponent emin x = Np.exponent emin y -> x <= y ->
  Np.round_float prec emin x <= Np.round_float prec emin y.
Proof.
  intros E H. rewrite !round_float_eq. unfold ulp. rewrite E.
  pose proof (pow2_pos (Np.exponent emin y - (prec - 1))) as P.
  apply Qmult_le_compat_r; [|lra].
  rewrite <- Zle_Qle. apply round_half_even_le.
  apply Qmult_le_compat_r; [exact H|]. apply Qinv_le_0_compat. lra.
Qed.

(** Rounding keeps the order. *)
Lemma round_float_le (x y : Q) :
  x <= y -> Np.round_float prec emin x <= Np.round_float prec emin y.
Proof.
  intro H.
  destruct (Z.lt_trichotomy (Np.exponent emin x) (Np.exponent emin y)) as [L|[E|G]].
  - pose proof (exponent_min emin x) as Mx.
    destruct (Qlt_le_dec 0 y) as [Py|Ny].
    + pose proof (round_float_normal_pos y ltac:(lia) ltac:(lra)) as Ly.
      pose proof (round_float_upper x) as Ux.
      pose proof (pow2_le (Np.exponent emin x + 1) (Np.exponent emin y) ltac:(lia)).
      lra.
    + exfalso. assert (A : Qabs y <= Qabs x).
      { rewrite !Qabs_neg by lra. lra. }
      apply (exponent_le emin) in A. lia.
  - apply round_float_same_binade; assumption.
  - pose proof (exponent_min emin y) as My.
    destruct (Qlt_le_dec x 0) as [Nx|Px].
    + pose proof (round_float_normal_neg x ltac:(lia) ltac:(lra)) as Lx.
      pose proof (round_float_lower y) as Uy.
      pose proof (pow2_le (Np.exponent emin y + 1) (Np.exponent emin x) ltac:(lia)).
      lra.
    + exfalso. assert (A : Qabs x <= Qabs y).
      { rewrite !Qabs_pos by lra. lra. }
      apply (exponent_le emin) in A. lia.
Qed.

End Rounding.

Lemma float32_of_le (x y : Q) : x <= y -> Np.float32_of x <= Np.float32_of y.
Proof. apply round_float_le. lia. Qed.

(** A cast keeps the order of the values, and sends equal values to one
    value. *)
Lemma cast_le (dt : Np.dtype) (x y : Q) : x <= y -> Np.cast dt x <= Np.cast dt y.
Proof. destruct dt; [apply float32_of_le | auto]. Qed.

Lemma cast_eq (dt : Np.dtype) (x y : Q) : x == y -> Np.cast dt x == Np.cast dt y.
Proof.
  intro H. apply Qle_antisym; apply cast_le; rewrite H; apply Qle_refl.
Qed.

Lemma cast_0 (dt : Np.dtype) : Np.cast dt 0 = 0.
Proof. destruct dt; reflexivity. Qed.

Lemma cast_1 (dt : Np.dtype) : Np.cast dt 1 = 1.
Proof. destruct dt; reflexivity. Qed.

(* ===================================================================== *)
(** ** Facts about samples and grids *)
(* ===================================================================== *)

Lemma Qlt_bool_iff (a b : Q) : Np.Qlt_bool a b = true <-> a < b.
Proof.
  unfold Np.Qlt_bool. rewrite negb_true_iff.
  split; intro H.
  - apply Qnot_le_lt. intro Hle. apply Qle_bool_iff in Hle. congruence.
  - destruct (Qle_bool b a) eqn:E; [|reflexivity].
    apply Qle_bool_iff in E. exfalso. apply (Qlt_not_le _ _ H E).
Qed.

Lemma lt_below (x : sample) (t : Q) : Np.lt x (Num t) = true <-> below x t.
Proof.
  unfold below. destruct x as [|q]; simpl.
  - split; [discriminate | intros (q & Hq & _); discriminate].
  - rewrite Qlt_bool_iff. split.
    + intro H. exists q. split; [reflexivity | exact H].
    + intros (q' & Hq & H). inversion Hq; subst. exact H.
Qed.

Lemma gt_exceeds (e : sample) (c : Q) : Np.gt e (Num c) = true <-> exceeds e c.
Proof.
  unfold exceeds, Np.gt. destruct e as [|q]; simpl.
  - split; [discriminate | intros (q & Hq & _); discriminate].
  - rewrite Qlt_bool_iff. split.
    + intro H. exists q. split; [reflexivity | exact H].
    + intros (q' & Hq & H). inversion Hq; subst. exact H.
Qed.

Lemma below_eq (x : sample) (t t' : Q) : t == t' -> (below x t <-> below x t').
Proof.
  intro E. unfold below. split; intros (q & -> & H); exists q;
    (split; [reflexivity|]); lra.
Qed.

Lemma exceeds_eq (e : sample) (c c' : Q) : c == c' -> (exceeds e c <-> exceeds e c').
Proof.
  intro E. unfold exceeds. split; intros (q & -> & H); exists q;
    (split; [reflexivity|]); lra.
Qed.

Lemma valid_sample_iff (x : sample) : valid_sample x = true <-> is_valid x.
Proof.
  unfold valid_sample, is_valid. destruct x as [|q]; simpl.
  - split; [discriminate | intros (q & Hq & _); discriminate].
  - rewrite negb_true_iff. split.
    + intro H. exists q. split; [reflexivity|].
      intro E. apply Qeq_bool_iff in E. congruence.
    + intros (q' & Hq & H). inversion Hq; subst.
      destruct (Qeq_bool q' (-9999)) eqn:E; [|reflexivity].
      apply Qeq_bool_iff in E. contradiction.
Qed.

Lemma shape_eqb_eq (s t : nat * nat) : Np.shape_eqb s t = true <-> s = t.
Proof.
  destruct s as [a b], t as [c d]. unfold Np.shape_eqb. simpl.
  rewrite andb_true_iff, !Nat.eqb_eq. split.
  - intros [-> ->]. reflexivity.
  - intro H. inversion H. auto.
Qed.

Lemma nth_error_zip_with {A B C} (f : A -> B -> C) (l : list A) (m : list B) i :
  nth_error (Np.zip_with f l m) i =
  match nth_error l i, nth_error m i with
  | Some a, Some b => Some (f a b)
  | _, _ => None
  end.
Proof.
  revert m i. induction l as [|a l IH]; intros [|b m] [|i]; simpl; try reflexivity.
  - destruct (nth_error l i); reflexivity.
  - apply IH.
Qed.

Lemma length_zip_with {A B C} (f : A -> B -> C) (l : list A) (m : list B) :
  length l = length m -> length (Np.zip_with f l m) = length l.
Proof.
  revert m. induction l as [|a l IH]; intros [|b m]; simpl; intro H;
    try reflexivity; try discriminate.
  f_equal. apply IH. now inversion H.
Qed.

Section GridFacts.

Context {A B C : Type}.

Lemma get_map (f : A -> B) (g : grid A) i j :
  Np.get (Np.map f g) i j = option_map f (Np.get g i j).
Proof.
  unfold Np.get, Np.map. rewrite nth_error_map.
  destruct (nth_error g i) as [row|]; simpl; [|reflexivity].
  apply nth_error_map.
Qed.

Lemma shape_map (f : A -> B) (g : grid A) : Np.shape (Np.map f g) = Np.shape g.
Proof.
  unfold Np.shape, Np.map. rewrite length_map.
  destruct g as [|row g]; simpl; [reflexivity|]. now rewrite length_map.
Qed.

Lemma get_map2 (f : A -> B -> C) (g : grid A) (h : grid B) i j :
  Np.get (Np.map2 f g h) i j =
  match Np.get g i j, Np.get h i j with
  | Some a, Some b => Some (f a b)
  | _, _ => None
  end.
Proof.
  unfold Np.get, Np.map2. rewrite nth_error_zip_with.
  destruct (nth_error g i) as [r|], (nth_error h i) as [s|]; simpl; try reflexivity.
  - apply nth_error_zip_with.
  - destruct (nth_error r j); reflexivity.
Qed.

Lemma shape_map2 (f : A -> B -> C) (g : grid A) (h : grid B) :
  Np.shape g = Np.shape h -> Np.shape (Np.map2 f g h) = Np.shape g.
Proof.
  unfold Np.shape, Np.map2. intro H. inversion H as [[H1 H2]].
  rewrite length_zip_with by assumption.
  destruct g as [|r g], h as [|s h]; simpl in *; try reflexivity; try discriminate.
  now rewrite length_zip_with.
Qed.

(** In rectangular arrays of one shape the same positions exist. *)
Lemma get_same_shape (g : grid A) (h : grid B) i j a :
  Np.rect g -> Np.rect h -> Np.shape g = Np.shape h ->
  Np.get g i j = Some a -> exists b, Np.get h i j = Some b.
Proof.
  unfold Np.get. intros Rg Rh S G.
  destruct (nth_error g i) as [r|] eqn:Er; [|discriminate].
  assert (Hi : (i < length h)%nat).
  { assert (length g = length h) by (unfold Np.shape in S; now inversion S).
    rewrite <- H. apply nth_error_Some. congruence. }
  destruct (nth_error h i) as [s|] eqn:Es;
    [|apply nth_error_None in Es; lia].
  assert (Hr : length r = snd (Np.shape g)).
  { unfold Np.rect in Rg. rewrite Forall_forall in Rg. apply Rg.
    eapply nth_error_In; eauto. }
  assert (Hs : length s = snd (Np.shape h)).
  { unfold Np.rect in Rh. rewrite Forall_forall in Rh. apply Rh.
    eapply nth_error_In; eauto. }
  assert (Hj : (j < length s)%nat).
  { rewrite Hs, <- S, <- Hr. apply nth_error_Some. congruence. }
  destruct (nth_error s j) as [b|] eqn:Eb;
    [eauto | apply nth_error_None in Eb; lia].
Qed.

Lemma every_pixel_get (P : A -> Prop) (g : grid A) i j a :
  every_pixel P g -> Np.get g i j = Some a -> P a.
Proof.
  unfold every_pixel, Np.get. intros H G.
  destruct (nth_error g i) as [row|] eqn:Er; [|discriminate].
  rewrite Forall_forall in H. specialize (H row (nth_error_In _ _ Er)).
  rewrite Forall_forall in H. apply H. eapply nth_error_In; eauto.
Qed.

End GridFacts.

(** Discharges [every_pixel], [rect] and the like on a literal array. *)
Ltac pixelwise :=
  repeat first [apply Forall_nil | apply Forall_cons];
  try reflexivity;
  try (left; reflexivity); try (right; reflexivity).

(** *** Shapes under morphology *)

Lemma shape_row_lengths {A B} (g : grid A) (h : grid B) :
  row_lengths g = row_lengths h -> Np.shape g = Np.shape h.
Proof.
  unfold Np.shape, row_lengths. intro H.
  assert (L : length g = length h).
  { rewrite <- (length_map (@length A) g), <- (length_map (@length B) h).
    now rewrite H. }
  rewrite L. destruct g, h; simpl in *; try discriminate; try reflexivity.
  inversion H. congruence.
Qed.

Lemma length_imap_from {A B} (f : nat -> A -> B) n l :
  length (Np.imap_from f n l) = length l.
Proof.
  revert n. induction l as [|a l IH]; intro n; simpl; [reflexivity|].
  now rewrite IH.
Qed.

Lemma row_lengths_imap2 {A B} (f : nat -> nat -> A -> B) (g : grid A) :
  row_lengths (Np.imap (fun i row => Np.imap (f i) row) g) = row_lengths g.
Proof.
  unfold row_lengths.
  change (Np.imap (fun i row => Np.imap (f i) row) g)
    with (Np.imap_from (fun i row => Np.imap (f i) row) 0 g).
  generalize 0%nat.
  induction g as [|row g IH]; intro n; simpl; [reflexivity|].
  rewrite IH. f_equal. apply length_imap_from.
Qed.

Lemma row_lengths_map {A B} (f : A -> B) (g : grid A) :
  row_lengths (Np.map f g) = row_lengths g.
Proof.
  unfold row_lengths, Np.map. rewrite map_map.
  apply map_ext. intro row. apply length_map.
Qed.

Lemma row_lengths_repeat_step (step : grid bool -> grid bool) iterations g :
  (forall h, row_lengths (step h) = row_lengths h) ->
  row_lengths (Ndimage.repeat_step step iterations g) = row_lengths g.
Proof.
  intro Hstep. unfold Ndimage.repeat_step.
  destruct (1 <=? iterations)%Z.
  - induction (Z.to_nat iterations) as [|n IH]; simpl; [reflexivity|].
    now rewrite Hstep.
  - generalize (S (Np.size g)). intro fuel. revert g.
    induction fuel as [|fuel IH]; intro g; simpl; [reflexivity|].
    destruct (Ndimage.grid_eqb g (step g)); [reflexivity|].
    now rewrite IH, Hstep.
Qed.

Lemma row_lengths_morphology (mask : grid Z) kernel_size :
  row_lengths (apply_morphological_operations mask kernel_size) = row_lengths mask.
Proof.
  unfold apply_morphological_operations, Ndimage.binary_closing,
    Ndimage.binary_opening, Ndimage.binary_erosion, Ndimage.binary_dilation.
  rewrite row_lengths_map.
  repeat (rewrite row_lengths_repeat_step;
          [| intro; first [apply (row_lengths_imap2 (fun i j (_ : bool) => _))]]).
  apply row_lengths_map.
Qed.

(** *** The repeat-until-stable loop of the morphology *)

Lemma Forall2_imap_from {A B} (R : B -> A -> Prop) (f : nat -> A -> B) n l :
  (forall k a, nth_error l k = Some a -> R (f (n + k)%nat a) a) ->
  Forall2 R (Np.imap_from f n l) l.
Proof.
  revert n. induction l as [|a l IH]; intros n H; simpl; constructor.
  - specialize (H 0%nat a eq_refl). now rewrite Nat.add_0_r in H.
  - apply IH. intros k b Hk.
    replace (S n + k)%nat with (n + S k)%nat by lia. apply (H (S k)). exact Hk.
Qed.

Lemma Forall2_imap_to {A B} (R : A -> B -> Prop) (f : nat -> A -> B) n l :
  (forall k a, nth_error l k = Some a -> R a (f (n + k)%nat a)) ->
  Forall2 R l (Np.imap_from f n l).
Proof.
  revert n. induction l as [|a l IH]; intros n H; simpl; constructor.
  - specialize (H 0%nat a eq_refl). now rewrite Nat.add_0_r in H.
  - apply IH. intros k b Hk.
    replace (S n + k)%nat with (n + S k)%nat by lia. apply (H (S k)). exact Hk.
Qed.

Lemma pixel_nth (g : grid bool) i j row c :
  nth_error g i = Some row -> nth_error row j = Some c ->
  Ndimage.pixel g (Z.of_nat i) (Z.of_nat j) = c.
Proof.
  intros Hr Hc. unfold Ndimage.pixel.
  destruct (Z.ltb_spec (Z.of_nat i) 0); [lia|].
  destruct (Z.ltb_spec (Z.of_nat j) 0); [lia|].
  cbn [orb]. rewrite !Nat2Z.id.
  rewrite (nth_error_nth g i [] Hr). apply nth_error_nth. exact Hc.
Qed.

(** An erosion by an element whose centre is set only clears pixels, a
    dilation only sets them. *)
Lemma erode_step_below (structure g : grid bool) :
  In (0, 0)%Z (Ndimage.offsets structure) ->
  below_image (Ndimage.erode_step structure g) g.
Proof.
  intro Hc. unfold below_image, Ndimage.erode_step, Np.imap.
  apply Forall2_imap_from. intros i row Hr.
  apply Forall2_imap_from. intros j c Hj H.
  rewrite forallb_forall in H. specialize (H _ Hc). cbn [fst snd] in H.
  rewrite !Z.add_0_r in H. cbn [Nat.add] in H.
  now rewrite (pixel_nth g i j row c Hr Hj) in H.
Qed.

Lemma dilate_step_above (structure g : grid bool) :
  In (0, 0)%Z (Ndimage.offsets structure) ->
  below_image g (Ndimage.dilate_step structure g).
Proof.
  intro Hc. unfold below_image, Ndimage.dilate_step, Np.imap.
  apply Forall2_imap_to. intros i row Hr.
  apply Forall2_imap_to. intros j c Hj H.
  apply existsb_exists. exists (0, 0)%Z. split; [exact Hc|].
  cbn [fst snd Nat.add]. rewrite !Z.sub_0_r.
  now rewrite (pixel_nth g i j row c Hr Hj).
Qed.

Lemma below_row_counts (r r' : list bool) :
  Forall2 (fun a b : bool => a = true -> b = true) r r' ->
  (length (filter (fun b : bool => b) r) <= length (filter (fun b : bool => b) r')
   /\ length (filter negb r') <= length (filter negb r))%nat /\
  (r <> r' ->
   (length (filter (fun b : bool => b) r) < length (filter (fun b : bool => b) r')
    /\ length (filter negb r') < length (filter negb r))%nat).
Proof.
  induction 1 as [|a b r r' Hab H IH]; [split; [simpl; lia | congruence]|].
  destruct IH as [[L1 L2] IH]. split.
  - destruct a, b; simpl; try lia; discriminate (Hab eq_refl).
  - intro Hne. destruct a, b; simpl; try lia;
      try discriminate (Hab eq_refl);
      (assert (Hr : r <> r') by congruence); specialize (IH Hr); lia.
Qed.

Lemma below_image_counts (g h : grid bool) :
  below_image g h ->
  (count_set g <= count_set h /\ count_unset h <= count_unset g)%nat /\
  (g <> h -> (count_set g < count_set h /\ count_unset h < count_unset g)%nat).
Proof.
  unfold count_set, count_unset.
  induction 1 as [|r r' g h Hr H IH]; [split; [simpl; lia | congruence]|].
  destruct IH as [[L1 L2] IH].
  destruct (below_row_counts r r' Hr) as [[R1 R2] RS].
  simpl. rewrite !filter_app, !length_app. split; [lia|].
  intro Hne.
  destruct (list_eq_dec bool_dec r r') as [->|Hrr].
  - assert (Hg : g <> h) by congruence. specialize (IH Hg). lia.
  - specialize (RS Hrr). lia.
Qed.

Lemma grid_eqb_eq (g h : grid bool) : Ndimage.grid_eqb g h = true <-> g = h.
Proof.
  unfold Ndimage.grid_eqb.
  destruct (list_eq_dec (list_eq_dec bool_dec) g h); split; congruence.
Qed.

(** With as much fuel as a measure that every changing step lowers, the
    loop stops on an image the step leaves unchanged. *)
Lemma until_stable_fixed (step : grid bool -> grid bool)
  (mu : grid bool -> nat) :
  (forall g, step g <> g -> (mu (step g) < mu g)%nat) ->
  forall fuel g, (mu g < fuel)%nat ->
    step (Ndimage.until_stable fuel step g) = Ndimage.until_stable fuel step g.
Proof.
  intros Hmu. induction fuel as [|fuel IH]; intros g H; [lia|].
  simpl. destruct (Ndimage.grid_eqb g (step g)) eqn:E.
  - apply grid_eqb_eq in E. congruence.
  - apply IH.
    assert (Hne : step g <> g).
    { intro C. rewrite C in E.
      rewrite (proj2 (grid_eqb_eq g g) eq_refl) in E. discriminate. }
    specialize (Hmu g Hne). lia.
Qed.

Lemma count_set_size (g : grid bool) : (count_set g <= Np.size g)%nat.
Proof. unfold count_set, Np.size. apply filter_length_le. Qed.

Lemma count_unset_size (g : grid bool) : (count_unset g <= Np.size g)%nat.
Proof. unfold count_unset, Np.size. apply filter_length_le. Qed.

(** [iterations < 1]: the fuel given to the loop is enough, the erosion
    and the dilation return an image that a further step leaves as it is. *)
Lemma binary_erosion_stable (input structure : grid bool) (iterations : Z) :
  In (0, 0)%Z (Ndimage.offsets structure) -> (iterations < 1)%Z ->
  Ndimage.erode_step structure (Ndimage.binary_erosion input structure iterations)
  = Ndimage.binary_erosion input structure iterations.
Proof.
  intros Hc Hi. unfold Ndimage.binary_erosion, Ndimage.repeat_step.
  destruct (Z.leb_spec 1 iterations); [lia|].
  apply (until_stable_fixed (Ndimage.erode_step structure) count_set).
  - intros g Hne. apply (proj2 (below_image_counts _ _ (erode_step_below structure g Hc)) Hne).
  - pose proof (count_set_size input). lia.
Qed.

Lemma binary_dilation_stable (input structure : grid bool) (iterations : Z) :
  In (0, 0)%Z (Ndimage.offsets structure) -> (iterations < 1)%Z ->
  Ndimage.dilate_step structure (Ndimage.binary_dilation input structure iterations)
  = Ndimage.binary_dilation input structure iterations.
Proof.
  intros Hc Hi. unfold Ndimage.binary_dilation, Ndimage.repeat_step.
  destruct (Z.leb_spec 1 iterations); [lia|].
  apply (until_stable_fixed (Ndimage.dilate_step structure) count_unset).
  - intros g Hne.
    assert (Hne' : g <> Ndimage.dilate_step structure g) by congruence.
    apply (proj2 (below_image_counts _ _ (dilate_step_above structure g Hc)) Hne').
  - pose proof (count_unset_size input). lia.
Qed.

Lemma cross_centre : In (0, 0)%Z (Ndimage.offsets Ndimage.generate_binary_structure_2_1).
Proof. vm_compute. tauto. Qed.

(** *** The morphology on small images *)

(** One erosion by the cross keeps the pixels whose four neighbours are
    set. *)
Example binary_erosion_block :
  to_u8 (Ndimage.binary_erosion (to_bool block_image)
           Ndimage.generate_binary_structure_2_1 1)
  = [ [0; 0; 0; 0; 0; 0; 0];
      [0; 0; 0; 0; 0; 0; 0];
      [0; 0; 0; 1; 0; 0; 0];
      [0; 0; 0; 1; 0; 0; 0];
      [0; 0; 0; 1; 0; 0; 0];
      [0; 0; 0; 0; 0; 0; 0];
      [0; 0; 0; 0; 0; 0; 0] ]%Z.
Proof. reflexivity. Qed.

(** An opening by the cross removes the stray pixel and the corners of the
    block. *)
Example binary_opening_stray_pixel :
  to_u8 (Ndimage.binary_opening (to_bool stray_pixel_image)
           Ndimage.generate_binary_structure_2_1 1)
  = [ [0; 0; 0; 0; 0];
      [0; 0; 1; 0; 0];
      [0; 1; 1; 1; 0];
      [0; 0; 1; 0; 0];
      [0; 0; 0; 0; 0] ]%Z.
Proof. reflexivity. Qed.

(** A closing by the cross fills the hole of the ring; the border pixels
    the dilation sets are eroded again. *)
Example binary_closing_ring :
  to_u8 (Ndimage.binary_closing (to_bool ring_image)
           Ndimage.generate_binary_structure_2_1 1)
  = [ [0; 0; 0; 0; 0];
      [0; 1; 1; 1; 0];
      [0; 1; 1; 1; 0];
      [0; 1; 1; 1; 0];
      [0; 0; 0; 0; 0] ]%Z.
Proof. reflexivity. Qed.

(** The cleanup of the pipeline, three rounds each way: an image this
    small is opened away whole. *)
Example cleanup_small_image :
  apply_morphological_operations stray_pixel_image 3
  = constant_grid 5 5 0%Z.
Proof. reflexivity. Qed.

(** *** The two backscatter levels against the manual threshold *)



(* ===================================================================== *)
(** ** Thresholding ([apply_threshold]) *)
(* ===================================================================== *)

Section Thresholding.

Variable threshold_otsu : list sample -> result sample.

(** C7, as the source has it. In manual mode with threshold [t], the mask
    has the shape of the input, holds only 0 and 1, and is 1 at a pixel
    exactly when the sample there is valid (a number other than the nodata
    sentinel -9999) and strictly below [t] as cast to the dtype of the
    array; so a nodata or NaN sample is always 0.  For a threshold that is
    a value of the dtype the cast changes nothing. *)
Theorem apply_threshold_manual (dtype : Np.dtype) (sar_array : grid sample)
  (t : Q) i j x :
  Np.get sar_array i j = Some x ->
  exists mask m,
    apply_threshold threshold_otsu dtype sar_array (Some (Num t)) false = Ok mask /\
    Np.shape mask = Np.shape sar_array /\
    Np.get mask i j = Some m /\
    (m = 0 \/ m = 1)%Z /\
    (m = 1%Z <-> is_valid x /\ below x (Np.cast dtype t)) /\
    (~ is_valid x -> m = 0%Z) /\
    (Np.cast dtype t == t -> (m = 1%Z <-> is_valid x /\ below x t)).
Proof.
  intro G. unfold apply_threshold. cbn [bind Np.cast_sample].
  eexists. eexists. split; [reflexivity|].
  split; [apply shape_map|].
  split; [rewrite get_map, G; reflexivity|].
  split; [destruct (valid_sample x), (Np.lt x (Num (Np.cast dtype t))); simpl; auto|].
  assert (K : (if valid_sample x
               then Np.u8_of_bool (Np.lt x (Num (Np.cast dtype t))) else 0%Z) = 1%Z
              <-> is_valid x /\ below x (Np.cast dtype t)).
  { rewrite <- valid_sample_iff, <- lt_below.
    destruct (valid_sample x), (Np.lt x (Num (Np.cast dtype t))); simpl;
      intuition (auto; try congruence; try lia). }
  split; [exact K|]. split.
  - rewrite <- valid_sample_iff. destruct (valid_sample x); [|reflexivity].
    intro C. contradiction C. reflexivity.
  - intro E. rewrite K. rewrite (below_eq x _ _ E). reflexivity.
Qed.

(** C10. With Otsu thresholding selected the manual threshold argument is
    not read: two runs on one grid that differ only in it return the same
    result, from [apply_threshold] and from the whole pipeline. *)
Theorem otsu_ignores_manual_threshold (sar_dtype : Np.dtype)
  (sar_array : grid sample) (dem_dtype : Np.dtype) (dem_array : grid sample)
  (t1 t2 : option sample) (dem_threshold : sample) (morphology_kernel : Z) :
  apply_threshold threshold_otsu sar_dtype sar_array t1 true =
  apply_threshold threshold_otsu sar_dtype sar_array t2 true /\
  process_sar_for_flood threshold_otsu sar_dtype sar_array dem_dtype dem_array
    t1 true dem_threshold morphology_kernel =
  process_sar_for_flood threshold_otsu sar_dtype sar_array dem_dtype dem_array
    t2 true dem_threshold morphology_kernel.
Proof.
  split; [reflexivity|].
  unfold process_sar_for_flood.
  destruct (negb _); reflexivity.
Qed.

End Thresholding.

(* ===================================================================== *)
(** ** The elevation filter ([apply_dem_mask]) *)
(* ===================================================================== *)

Lemma apply_dem_mask_ok (water_mask : grid Z) (dtype : Np.dtype)
  (dem_array : grid sample) thr :
  Np.shape water_mask = Np.shape dem_array ->
  apply_dem_mask water_mask dtype dem_array thr =
  Ok (Np.map2 (fun (m : Z) (e : sample) =>
                 if Np.gt e (Np.cast_sample dtype thr) then 0%Z else m)
        water_mask dem_array).
Proof.
  intro S. unfold apply_dem_mask.
  now rewrite (proj2 (shape_eqb_eq _ _) S).
Qed.

(** C9, as the source has it. On a binary mask and an elevation grid of
    the same shape the filter returns a mask of that shape in which a
    pixel is 0 when its elevation strictly exceeds the ceiling as cast to
    the dtype of the elevation grid, and keeps its value otherwise; hence
    no pixel of the output is above the input's.  For a ceiling that is a
    value of the dtype the cast changes nothing. *)
Theorem apply_dem_mask_frame (water_mask : grid Z) (dtype : Np.dtype)
  (dem_array : grid sample) (ceiling : Q) :
  Np.rect water_mask -> Np.rect dem_array ->
  Np.shape water_mask = Np.shape dem_array ->
  binary_mask water_mask ->
  exists refined,
    apply_dem_mask water_mask dtype dem_array (Num ceiling) = Ok refined /\
    Np.shape refined = Np.shape water_mask /\
    forall i j m, Np.get water_mask i j = Some m ->
      exists e r,
        Np.get dem_array i j = Some e /\
        Np.get refined i j = Some r /\
        (exceeds e (Np.cast dtype ceiling) -> r = 0%Z) /\
        (~ exceeds e (Np.cast dtype ceiling) -> r = m) /\
        (r <= m)%Z /\
        (Np.cast dtype ceiling == ceiling ->
         (exceeds e ceiling -> r = 0%Z) /\ (~ exceeds e ceiling -> r = m)).
Proof.
  intros Rm Rd S Bin.
  eexists. split; [apply apply_dem_mask_ok; exact S|].
  split; [apply shape_map2; exact S|].
  intros i j m G.
  destruct (get_same_shape water_mask dem_array i j m Rm Rd S G) as [e Ge].
  exists e. eexists. split; [exact Ge|].
  split; [rewrite get_map2, G, Ge; reflexivity|].
  cbn [Np.cast_sample].
  assert (K : (exceeds e (Np.cast dtype ceiling) ->
               (if Np.gt e (Num (Np.cast dtype ceiling)) then 0%Z else m) = 0%Z) /\
              (~ exceeds e (Np.cast dtype ceiling) ->
               (if Np.gt e (Num (Np.cast dtype ceiling)) then 0%Z else m) = m)).
  { rewrite <- gt_exceeds.
    destruct (Np.gt e (Num (Np.cast dtype ceiling))); split; auto; congruence. }
  split; [apply K|]. split; [apply K|]. split.
  - destruct (Np.gt e (Num (Np.cast dtype ceiling))); [|lia].
    destruct (every_pixel_get _ water_mask i j m Bin G); lia.
  - intro E. rewrite <- (exceeds_eq e _ _ E). exact K.
Qed.

Lemma apply_dem_mask_frame_witness :
  exists refined,
    apply_dem_mask small_mask Np.float32 small_dem (Num 100) = Ok refined /\
    Np.shape refined = Np.shape small_mask /\
    forall i j m, Np.get small_mask i j = Some m ->
      exists e r,
        Np.get small_dem i j = Some e /\
        Np.get refined i j = Some r /\
        (exceeds e (Np.cast Np.float32 100) -> r = 0%Z) /\
        (~ exceeds e (Np.cast Np.float32 100) -> r = m) /\
        (r <= m)%Z /\
        (Np.cast Np.float32 100 == 100 ->
         (exceeds e 100 -> r = 0%Z) /\ (~ exceeds e 100 -> r = m)).
Proof.
  apply (apply_dem_mask_frame small_mask Np.float32 small_dem 100);
    unfold Np.rect, binary_mask, every_pixel; pixelwise.
Defined.

(** C9 as the specification words it fails on the code. In a [float32]
    elevation grid the sample 100.00000762939453 strictly exceeds the
    ceiling 100.000005, yet the pixel is kept: the comparison is made with
    the ceiling cast to [float32], which is the sample itself. *)
Lemma apply_dem_mask_frame_counterexample :
  exceeds (Num (13107201 # 131072)) (100000005 # 1000000) /\
  Np.cast Np.float32 (13107201 # 131072) = 13107201 # 131072 /\
  Np.cast Np.float32 (100000005 # 1000000) = 13107201 # 131072 /\
  apply_dem_mask [ [1%Z] ] Np.float32 [ [Num (13107201 # 131072)] ]
    (Num (100000005 # 1000000)) = Ok [ [1%Z] ].
Proof.
  split; [exists (13107201 # 131072); split; reflexivity|].
  repeat split; vm_compute; reflexivity.
Qed.

(* ===================================================================== *)
(** ** The flood detection pipeline ([process_sar_for_flood]) *)
(* ===================================================================== *)

Section FloodPipeline.

Variable threshold_otsu : list sample -> result sample.

(** C8. When the backscatter and elevation grids differ in shape the
    pipeline raises the dimension-mismatch error (a [ValueError] in the
    source), whatever the thresholding mode: no mask is produced. *)
Theorem process_sar_for_flood_shape_mismatch (sar_dtype : Np.dtype)
  (sar_array : grid sample) (dem_dtype : Np.dtype) (dem_array : grid sample)
  (threshold : option sample) (use_otsu : bool) (dem_threshold : sample)
  (morphology_kernel : Z) :
  Np.shape sar_array <> Np.shape dem_array ->
  process_sar_for_flood threshold_otsu sar_dtype sar_array dem_dtype dem_array
    threshold use_otsu dem_threshold morphology_kernel = Raise dimensions_mismatch.
Proof.
  intro H. unfold process_sar_for_flood.
  destruct (Np.shape_eqb (Np.shape sar_array) (Np.shape dem_array)) eqn:E.
  - apply shape_eqb_eq in E. contradiction.
  - reflexivity.
Qed.

End FloodPipeline.

Lemma apply_threshold_manual_witness :
  Np.get small_sar 0 0 = Some water /\
  exists mask m,
    apply_threshold otsu_not_called Np.float32 small_sar (Some (Num (-18))) false
    = Ok mask /\
    Np.shape mask = Np.shape small_sar /\
    Np.get mask 0 0 = Some m /\
    (m = 0 \/ m = 1)%Z /\
    (m = 1%Z <-> is_valid water /\ below water (Np.cast Np.float32 (-18))) /\
    (~ is_valid water -> m = 0%Z) /\
    (Np.cast Np.float32 (-18) == -18 ->
     (m = 1%Z <-> is_valid water /\ below water (-18))).
Proof.
  split; [reflexivity|].
  apply (apply_threshold_manual otsu_not_called Np.float32 small_sar (-18) 0 0 water).
  reflexivity.
Defined.

(** C7 as the specification words it fails on the code. In a [float32]
    grid the valid sample -18 is strictly below the manual threshold
    -17.9999999, yet it is marked 0: the comparison is made with the
    threshold cast to [float32], which is -18. *)
Lemma apply_threshold_manual_counterexample :
  is_valid (Num (-18)) /\ below (Num (-18)) (-179999999 # 10000000) /\
  Np.cast Np.float32 (-18) = -18 /\
  Np.cast Np.float32 (-179999999 # 10000000) = -18 /\
  apply_threshold otsu_not_called Np.float32 [ [Num (-18)] ]
    (Some (Num (-179999999 # 10000000))) false = Ok [ [0%Z] ].
Proof.
  split; [exists (-18); split; [reflexivity | intro C; discriminate C]|].
  split; [exists (-18); split; reflexivity|].
  repeat split; vm_compute; reflexivity.
Qed.

Lemma process_sar_for_flood_shape_mismatch_witness :
  Np.shape small_sar <> Np.shape (constant_grid 3 3 (Num 0)) /\
  process_sar_for_flood otsu_not_called Np.float32 small_sar
    Np.float32 (constant_grid 3 3 (Num 0))
    (Some (Num (-18))) false (Num 100) 3 = Raise dimensions_mismatch.
Proof.
  split; [discriminate|].
  apply (process_sar_for_flood_shape_mismatch otsu_not_called Np.float32 small_sar
           Np.float32 (constant_grid 3 3 (Num 0)) (Some (Num (-18))) false
           (Num 100) 3).
  discriminate.
Defined.

(* ===================================================================== *)
(** ** Reductions ([min], [max], [sum]) *)
(* ===================================================================== *)

Lemma every_pixel_concat {A} (P : A -> Prop) (g : grid A) :
  every_pixel P g -> Forall P (concat g).
Proof. intro H. apply Forall_concat. exact H. Qed.

Lemma get_In_concat {A} (g : grid A) i j a :
  Np.get g i j = Some a -> In a (concat g).
Proof.
  unfold Np.get. intro G.
  destruct (nth_error g i) as [row|] eqn:Er; [|discriminate].
  apply in_concat. exists row. split; eapply nth_error_In; eauto.
Qed.

Lemma fold_minimum_spec (l : list sample) (a : Q) :
  Forall no_nan l ->
  exists m, fold_left Np.minimum l (Num a) = Num m /\
            In (Num m) (Num a :: l) /\
            forall q, In (Num q) (Num a :: l) -> m <= q.
Proof.
  intro H. revert a. induction H as [|x l Hx Hl IH]; intro a.
  - exists a. simpl. split; [reflexivity|]. split; [now left|].
    intros q [E|[]]. inversion E. apply Qle_refl.
  - destruct x as [|b]; [discriminate Hx|]. simpl.
    destruct (IH (if Qle_bool a b then a else b)) as (m & E & I & L).
    exists m. split; [exact E|]. 
    assert (Hc : m <= (if Qle_bool a b then a else b)) by (apply L; now left).
    destruct (Qle_bool a b) eqn:Eab.
    + apply Qle_bool_iff in Eab. split.
      * destruct I as [I|I]; [now left | right; now right].
      * intros q [Q|[Q|Q]].
        -- inversion Q; subst. exact Hc.
        -- inversion Q; subst. eapply Qle_trans; eauto.
        -- apply L. now right.
    + assert (Hba : b <= a).
      { apply Qlt_le_weak, Qnot_le_lt. intro C. apply Qle_bool_iff in C. congruence. }
      split.
      * destruct I as [I|I]; [right; now left | right; now right].
      * intros q [Q|[Q|Q]].
        -- inversion Q; subst. eapply Qle_trans; eauto.
        -- inversion Q; subst. exact Hc.
        -- apply L. now right.
Qed.

Lemma fold_maximum_spec (l : list sample) (a : Q) :
  Forall no_nan l ->
  exists m, fold_left Np.maximum l (Num a) = Num m /\
            In (Num m) (Num a :: l) /\
            forall q, In (Num q) (Num a :: l) -> q <= m.
Proof.
  intro H. revert a. induction H as [|x l Hx Hl IH]; intro a.
  - exists a. simpl. split; [reflexivity|]. split; [now left|].
    intros q [E|[]]. inversion E. apply Qle_refl.
  - destruct x as [|b]; [discriminate Hx|]. simpl.
    destruct (IH (if Qle_bool a b then b else a)) as (m & E & I & L).
    exists m. split; [exact E|].
    assert (Hc : (if Qle_bool a b then b else a) <= m) by (apply L; now left).
    destruct (Qle_bool a b) eqn:Eab.
    + apply Qle_bool_iff in Eab. split.
      * destruct I as [I|I]; [right; now left | right; now right].
      * intros q [Q|[Q|Q]].
        -- inversion Q; subst. eapply Qle_trans; eauto.
        -- inversion Q; subst. exact Hc.
        -- apply L. now right.
    + assert (Hba : b <= a).
      { apply Qlt_le_weak, Qnot_le_lt. intro C. apply Qle_bool_iff in C. congruence. }
      split.
      * destruct I as [I|I]; [now left | right; now right].
      * intros q [Q|[Q|Q]].
        -- inversion Q; subst. exact Hc.
        -- inversion Q; subst. eapply Qle_trans; eauto.
        -- apply L. now right.
Qed.

(** On an array without NaN, [min()] and [max()] are samples of the array
    that bound every sample of it, whatever the sample stands for. *)
Lemma amin_amax_spec (array : grid sample) :
  every_pixel no_nan array -> Np.size array <> 0%nat ->
  exists mn mx,
    Np.amin array = Ok (Num mn) /\ Np.amax array = Ok (Num mx) /\
    In (Num mn) (concat array) /\ In (Num mx) (concat array) /\
    forall q, In (Num q) (concat array) -> mn <= q <= mx.
Proof.
  intros H Hs. apply every_pixel_concat in H.
  unfold Np.amin, Np.amax, Np.size in *.
  destruct (concat array) as [|x l]; [contradiction Hs; reflexivity|].
  inversion H as [|? ? Hx Hl]; subst.
  destruct x as [|a]; [discriminate Hx|].
  destruct (fold_minimum_spec l a Hl) as (mn & E1 & I1 & L1).
  destruct (fold_maximum_spec l a Hl) as (mx & E2 & I2 & L2).
  exists mn, mx. rewrite E1, E2. repeat split; auto.
Qed.

Lemma isum_flagged (mask : grid Z) :
  binary_mask mask -> Np.isum mask = Z.of_nat (flagged mask).
Proof.
  intro H. apply every_pixel_concat in H.
  unfold Np.isum, flagged.
  assert (G : forall acc,
             fold_left Z.add (concat mask) acc
             = (acc + Z.of_nat (count_occ Z.eq_dec (concat mask) 1%Z))%Z).
  { induction H as [|m l Hm Hl IH]; intro acc; simpl; [lia|].
    rewrite IH. destruct Hm as [-> | ->]; simpl; lia. }
  rewrite G. lia.
Qed.

(* ===================================================================== *)
(** ** Normalization ([normalize_raster]) and summary statistics *)
(* ===================================================================== *)

Lemma concat_map_map {A B} (f : A -> B) (g : grid A) :
  concat (Np.map f g) = List.map f (concat g).
Proof. unfold Np.map. symmetry. apply concat_map. Qed.


(** *** The [float32] copy of an array *)

Lemma get_astype (dt : Np.dtype) (g : grid sample) i j :
  Np.get (Np.astype dt g) i j = option_map (Np.cast_sample dt) (Np.get g i j).
Proof. apply get_map. Qed.

Lemma shape_astype (dt : Np.dtype) (g : grid sample) :
  Np.shape (Np.astype dt g) = Np.shape g.
Proof. apply shape_map. Qed.

Lemma concat_astype (dt : Np.dtype) (g : grid sample) :
  concat (Np.astype dt g) = List.map (Np.cast_sample dt) (concat g).
Proof. apply concat_map_map. Qed.

Lemma size_astype (dt : Np.dtype) (g : grid sample) :
  Np.size (Np.astype dt g) = Np.size g.
Proof. unfold Np.size. rewrite concat_astype. apply length_map. Qed.

Lemma every_pixel_map {A B} (P : A -> Prop) (Q : B -> Prop) (f : A -> B)
  (g : grid A) :
  (forall a, P a -> Q (f a)) -> every_pixel P g -> every_pixel Q (Np.map f g).
Proof.
  intros H F. unfold every_pixel, Np.map in *.
  apply Forall_map. eapply Forall_impl; [|exact F].
  intros row Hrow. apply Forall_map. eapply Forall_impl; [|exact Hrow].
  exact H.
Qed.



(** An array without samples is its own copy. *)
Lemma map_no_samples {A} (f : A -> A) (g : grid A) :
  Np.size g = 0%nat -> Np.map f g = g.
Proof.
  unfold Np.size, Np.map. induction g as [|row g IH]; [reflexivity|].
  simpl. rewrite length_app. intro H.
  destruct row; [|simpl in H; lia]. simpl. f_equal. apply IH. simpl in H. lia.
Qed.

Section Normalization.

Variable np_mean : grid sample -> sample.
Variable np_std : grid sample -> sample.

Lemma normalize_min_max_eq (array : grid sample) :
  normalize_raster np_mean np_std array "min_max" =
  (let array_f := Np.astype Np.float32 array in
   min_val <- Np.amin array_f ;;
   max_val <- Np.amax array_f ;;
   if Np.gt max_val min_val
   then Ok (Np.map (fun x => Np.div (Np.sub x min_val) (Np.sub max_val min_val)) array_f)
   else Ok array_f).
Proof. reflexivity. Qed.

Lemma unit_interval (q mn mx : Q) :
  mn < mx -> mn <= q <= mx -> 0 <= (q - mn) / (mx - mn) <= 1.
Proof.
  intros Hlt [Hlo Hhi]. split.
  - apply Qle_shift_div_l; lra.
  - apply Qle_shift_div_r; lra.
Qed.





End Normalization.





(* ===================================================================== *)
(** ** Weighted combination ([combine_hazards]) *)
(* ===================================================================== *)

Section Combination.

Variable np_mean : grid sample -> sample.
Variable np_std : grid sample -> sample.

(** Without exposure only the landslide and flood entries of the weight
    table are read: tables that agree on them give the same result. *)
Lemma combine_hazards_without_exposure (landslide flood : grid sample)
  (w1 w2 : dict Q) :
  dict_find w1 "landslide" = dict_find w2 "landslide" ->
  dict_find w1 "flood" = dict_find w2 "flood" ->
  combine_hazards np_mean np_std landslide flood None (Some w1) =
  combine_hazards np_mean np_std landslide flood None (Some w2).
Proof.
  intros Hl Hf. unfold combine_hazards, dict_get. now rewrite Hl, Hf.
Qed.

(** The two renormalized weights of the branch without exposure sum to 1. *)
Lemma two_layer_weights_sum_to_one (w_l w_f : Q) :
  ~ w_l + w_f == 0 ->
  exists r_l r_f,
    float_div w_l (w_l + w_f) = Ok r_l /\
    float_div w_f (w_l + w_f) = Ok r_f /\
    r_l + r_f == 1.
Proof.
  intro H. unfold float_div.
  destruct (Qeq_bool (w_l + w_f) 0) eqn:E;
    [apply Qeq_bool_iff in E; contradiction|].
  eexists. eexists. split; [reflexivity|]. split; [reflexivity|].
  field. exact H.
Qed.

(** With exposure the divisor is the sum of every entry of the table: the
    three weights sum to 1 when the table has the three roles only. *)
Lemma three_layer_weights_sum_to_one (w_l w_f w_e : Q) :
  let weights := [ ("landslide"%string, w_l); ("flood"%string, w_f);
                   ("exposure"%string, w_e) ] in
  ~ sum_values weights == 0 ->
  w_l / sum_values weights + w_f / sum_values weights
  + w_e / sum_values weights == 1.
Proof.
  intros weights H. unfold weights, sum_values in *. simpl in *.
  field. intro C. apply H. lra.
Qed.

End Combination.

(** With weights 0.35 / 0.35 / 0.30 and exposure absent both layers weigh
    0.35 / (0.35 + 0.35), with or without the exposure entry in the table. *)
Example combine_hazards_two_layers :
  float_div (35 # 100) ((35 # 100) + (35 # 100)) = Ok ((35 # 100) / ((35 # 100) + (35 # 100))) /\
  (35 # 100) / ((35 # 100) + (35 # 100)) == 1 # 2 /\
  combine_hazards mean_not_called std_not_called layer_a layer_b None (Some weights_table) =
  combine_hazards mean_not_called std_not_called layer_a layer_b None (Some weights_without_exposure) /\
  exists risk,
    combine_hazards mean_not_called std_not_called layer_a layer_b None (Some weights_table) = Ok risk /\
    same_grid risk [ [Num (1 # 2); Num (1 # 2)] ].
Proof.
  split; [reflexivity|]. split; [reflexivity|]. split; [reflexivity|].
  eexists. split; [vm_compute; reflexivity|].
  repeat constructor.
Qed.

(** C4 at the input where the code departs from it. All three layers are
    supplied and the weight table carries one more entry, for a role that
    is no input layer: the divisor takes that entry in, the three weights
    applied sum to 1/2 instead of 1, and the output differs from the one
    the table without the entry gives. *)
Theorem combine_hazards_extra_role :
  exists with_extra without_extra,
    combine_hazards mean_not_called std_not_called layer_a layer_b (Some layer_b)
      (Some weights_with_extra_role) = Ok with_extra /\
    combine_hazards mean_not_called std_not_called layer_a layer_b (Some layer_b)
      (Some weights_table) = Ok without_extra /\
    same_grid with_extra [ [Num (325 # 1000); Num (175 # 1000)] ] /\
    same_grid without_extra [ [Num (65 # 100); Num (35 # 100)] ] /\
    ~ same_grid with_extra without_extra /\
    sum_values weights_with_extra_role == 2 /\
    (35 # 100) / sum_values weights_with_extra_role
    + (35 # 100) / sum_values weights_with_extra_role
    + (30 # 100) / sum_values weights_with_extra_role == 1 # 2.
Proof.
  eexists. eexists.
  split; [vm_compute; reflexivity|].
  split; [vm_compute; reflexivity|].
  split; [repeat constructor|].
  split; [repeat constructor|].
  split.
  - intro H. inversion H as [|? ? ? ? R _]; subst.
    inversion R as [|? ? ? ? P _]; subst.
    vm_compute in P. discriminate.
  - split; reflexivity.
Qed.

(* ===================================================================== *)
(** ** Classification *)
(* ===================================================================== *)

Ltac qbool :=
  repeat match goal with
  | H : Qle_bool _ _ = true |- _ => apply Qle_bool_iff in H
  | H : Qle_bool ?a ?b = false |- _ =>
      let C := fresh "C" in
      assert (b < a)
        by (apply Qnot_le_lt; intro C; apply Qle_bool_iff in C; congruence);
      clear H
  end.

Ltac unfold_pixel :=
  unfold classify_risk_pixel, assign, Np.le, Np.gt, Np.lt, Np.Qlt_bool.

Lemma classify_risk_pixel_nan (very_low low moderate high : Q) :
  classify_risk_pixel very_low low moderate high NaN = 0%Z.
Proof. reflexivity. Qed.

(** Whatever the thresholds, a number falls in one of the five classes. *)
Lemma classify_risk_pixel_range (very_low low moderate high q : Q) :
  (1 <= classify_risk_pixel very_low low moderate high (Num q) <= 5)%Z.
Proof.
  unfold_pixel.
  destruct (Qle_bool q very_low), (Qle_bool q low), (Qle_bool q moderate),
    (Qle_bool q high); simpl; lia.
Qed.

(** With increasing thresholds the class is that of the first bin whose
    upper bound is at least the value, and 5 above the last bound. *)
Lemma classify_risk_pixel_bins (very_low low moderate high q : Q) :
  very_low <= low -> low <= moderate -> moderate <= high ->
  classify_risk_pixel very_low low moderate high (Num q) =
  (if Qle_bool q very_low then 1
   else if Qle_bool q low then 2
   else if Qle_bool q moderate then 3
   else if Qle_bool q high then 4 else 5)%Z.
Proof.
  intros H1 H2 H3. unfold_pixel.
  destruct (Qle_bool q very_low) eqn:E1, (Qle_bool q low) eqn:E2,
    (Qle_bool q moderate) eqn:E3, (Qle_bool q high) eqn:E4;
    simpl; try reflexivity; qbool; exfalso; lra.
Qed.

Lemma classify_risk_pixel_monotone (very_low low moderate high x y : Q) :
  very_low <= low -> low <= moderate -> moderate <= high ->
  x <= y ->
  (classify_risk_pixel very_low low moderate high (Num x)
   <= classify_risk_pixel very_low low moderate high (Num y))%Z.
Proof.
  intros H1 H2 H3 Hxy. rewrite !classify_risk_pixel_bins by assumption.
  destruct (Qle_bool x very_low) eqn:X1, (Qle_bool x low) eqn:X2,
    (Qle_bool x moderate) eqn:X3, (Qle_bool x high) eqn:X4,
    (Qle_bool y very_low) eqn:Y1, (Qle_bool y low) eqn:Y2,
    (Qle_bool y moderate) eqn:Y3, (Qle_bool y high) eqn:Y4;
    try lia; qbool; exfalso; lra.
Qed.

(** With its four thresholds present, the landslide classifier is the
    risk classifier. *)
Lemma classify_susceptibility_pixel_eq (dtype : Np.dtype) (thresholds : dict Q)
  (very_low low moderate high : Q) (x : sample) :
  dict_find thresholds "very_low" = Some very_low ->
  dict_find thresholds "low" = Some low ->
  dict_find thresholds "moderate" = Some moderate ->
  dict_find thresholds "high" = Some high ->
  classify_susceptibility_pixel dtype thresholds x =
  classify_risk_pixel (Np.cast dtype very_low) (Np.cast dtype low)
    (Np.cast dtype moderate) (Np.cast dtype high) x.
Proof.
  intros H1 H2 H3 H4.
  unfold classify_susceptibility_pixel, classify_risk_pixel. simpl.
  unfold dict_get_default. rewrite H1, H2, H3, H4. reflexivity.
Qed.

Lemma classify_risk_ok (dtype : Np.dtype) (risk_array : grid sample)
  (thresholds : dict Q) (very_low low moderate high : Q) :
  dict_find thresholds "very_low" = Some very_low ->
  dict_find thresholds "low" = Some low ->
  dict_find thresholds "moderate" = Some moderate ->
  dict_find thresholds "high" = Some high ->
  classify_risk dtype risk_array (Some thresholds) =
  Ok (Np.map (classify_risk_pixel (Np.cast dtype very_low) (Np.cast dtype low)
                (Np.cast dtype moderate) (Np.cast dtype high)) risk_array).
Proof.
  intros H1 H2 H3 H4. unfold classify_risk, dict_get.
  now rewrite H1, H2, H3, H4.
Qed.

(** The risk classifier, on increasing thresholds, gives every number one
    class of 1..5, and a larger number no smaller a class, whatever the
    dtype of the array. *)
Lemma classify_risk_labels_monotone (dtype : Np.dtype) (risk_array : grid sample)
  (thresholds : dict Q) (very_low low moderate high : Q) :
  increasing_thresholds thresholds very_low low moderate high ->
  exists classified,
    classify_risk dtype risk_array (Some thresholds) = Ok classified /\
    forall i j i' j' x y,
      Np.get risk_array i j = Some (Num x) ->
      Np.get risk_array i' j' = Some (Num y) ->
      x <= y ->
      exists c d,
        Np.get classified i j = Some c /\ Np.get classified i' j' = Some d /\
        (1 <= c <= d)%Z /\ (d <= 5)%Z.
Proof.
  intros (H1 & H2 & H3 & H4 & L1 & L2 & L3).
  eexists. split; [apply classify_risk_ok; eassumption|].
  intros i j i' j' x y Gx Gy Hxy.
  eexists. eexists. rewrite !get_map, Gx, Gy. simpl.
  split; [reflexivity|]. split; [reflexivity|].
  pose proof (classify_risk_pixel_range (Np.cast dtype very_low)
                (Np.cast dtype low) (Np.cast dtype moderate)
                (Np.cast dtype high) x).
  pose proof (classify_risk_pixel_range (Np.cast dtype very_low)
                (Np.cast dtype low) (Np.cast dtype moderate)
                (Np.cast dtype high) y).
  pose proof (classify_risk_pixel_monotone _ _ _ _ x y
                (cast_le dtype _ _ (Qlt_le_weak _ _ L1))
                (cast_le dtype _ _ (Qlt_le_weak _ _ L2))
                (cast_le dtype _ _ (Qlt_le_weak _ _ L3)) Hxy).
  lia.
Qed.

(** *** The generic classifier ([classify_raster]) *)

Lemma in_insert_sorted {A} (leb : A -> A -> bool) (x y : A) (l : list A) :
  In y (insert_sorted leb x l) <-> y = x \/ In y l.
Proof.
  induction l as [|z l IH]; simpl.
  - intuition congruence.
  - destruct (leb x z); simpl; [intuition congruence|].
    rewrite IH. intuition congruence.
Qed.

Lemma in_sorted {A} (leb : A -> A -> bool) (y : A) (l : list A) :
  In y (sorted leb l) <-> In y l.
Proof.
  induction l as [|x l IH]; simpl; [reflexivity|].
  rewrite in_insert_sorted, IH. intuition congruence.
Qed.

Lemma sorted_nil {A} (leb : A -> A -> bool) (l : list A) :
  sorted leb l = [] -> l = [].
Proof.
  destruct l as [|x l]; [reflexivity|]. simpl. intro H. exfalso.
  assert (I : In x (insert_sorted leb x (sorted leb l)))
    by (apply in_insert_sorted; now left).
  rewrite H in I. exact I.
Qed.

(** The default numbering gives every name of the list a class from 1 up. *)
Lemma dict_find_numbering (names : list string) (k : nat) (name : string) :
  In name names ->
  exists v, dict_find (Np.imap_from (fun i n => (n, (Z.of_nat i + 1)%Z)) k names) name
            = Some v /\ (1 <= v)%Z.
Proof.
  revert k. induction names as [|n names IH]; intros k I; [contradiction|].
  simpl. destruct (String.eqb n name) eqn:E.
  - eexists. split; [reflexivity|]. lia.
  - destruct I as [->|I]; [rewrite String.eqb_refl in E; discriminate|].
    apply IH. exact I.
Qed.

Lemma numbering_values (names : list string) (k : nat) :
  Forall (fun v => (1 <= v)%Z)
         (values (Np.imap_from (fun i n => (n, (Z.of_nat i + 1)%Z)) k names)).
Proof.
  revert k. induction names as [|n names IH]; intro k; simpl; constructor.
  - lia.
  - apply IH.
Qed.

Lemma loop_values_ok (dtype : Np.dtype) (class_values : dict Z)
  (st : list (string * Q)) :
  (forall name, In name (keys st) ->
     exists v, dict_find class_values name = Some v /\ (1 <= v)%Z) ->
  exists rounds,
    loop_values dtype class_values st = Ok rounds /\
    List.map fst rounds = List.map (fun e => Np.cast dtype (snd e)) st /\
    Forall (fun r => (1 <= snd r)%Z) rounds.
Proof.
  induction st as [|[name t] st IH]; intro H; simpl.
  - exists []. repeat split. constructor.
  - destruct (H name) as (v & Ev & Hv); [now left|].
    destruct IH as (rounds & Er & Em & Ef).
    { intros n I. apply H. now right. }
    unfold dict_get. rewrite Ev. cbn [bind]. rewrite Er. cbn [bind].
    eexists. split; [reflexivity|]. split.
    + simpl. now rewrite Em.
    + constructor; assumption.
Qed.

Lemma raster_loop_nan (prev : option Q) (rounds : list (Q * Z)) (c : Z) :
  raster_loop prev rounds NaN c = c.
Proof.
  revert prev c. induction rounds as [|[t v] rounds IH]; intros prev c;
    [reflexivity|].
  simpl. rewrite IH. destruct prev; reflexivity.
Qed.

(** Every round that can still apply leaves a class from 1 up or the value
    above its bound. *)
Lemma raster_loop_covers (prev : option Q) (rounds : list (Q * Z)) (q : Q) (c : Z) :
  Forall (fun r => (1 <= snd r)%Z) rounds ->
  (1 <= c)%Z \/ above prev q ->
  (1 <= raster_loop prev rounds (Num q) c)%Z \/ above (last_bound prev rounds) q.
Proof.
  intro F. revert prev c. induction F as [|[t v] rounds Hv F IH];
    intros prev c H; [exact H|].
  cbn [raster_loop last_bound]. apply IH. cbn [snd] in Hv.
  assert (M : forall b, (1 <= c)%Z -> (1 <= assign b v c)%Z)
    by (intros [|] ?; unfold assign; lia).
  destruct H as [H|H]; [left; now apply M|].
  destruct (Qle_bool q t) eqn:E.
  - left.
    assert (Hmask : match prev with
                    | None => Np.le (Num q) (Num t)
                    | Some p => Np.gt (Num q) (Num p) && Np.le (Num q) (Num t)
                    end = true).
    { destruct prev as [p|]; cbn [Np.le Np.gt Np.lt]; rewrite E.
      - cbn [above] in H. now rewrite (proj2 (Qlt_bool_iff p q) H).
      - reflexivity. }
    rewrite Hmask. exact Hv.
  - right. cbn [above]. apply Qnot_le_lt. intro C.
    apply Qle_bool_iff in C. congruence.
Qed.

Lemma last_bound_rev (prev : option Q) (rounds : list (Q * Z)) :
  last_bound prev rounds =
  match rev (List.map fst rounds) with
  | [] => prev
  | highest :: _ => Some highest
  end.
Proof.
  revert prev. induction rounds as [|[t v] rounds IH]; intro prev;
    [reflexivity|].
  cbn [last_bound List.map fst rev]. rewrite IH.
  destruct (rev (List.map fst rounds)); reflexivity.
Qed.

Lemma max_value_ok (class_values : dict Z) :
  class_values <> [] ->
  Forall (fun v => (1 <= v)%Z) (values class_values) ->
  exists m, max_value class_values = Ok m /\ (1 <= m)%Z.
Proof.
  intros Hne F. unfold max_value.
  destruct (values class_values) as [|v vs] eqn:E.
  - destruct class_values; [contradiction | discriminate].
  - inversion F as [|? ? Hv Hvs]; subst.
    eexists. split; [reflexivity|].
    clear E F. revert v Hv. induction Hvs as [|w vs Hw Hvs IH]; intros v Hv; simpl.
    + exact Hv.
    + apply IH. lia.
Qed.

(** [classify_raster] on a non-empty threshold table, with class values
    from 1 up for every name: NaN keeps 0 and every number is given a class
    from 1 up. *)
Lemma classify_raster_covers (dtype : Np.dtype) (continuous_array : grid sample)
  (thresholds : dict Q) (class_values : option (dict Z)) :
  thresholds <> [] ->
  let cv := match class_values with
            | None => default_class_values thresholds
            | Some cv => cv
            end in
  (forall name, In name (keys thresholds) ->
     exists v, dict_find cv name = Some v /\ (1 <= v)%Z) ->
  Forall (fun v => (1 <= v)%Z) (values cv) ->
  exists classified,
    classify_raster dtype continuous_array thresholds class_values = Ok classified /\
    Np.shape classified = Np.shape continuous_array /\
    forall i j x, Np.get continuous_array i j = Some x ->
      exists c,
        Np.get classified i j = Some c /\
        (x = NaN -> c = 0%Z) /\
        (forall q, x = Num q -> (1 <= c)%Z).
Proof.
  intros Hne cv Hfind Hvals.
  unfold classify_raster. fold cv.
  destruct (loop_values_ok dtype cv (sorted_thresholds thresholds))
    as (rounds & Er & Em & Ef).
  { intros name I. apply Hfind. unfold keys in *.
    apply in_map_iff in I. destruct I as ([n t] & <- & I).
    apply in_sorted in I. apply in_map_iff. exists (n, t). split; [reflexivity|exact I]. }
  rewrite Er. cbn [bind].
  destruct (rev (sorted_thresholds thresholds)) as [|[name highest] rest] eqn:Erev.
  { exfalso. apply Hne. apply (sorted_nil (fun a b => Qle_bool (snd a) (snd b))).
    fold (sorted_thresholds thresholds).
    rewrite <- (rev_involutive (sorted_thresholds thresholds)), Erev. reflexivity. }
  destruct (max_value_ok cv) as (m & Emax & Hm).
  { intro C. destruct thresholds as [|[n t] th]; [contradiction|].
    destruct (Hfind n) as (v & Ev & _); [now left|]. rewrite C in Ev. discriminate. }
  { exact Hvals. }
  rewrite Emax. cbn [bind].
  eexists. split; [reflexivity|]. split; [apply shape_map|].
  intros i j x G. eexists. rewrite get_map, G. simpl.
  split; [reflexivity|]. split.
  - intros ->. rewrite raster_loop_nan. reflexivity.
  - intros q ->.
    destruct (raster_loop_covers None rounds q 0%Z Ef) as [H|H]; [right; exact I|..].
    + destruct (Np.Qlt_bool (Np.cast dtype highest) q); unfold assign; lia.
    + rewrite last_bound_rev, Em, <- map_rev, Erev in H.
      cbn [List.map snd above] in H.
      rewrite (proj2 (Qlt_bool_iff (Np.cast dtype highest) q) H). exact Hm.
Qed.

Lemma classify_raster_default_covers (dtype : Np.dtype)
  (continuous_array : grid sample) (thresholds : dict Q) :
  thresholds <> [] ->
  exists classified,
    classify_raster dtype continuous_array thresholds None = Ok classified /\
    Np.shape classified = Np.shape continuous_array /\
    forall i j x, Np.get continuous_array i j = Some x ->
      exists c,
        Np.get classified i j = Some c /\
        (x = NaN -> c = 0%Z) /\
        (forall q, x = Num q -> (1 <= c)%Z).
Proof.
  intro Hne. apply (classify_raster_covers dtype continuous_array thresholds None Hne).
  - intros name I. apply dict_find_numbering. apply in_sorted. exact I.
  - apply numbering_values.
Qed.

(** C2 at the input where the code departs from it. [classify_raster]
    without [class_values] numbers the classes by the alphabetical order of
    their names while it sorts the bounds by value: on the configured
    thresholds, whose bounds are strictly increasing, the value 0.1 gets
    class 4 and the larger value 0.7 gets class 1, and a value above the
    last bound gets the class of the lowest bin.  The array is the
    [float64] array that [np.array] makes of the three Python floats. *)
Theorem classify_raster_default_class_values :
  default_class_values LANDSLIDE_CONFIG_classification_thresholds
  = [ ("high"%string, 1%Z); ("low"%string, 2%Z); ("moderate"%string, 3%Z);
      ("very_low"%string, 4%Z) ] /\
  sorted_thresholds LANDSLIDE_CONFIG_classification_thresholds
  = [ ("very_low"%string, 2 # 10); ("low"%string, 4 # 10);
      ("moderate"%string, 6 # 10); ("high"%string, 8 # 10) ] /\
  classify_raster Np.float64 [ [Num (1 # 10); Num (7 # 10); Num (9 # 10)] ]
    LANDSLIDE_CONFIG_classification_thresholds None
  = Ok [ [4; 1; 4] ]%Z /\
  (1 # 10) <= (7 # 10) /\ ~ (4 <= 1)%Z /\
  classify_risk Np.float64 [ [Num (1 # 10); Num (7 # 10); Num (9 # 10)] ]
    (Some LANDSLIDE_CONFIG_classification_thresholds)
  = Ok [ [1; 4; 5] ]%Z.
Proof.
  repeat split; try reflexivity.
  - intro H. discriminate H.
  - lia.
Qed.

(** C3, as the source has it. The classifiers have no notion of nodata.
    When the table holds the four bounds, whatever their order and the
    dtype of the array, a NaN sample keeps the initial class 0 and every
    number, the nodata sentinel -9999 included, is classified by its value
    into a class from 1 up: 1..5 by the risk and landslide classifiers,
    which agree, and 1 or more by the generic classifier with its default
    class values; so class 0 is never given to a number. *)
Theorem classify_nan_and_numbers (dtype : Np.dtype) (risk_array : grid sample)
  (thresholds : dict Q) (very_low low moderate high : Q) :
  dict_find thresholds "very_low" = Some very_low ->
  dict_find thresholds "low" = Some low ->
  dict_find thresholds "moderate" = Some moderate ->
  dict_find thresholds "high" = Some high ->
  exists classified generic,
    classify_risk dtype risk_array (Some thresholds) = Ok classified /\
    classify_susceptibility dtype risk_array thresholds = classified /\
    classify_raster dtype risk_array thresholds None = Ok generic /\
    Np.shape classified = Np.shape risk_array /\
    Np.shape generic = Np.shape risk_array /\
    forall i j x, Np.get risk_array i j = Some x ->
      exists c g,
        Np.get classified i j = Some c /\
        Np.get generic i j = Some g /\
        (x = NaN -> c = 0%Z /\ g = 0%Z) /\
        (forall q, x = Num q -> (1 <= c <= 5)%Z /\ (1 <= g)%Z).
Proof.
  intros H1 H2 H3 H4.
  destruct (classify_raster_default_covers dtype risk_array thresholds)
    as (generic & Eg & Sg & Pg).
  { intro C. rewrite C in H1. discriminate. }
  eexists. exists generic.
  split; [apply classify_risk_ok; eassumption|].
  split.
  { unfold classify_susceptibility, Np.map.
    apply map_ext. intro row. apply map_ext. intro x.
    apply classify_susceptibility_pixel_eq; assumption. }
  split; [exact Eg|]. split; [apply shape_map|]. split; [exact Sg|].
  intros i j x G.
  destruct (Pg i j x G) as (g & Gg & Gnan & Gnum).
  eexists. exists g. rewrite get_map, G. cbn [option_map].
  split; [reflexivity|]. split; [exact Gg|]. split.
  - intros ->. split; [reflexivity | now apply Gnan].
  - intros q ->. split; [apply classify_risk_pixel_range | now apply (Gnum q)].
Qed.

Lemma classify_nan_and_numbers_witness :
  exists classified generic,
    classify_risk Np.float64 risk_samples
      (Some MULTI_HAZARD_CONFIG_classification_thresholds) = Ok classified /\
    classify_susceptibility Np.float64 risk_samples
      MULTI_HAZARD_CONFIG_classification_thresholds = classified /\
    classify_raster Np.float64 risk_samples
      MULTI_HAZARD_CONFIG_classification_thresholds None = Ok generic /\
    Np.shape classified = Np.shape risk_samples /\
    Np.shape generic = Np.shape risk_samples /\
    forall i j x, Np.get risk_samples i j = Some x ->
      exists c g,
        Np.get classified i j = Some c /\
        Np.get generic i j = Some g /\
        (x = NaN -> c = 0%Z /\ g = 0%Z) /\
        (forall q, x = Num q -> (1 <= c <= 5)%Z /\ (1 <= g)%Z).
Proof.
  apply (classify_nan_and_numbers Np.float64 risk_samples
           MULTI_HAZARD_CONFIG_classification_thresholds
           (2 # 10) (4 # 10) (6 # 10) (8 # 10)); reflexivity.
Defined.

(** C3 as the specification words it fails on the code: the nodata sample
    of an array is not given class 0 but class 1, by each classifier that
    numbers the bins in order, on the [float64] array and on its [float32]
    copy. *)
Lemma classify_nodata_counterexample :
  Np.get risk_samples 0 6 = Some (Num (-9999)) /\
  valid_sample (Num (-9999)) = false /\
  classify_risk Np.float64 risk_samples None = Ok [ [1; 2; 3; 4; 5; 0; 1] ]%Z /\
  Np.get (Np.astype Np.float32 risk_samples) 0 6 = Some (Num (-9999)) /\
  classify_risk Np.float32 (Np.astype Np.float32 risk_samples) None
  = Ok [ [1; 2; 3; 4; 5; 0; 1] ]%Z /\
  classify_susceptibility Np.float64 risk_samples
    LANDSLIDE_CONFIG_classification_thresholds
  = [ [1; 2; 3; 4; 5; 0; 1] ]%Z /\
  classify_raster Np.float64 risk_samples LANDSLIDE_CONFIG_classification_thresholds
    (Some class_mapping) = Ok [ [1; 2; 3; 4; 5; 0; 1] ]%Z.
Proof. repeat split; vm_compute; reflexivity. Qed.

(* ===================================================================== *)
(** ** Further properties of the flood stages *)
(* ===================================================================== *)

Lemma nth_error_imap_from {A B} (f : nat -> A -> B) n l k :
  nth_error (Np.imap_from f n l) k = option_map (f (n + k)%nat) (nth_error l k).
Proof.
  revert n k. induction l as [|a l IH]; intros n [|k]; simpl; try reflexivity.
  - now rewrite Nat.add_0_r.
  - rewrite IH. now replace (S n + k)%nat with (n + S k)%nat by lia.
Qed.

Lemma get_imap2 {A B} (f : nat -> nat -> A -> B) (g : grid A) i j :
  Np.get (Np.imap (fun i row => Np.imap (f i) row) g) i j
  = option_map (f i j) (Np.get g i j).
Proof.
  unfold Np.get, Np.imap. rewrite nth_error_imap_from. cbn [Nat.add].
  destruct (nth_error g i) as [row|]; cbn [option_map]; [|reflexivity].
  now rewrite nth_error_imap_from.
Qed.

Lemma zip_with_idempotent {A B} (f : A -> B -> A) (l : list A) (m : list B) :
  (forall a b, f (f a b) b = f a b) ->
  Np.zip_with f (Np.zip_with f l m) m = Np.zip_with f l m.
Proof.
  intro H. revert m. induction l as [|a l IH]; intros [|b m]; simpl;
    try reflexivity.
  now rewrite H, IH.
Qed.

Section MoreThresholding.

Variable threshold_otsu : list sample -> result sample.

(** In manual mode a higher threshold only adds pixels: for [t1 <= t2] the
    mask of [t1] is nowhere above the mask of [t2]. *)
Theorem apply_threshold_monotone (dtype : Np.dtype) (sar_array : grid sample)
  (t1 t2 : Q) :
  t1 <= t2 ->
  exists mask1 mask2,
    apply_threshold threshold_otsu dtype sar_array (Some (Num t1)) false = Ok mask1 /\
    apply_threshold threshold_otsu dtype sar_array (Some (Num t2)) false = Ok mask2 /\
    forall i j a, Np.get mask1 i j = Some a ->
      exists b, Np.get mask2 i j = Some b /\ (a <= b)%Z.
Proof.
  intro H. apply (cast_le dtype) in H.
  unfold apply_threshold. cbn [bind Np.cast_sample].
  eexists. eexists. split; [reflexivity|]. split; [reflexivity|].
  intros i j a. rewrite !get_map.
  destruct (Np.get sar_array i j) as [x|]; cbn [option_map]; [|discriminate].
  intro E. inversion E; subst. eexists. split; [reflexivity|].
  destruct (valid_sample x); [|lia].
  destruct (Np.lt x (Num (Np.cast dtype t1))) eqn:L1;
    [|destruct (Np.lt x (Num (Np.cast dtype t2))); simpl; lia].
  apply lt_below in L1. destruct L1 as (q & -> & Hq).
  assert (L2 : Np.lt (Num q) (Num (Np.cast dtype t2)) = true).
  { apply lt_below. exists q. split; [reflexivity|]. lra. }
  rewrite L2. simpl. lia.
Qed.

(** In either mode, a mask that [apply_threshold] returns has the shape
    of the input and holds 0 and 1 only; it is 1 exactly on the valid
    samples strictly below the threshold in force, as cast to the dtype of
    the array: the manual threshold, or in Otsu mode the one
    [threshold_otsu] gives for the valid samples alone. *)
Theorem apply_threshold_mask (dtype : Np.dtype) (sar_array : grid sample)
  (threshold : option sample) (use_otsu : bool) (mask : grid Z) :
  apply_threshold threshold_otsu dtype sar_array threshold use_otsu = Ok mask ->
  exists t,
    (if use_otsu
     then threshold_otsu (valid_samples sar_array) = Ok t
     else threshold = Some t) /\
    Np.shape mask = Np.shape sar_array /\
    forall i j x, Np.get sar_array i j = Some x ->
      exists m,
        Np.get mask i j = Some m /\ (m = 0 \/ m = 1)%Z /\
        (m = 1%Z <-> valid_sample x = true
                     /\ Np.lt x (Np.cast_sample dtype t) = true).
Proof.
  unfold apply_threshold, valid_samples. intro H.
  assert (E : exists t,
             (if use_otsu
              then threshold_otsu (filter valid_sample (concat sar_array))
              else match threshold with
                   | Some t => Ok t
                   | None => Raise (TypeError "unsupported format string passed to NoneType.__format__")
                   end) = Ok t).
  { destruct (if use_otsu then _ else _) as [t|e]; [eauto | discriminate H]. }
  destruct E as [t Et]. rewrite Et in H. cbn [bind] in H.
  inversion H; subst. exists t. split.
  - destruct use_otsu; [exact Et|].
    destruct threshold as [t'|]; [now inversion Et | discriminate Et].
  - split; [apply shape_map|].
    intros i j x G. eexists. rewrite get_map, G. cbn [option_map].
    split; [reflexivity|].
    destruct (valid_sample x), (Np.lt x (Np.cast_sample dtype t)); simpl;
      intuition (auto; try congruence; try lia).
Qed.

End MoreThresholding.

Lemma apply_threshold_monotone_witness :
  exists mask1 mask2,
    apply_threshold otsu_not_called Np.float32 small_sar (Some (Num (-25))) false
    = Ok mask1 /\
    apply_threshold otsu_not_called Np.float32 small_sar (Some (Num (-18))) false
    = Ok mask2 /\
    forall i j a, Np.get mask1 i j = Some a ->
      exists b, Np.get mask2 i j = Some b /\ (a <= b)%Z.
Proof.
  apply (apply_threshold_monotone otsu_not_called Np.float32 small_sar (-25) (-18)).
  discriminate.
Defined.

Lemma apply_threshold_mask_witness :
  exists t,
    threshold_midrange (valid_samples small_sar) = Ok t /\
    Np.shape [ [1; 0; 0]; [1; 0; 0] ]%Z = Np.shape small_sar /\
    forall i j x, Np.get small_sar i j = Some x ->
      exists m,
        Np.get [ [1; 0; 0]; [1; 0; 0] ]%Z i j = Some m /\ (m = 0 \/ m = 1)%Z /\
        (m = 1%Z <-> valid_sample x = true
                     /\ Np.lt x (Np.cast_sample Np.float32 t) = true).
Proof.
  apply (apply_threshold_mask threshold_midrange Np.float32 small_sar None true
           [ [1; 0; 0]; [1; 0; 0] ]%Z).
  vm_compute. reflexivity.
Defined.

(** Filtering twice by the same elevation grid and ceiling changes nothing
    more than filtering once. *)
Theorem apply_dem_mask_idempotent (water_mask : grid Z) (dtype : Np.dtype)
  (dem_array : grid sample) (elevation_threshold : sample) (refined : grid Z) :
  apply_dem_mask water_mask dtype dem_array elevation_threshold = Ok refined ->
  apply_dem_mask refined dtype dem_array elevation_threshold = Ok refined.
Proof.
  unfold apply_dem_mask. cbv zeta.
  destruct (Np.shape_eqb (Np.shape water_mask) (Np.shape dem_array)) eqn:E;
    [|discriminate].
  apply shape_eqb_eq in E. intro H. inversion H as [H']. 
  rewrite shape_map2 by exact E.
  rewrite (proj2 (shape_eqb_eq _ _) E).
  f_equal. unfold Np.map2.
  set (f := fun (m : Z) (e : sample) =>
              if Np.gt e (Np.cast_sample dtype elevation_threshold)
              then 0%Z else m).
  set (F := Np.zip_with f).
  apply zip_with_idempotent.
  intros r d. unfold F. apply zip_with_idempotent.
  intros m e. unfold f.
  destruct (Np.gt e (Np.cast_sample dtype elevation_threshold)); reflexivity.
Qed.

Lemma apply_dem_mask_idempotent_witness :
  apply_dem_mask [ [1; 0; 0]; [0; 1; 0] ]%Z Np.float32 small_dem (Num 100)
  = Ok [ [1; 0; 0]; [0; 1; 0] ]%Z.
Proof.
  apply (apply_dem_mask_idempotent small_mask Np.float32 small_dem (Num 100)).
  vm_compute. reflexivity.
Defined.

(** A higher ceiling only keeps more of a binary mask: for [c1 <= c2] the
    mask filtered at [c1] is nowhere above the mask filtered at [c2]. *)
Theorem apply_dem_mask_monotone (water_mask : grid Z) (dtype : Np.dtype)
  (dem_array : grid sample) (c1 c2 : Q) :
  c1 <= c2 -> binary_mask water_mask ->
  Np.shape water_mask = Np.shape dem_array ->
  exists refined1 refined2,
    apply_dem_mask water_mask dtype dem_array (Num c1) = Ok refined1 /\
    apply_dem_mask water_mask dtype dem_array (Num c2) = Ok refined2 /\
    forall i j a, Np.get refined1 i j = Some a ->
      exists b, Np.get refined2 i j = Some b /\ (a <= b)%Z.
Proof.
  intros Hc Hb S. apply (cast_le dtype) in Hc.
  rewrite !apply_dem_mask_ok by exact S. cbn [Np.cast_sample].
  eexists. eexists. split; [reflexivity|]. split; [reflexivity|].
  intros i j a. rewrite !get_map2.
  destruct (Np.get water_mask i j) as [m|] eqn:Gm; [|discriminate].
  destruct (Np.get dem_array i j) as [e|]; [|discriminate].
  intro E. inversion E; subst. eexists. split; [reflexivity|].
  pose proof (every_pixel_get _ water_mask i j m Hb Gm) as Hm.
  destruct (Np.gt e (Num (Np.cast dtype c2))) eqn:G2.
  - apply gt_exceeds in G2. destruct G2 as (q & -> & Hq).
    assert (G1 : Np.gt (Num q) (Num (Np.cast dtype c1)) = true).
    { apply gt_exceeds. exists q. split; [reflexivity|]. lra. }
    change (Np.Qlt_bool (Np.cast dtype c1) q)
      with (Np.gt (Num q) (Num (Np.cast dtype c1))).
    rewrite G1. lia.
  - cbv beta in Hm. destruct Hm; subst; destruct e as [|q];
      cbn [Np.gt Np.lt]; try lia;
      destruct (Np.Qlt_bool (Np.cast dtype c1) q); lia.
Qed.

Lemma apply_dem_mask_monotone_witness :
  exists refined1 refined2,
    apply_dem_mask small_mask Np.float32 small_dem (Num 85) = Ok refined1 /\
    apply_dem_mask small_mask Np.float32 small_dem (Num 100) = Ok refined2 /\
    forall i j a, Np.get refined1 i j = Some a ->
      exists b, Np.get refined2 i j = Some b /\ (a <= b)%Z.
Proof.
  apply (apply_dem_mask_monotone small_mask Np.float32 small_dem 85 100).
  - discriminate.
  - unfold binary_mask, every_pixel. pixelwise.
  - reflexivity.
Defined.

(* ===================================================================== *)
(** ** Morphological cleanup: the margin it clears *)
(* ===================================================================== *)

Lemma pixel_get (g : grid bool) (i j : nat) :
  Ndimage.pixel g (Z.of_nat i) (Z.of_nat j)
  = match Np.get g i j with Some c => c | None => false end.
Proof.
  unfold Ndimage.pixel, Np.get.
  destruct (Z.ltb_spec (Z.of_nat i) 0); [lia|].
  destruct (Z.ltb_spec (Z.of_nat j) 0); [lia|].
  cbn [orb]. rewrite !Nat2Z.id.
  destruct (nth_error g i) as [row|] eqn:Er.
  - rewrite (nth_error_nth g i [] Er).
    destruct (nth_error row j) as [c|] eqn:Ec.
    + apply nth_error_nth. exact Ec.
    + apply nth_overflow. apply nth_error_None. exact Ec.
  - rewrite (nth_overflow g []) by (apply nth_error_None; exact Er).
    destruct j; reflexivity.
Qed.

Lemma pixel_true (g : grid bool) (zi zj : Z) :
  Ndimage.pixel g zi zj = true ->
  (0 <= zi)%Z /\ (0 <= zj)%Z /\ Np.get g (Z.to_nat zi) (Z.to_nat zj) = Some true.
Proof.
  intro H.
  assert (Hi : (0 <= zi)%Z).
  { unfold Ndimage.pixel in H. destruct (Z.ltb_spec zi 0); [discriminate H | lia]. }
  assert (Hj : (0 <= zj)%Z).
  { unfold Ndimage.pixel in H. destruct (Z.ltb_spec zi 0); [discriminate H|].
    destruct (Z.ltb_spec zj 0); [discriminate H | lia]. }
  split; [exact Hi|]. split; [exact Hj|].
  rewrite <- (Z2Nat.id zi Hi), <- (Z2Nat.id zj Hj), pixel_get in H.
  destruct (Np.get g (Z.to_nat zi) (Z.to_nat zj)) as [c|]; congruence.
Qed.

Lemma cross_offsets :
  Ndimage.offsets Ndimage.generate_binary_structure_2_1
  = [ (-1, 0); (0, -1); (0, 0); (0, 1); (1, 0) ]%Z.
Proof. reflexivity. Qed.

(** A pixel the cross erosion keeps has its four neighbours set. *)
Lemma erode_step_neighbours (g : grid bool) (i j : nat) :
  Np.get (Ndimage.erode_step Ndimage.generate_binary_structure_2_1 g) i j
  = Some true ->
  Ndimage.pixel g (Z.of_nat i - 1) (Z.of_nat j) = true /\
  Ndimage.pixel g (Z.of_nat i) (Z.of_nat j - 1) = true /\
  Ndimage.pixel g (Z.of_nat i) (Z.of_nat j + 1) = true /\
  Ndimage.pixel g (Z.of_nat i + 1) (Z.of_nat j) = true.
Proof.
  unfold Ndimage.erode_step. rewrite get_imap2, cross_offsets.
  destruct (Np.get g i j); cbn [option_map]; [|discriminate].
  intro H. injection H as H'. cbn [forallb fst snd] in H'.
  rewrite !andb_true_iff in H'.
  rewrite !Z.add_0_r in H'.
  replace (Z.of_nat i + -1)%Z with (Z.of_nat i - 1)%Z in H' by lia.
  replace (Z.of_nat j + -1)%Z with (Z.of_nat j - 1)%Z in H' by lia.
  tauto.
Qed.

Lemma get_widths {A} (g : grid A) (i j : nat) (a : A) :
  Np.get g i j = Some a ->
  exists w, nth_error (row_lengths g) i = Some w /\ (j < w)%nat.
Proof.
  unfold Np.get, row_lengths. intro H. rewrite nth_error_map.
  destruct (nth_error g i) as [row|]; [|discriminate].
  exists (length row). split; [reflexivity|].
  apply nth_error_Some. congruence.
Qed.

Lemma row_lengths_erode (g : grid bool) (structure : grid bool) :
  row_lengths (Ndimage.erode_step structure g) = row_lengths g.
Proof. apply (row_lengths_imap2 (fun i j (_ : bool) => _)). Qed.

Lemma row_lengths_dilate (g : grid bool) (structure : grid bool) :
  row_lengths (Ndimage.dilate_step structure g) = row_lengths g.
Proof. apply (row_lengths_imap2 (fun i j (_ : bool) => _)). Qed.


(** [n] cross erosions keep only pixels [n] or more from each edge. *)
Lemma erode_iter_inside (n : nat) (g : grid bool) (i j : nat) :
  Np.get (Nat.iter n (Ndimage.erode_step Ndimage.generate_binary_structure_2_1) g)
         i j = Some true ->
  inside n (row_lengths g) i j.
Proof.
  revert i j. induction n as [|n IH]; intros i j H.
  - simpl in H. destruct (get_widths g i j true H) as (w & Hw & Hj).
    unfold inside. repeat split; try lia.
    + rewrite Nat.add_0_r. apply nth_error_Some. congruence.
    + exists w. split; [exact Hw | lia].
  - simpl in H. apply erode_step_neighbours in H.
    destruct H as (Hu & Hl & Hr & Hd).
    apply pixel_true in Hu. destruct Hu as (Hu0 & _ & Hu).
    apply pixel_true in Hl. destruct Hl as (_ & Hl0 & Hl).
    apply pixel_true in Hr. destruct Hr as (_ & _ & Hr).
    apply pixel_true in Hd. destruct Hd as (_ & _ & Hd).
    rewrite ?Nat2Z.id in *.
    replace (Z.to_nat (Z.of_nat i - 1)) with (i - 1)%nat in Hu by lia.
    replace (Z.to_nat (Z.of_nat j - 1)) with (j - 1)%nat in Hl by lia.
    replace (Z.to_nat (Z.of_nat j + 1)) with (S j) in Hr by lia.
    replace (Z.to_nat (Z.of_nat i + 1)) with (S i) in Hd by lia.
    apply IH in Hu. apply IH in Hl. apply IH in Hr. apply IH in Hd.
    unfold inside in *.
    destruct Hu as (U1 & _). destruct Hl as (_ & L2 & _).
    destruct Hr as (_ & _ & _ & w & Hw & R4). destruct Hd as (_ & _ & D3 & _).
    repeat split; try lia.
    exists w. split; [exact Hw | lia].
Qed.

(** An image that one more cross erosion leaves unchanged has no pixel
    set. *)
Lemma erode_fixed_empty (g : grid bool) (i j : nat) :
  Ndimage.erode_step Ndimage.generate_binary_structure_2_1 g = g ->
  Np.get g i j <> Some true.
Proof.
  intro Hfix. revert j. induction i as [|i IH]; intros j H;
    rewrite <- Hfix in H; apply erode_step_neighbours in H;
    destruct H as (Hu & _); apply pixel_true in Hu;
    destruct Hu as (Hu0 & _ & Hu).
  - lia.
  - replace (Z.to_nat (Z.of_nat (S i) - 1)) with i in Hu by lia.
    rewrite Nat2Z.id in Hu. exact (IH j Hu).
Qed.

Lemma row_lengths_closing_input (mask : grid Z) (kernel_size : Z) :
  row_lengths
    (Ndimage.binary_dilation
       (Ndimage.binary_opening (Np.map (fun v => negb (v =? 0)%Z) mask)
          Ndimage.generate_binary_structure_2_1 kernel_size)
       Ndimage.generate_binary_structure_2_1 kernel_size)
  = row_lengths mask.
Proof.
  unfold Ndimage.binary_opening, Ndimage.binary_erosion, Ndimage.binary_dilation.
  repeat (rewrite row_lengths_repeat_step;
          [| intro; first [apply row_lengths_erode | apply row_lengths_dilate]]).
  apply row_lengths_map.
Qed.

(** The cleaned mask, for a kernel size of 1 or more, in terms of the
    widths of the rows of the input. *)
Lemma cleanup_inside (mask : grid Z) (kernel_size : Z) (i j : nat) :
  (1 <= kernel_size)%Z ->
  Np.get (apply_morphological_operations mask kernel_size) i j = Some 1%Z ->
  inside (Z.to_nat kernel_size) (row_lengths mask) i j.
Proof.
  intros Hk H. unfold apply_morphological_operations in H.
  rewrite get_map in H. unfold Ndimage.binary_closing in H.
  rewrite <- (row_lengths_closing_input mask kernel_size).
  apply erode_iter_inside.
  unfold Ndimage.binary_erosion, Ndimage.repeat_step in H.
  destruct (Z.leb_spec 1 kernel_size); [|lia].
  match type of H with
  | option_map _ ?o = _ => destruct o as [[|]|]; cbn in H; congruence
  end.
Qed.

Lemma rect_widths {A} (g : grid A) (i w : nat) :
  Np.rect g -> nth_error (row_lengths g) i = Some w -> w = snd (Np.shape g).
Proof.
  unfold Np.rect, row_lengths. intros R H. rewrite nth_error_map in H.
  destruct (nth_error g i) as [row|] eqn:Er; [|discriminate].
  inversion H; subst. rewrite Forall_forall in R. apply R.
  eapply nth_error_In; eauto.
Qed.

(** The cleanup, for a kernel size [k] of 1 or more, flags no pixel
    nearer than [k] pixels to an edge of the image: the closing ends on [k]
    erosions with a background border. *)
Theorem apply_morphological_operations_margin (mask : grid Z) (kernel_size : Z)
  (i j : nat) :
  (1 <= kernel_size)%Z -> Np.rect mask ->
  Np.get (apply_morphological_operations mask kernel_size) i j = Some 1%Z ->
  (kernel_size <= Z.of_nat i /\ kernel_size <= Z.of_nat j /\
   Z.of_nat i + kernel_size < Z.of_nat (fst (Np.shape mask)) /\
   Z.of_nat j + kernel_size < Z.of_nat (snd (Np.shape mask)))%Z.
Proof.
  intros Hk R H.
  destruct (cleanup_inside mask kernel_size i j Hk H) as (H1 & H2 & H3 & w & Hw & H4).
  apply (rect_widths mask i w R) in Hw. subst w.
  unfold row_lengths in H3. rewrite length_map in H3.
  cbn [Np.shape fst]. cbn [Np.shape snd] in H4 |- *. lia.
Qed.

Lemma apply_morphological_operations_margin_witness :
  Np.get (apply_morphological_operations full_mask 3) 4 4 = Some 1%Z /\
  (3 <= Z.of_nat 4 /\ 3 <= Z.of_nat 4 /\
   Z.of_nat 4 + 3 < Z.of_nat (fst (Np.shape full_mask)) /\
   Z.of_nat 4 + 3 < Z.of_nat (snd (Np.shape full_mask)))%Z.
Proof.
  split; [reflexivity|].
  apply (apply_morphological_operations_margin full_mask 3 4 4).
  - lia.
  - unfold Np.rect. pixelwise.
  - reflexivity.
Defined.

Lemma get_every_pixel {A} (P : A -> Prop) (g : grid A) :
  (forall i j a, Np.get g i j = Some a -> P a) -> every_pixel P g.
Proof.
  intro H. unfold every_pixel. apply Forall_forall. intros row Hrow.
  apply Forall_forall. intros a Ha.
  destruct (In_nth_error _ _ Hrow) as [i Hi].
  destruct (In_nth_error _ _ Ha) as [j Hj].
  apply (H i j). unfold Np.get. now rewrite Hi.
Qed.

(** The cleanup with a kernel size below 1 clears every pixel: the
    erosions are repeated until nothing changes, which with a background
    border is when nothing is left. *)
Theorem apply_morphological_operations_wipes (mask : grid Z) (kernel_size : Z) :
  (kernel_size < 1)%Z ->
  every_pixel (fun c => c = 0%Z) (apply_morphological_operations mask kernel_size) /\
  Np.shape (apply_morphological_operations mask kernel_size) = Np.shape mask.
Proof.
  intro Hk. split; [|apply shape_row_lengths, row_lengths_morphology].
  apply get_every_pixel. intros i j c H.
  unfold apply_morphological_operations in H.
  rewrite get_map in H. unfold Ndimage.binary_closing in H.
  match type of H with
  | option_map _ (Np.get ?r i j) = _ =>
      pose proof (erode_fixed_empty r i j
                    (binary_erosion_stable _ _ kernel_size cross_centre Hk)) as E;
      destruct (Np.get r i j) as [[|]|]; cbn in H; congruence
  end.
Qed.

Lemma apply_morphological_operations_wipes_witness :
  every_pixel (fun c => c = 0%Z) (apply_morphological_operations full_mask 0) /\
  Np.shape (apply_morphological_operations full_mask 0) = Np.shape full_mask.
Proof.
  apply (apply_morphological_operations_wipes full_mask 0). lia.
Defined.

(* ===================================================================== *)
(** ** Morphological cleanup: what it keeps *)
(* ===================================================================== *)


Lemma pixel_in_image (g : grid bool) (a b : Z) :
  Ndimage.pixel g a b = true -> in_image g a b.
Proof.
  intro H. apply pixel_true in H. destruct H as (Ha & Hb & G).
  split; [exact Ha|]. split; [exact Hb|]. eauto.
Qed.

Lemma pixel_outside (g : grid bool) (a b : Z) :
  ~ in_image g a b -> Ndimage.pixel g a b = false.
Proof.
  intro H. destruct (Ndimage.pixel g a b) eqn:E; [|reflexivity].
  contradiction H. apply pixel_in_image. exact E.
Qed.















(* ===================================================================== *)
(** ** The flood pipeline as a whole *)
(* ===================================================================== *)

Lemma widths_zip_with {A B C} (f : A -> B -> C) (g : grid A) (h : grid B) i w :
  nth_error (row_lengths (Np.map2 f g h)) i = Some w ->
  exists w', nth_error (row_lengths g) i = Some w' /\ (w <= w')%nat.
Proof.
  unfold row_lengths, Np.map2. rewrite !nth_error_map, nth_error_zip_with.
  destruct (nth_error g i) as [r|]; [|discriminate].
  destruct (nth_error h i) as [r'|]; [|discriminate].
  cbn [option_map]. intro H. inversion H; subst.
  exists (length r). split; [reflexivity|].
  clear. revert r'. induction r as [|a r IH]; intros [|b r']; simpl; try lia.
  specialize (IH r'). lia.
Qed.

Lemma length_zip_with_le {A B C} (f : A -> B -> C) (l : list A) (m : list B) :
  (length (Np.zip_with f l m) <= length l)%nat.
Proof.
  revert m. induction l as [|a l IH]; intros [|b m]; simpl; try lia.
  specialize (IH m). lia.
Qed.

(** A pixel inside the elevation-filtered mask is as far inside the
    scene. *)
Lemma inside_filtered {A B} (f : Z -> A -> Z) (water_mask : grid Z)
  (dem_array : grid A) (sar_array : grid B) (n i j : nat) :
  inside n (row_lengths (Np.map2 f water_mask dem_array)) i j ->
  row_lengths water_mask = row_lengths sar_array ->
  Np.rect sar_array ->
  (n <= i /\ n <= j /\ i + n < fst (Np.shape sar_array)
   /\ j + n < snd (Np.shape sar_array))%nat.
Proof.
  intros (G1 & G2 & G3 & w & Hw & G4) Hrl R.
  apply widths_zip_with in Hw. destruct Hw as (w' & Hw' & Hle).
  rewrite Hrl in Hw'. apply (rect_widths sar_array i w' R) in Hw'. subst w'.
  assert (L : (length (row_lengths (Np.map2 f water_mask dem_array))
               <= fst (Np.shape sar_array))%nat).
  { unfold row_lengths at 1. rewrite length_map. unfold Np.map2.
    pose proof (length_zip_with_le (Np.zip_with f) water_mask dem_array) as Hz.
    assert (Hl : length water_mask = length sar_array).
    { rewrite <- (length_map (@length Z) water_mask),
              <- (length_map (@length B) sar_array).
      unfold row_lengths in Hrl. now rewrite Hrl. }
    cbn [Np.shape fst]. lia. }
  lia.
Qed.


(** The statistics of a binary mask, for a pixel size whose square is in
    range. *)
Lemma statistics_of_binary_mask (flood_mask : grid Z) (pixel_size : number) :
  binary_mask flood_mask -> fits_uint64 pixel_size ->
  exists stats,
    calculate_flood_statistics flood_mask pixel_size = Ok stats /\
    flood_pixels stats = Z.of_nat (flagged flood_mask) /\
    total_pixels stats = Z.of_nat (Np.size flood_mask) /\
    (0 <= flood_pixels stats <= total_pixels stats)%Z /\
    uint64_times (flood_pixels stats) pixel_size = Ok (flood_area_m2 stats) /\
    flood_area_km2 stats = flood_area_m2 stats / 1000000 /\
    flood_percentage stats
    = Np.mul (Np.div (Num (inject_Z (Z.of_nat (flagged flood_mask))))
                     (Num (inject_Z (Z.of_nat (Np.size flood_mask)))))
             (Num 100).
Proof.
  intros B Hp. unfold calculate_flood_statistics.
  assert (F : Np.isum flood_mask = Z.of_nat (flagged flood_mask))
    by (apply isum_flagged; exact B).
  assert (C : (flagged flood_mask <= Np.size flood_mask)%nat).
  { unfold flagged, Np.size. apply count_occ_bound. }
  assert (A : exists area, uint64_times (Np.isum flood_mask) pixel_size = Ok area).
  { unfold uint64_times. destruct pixel_size as [n|x]; [|eauto].
    cbn [fits_uint64] in Hp. cbv zeta.
    rewrite (proj2 (Z.ltb_lt _ _) Hp). eauto. }
  destruct A as [area Ea]. rewrite Ea. cbn [bind].
  eexists. split; [reflexivity|].
  cbn [flood_pixels total_pixels flood_area_m2 flood_area_km2 flood_percentage].
  rewrite F in *. repeat split; try lia; assumption.
Qed.

Section WholeFloodPipeline.

Variable threshold_otsu : list sample -> result sample.

Lemma apply_threshold_widths (dtype : Np.dtype) (sar_array : grid sample)
  (threshold : option sample) (use_otsu : bool) (water_mask : grid Z) :
  apply_threshold threshold_otsu dtype sar_array threshold use_otsu = Ok water_mask ->
  row_lengths water_mask = row_lengths sar_array.
Proof.
  unfold apply_threshold.
  destruct (if use_otsu then _ else _) as [t|e]; cbn [bind]; [|discriminate].
  intro H. inversion H. apply row_lengths_map.
Qed.

Lemma apply_threshold_binary (dtype : Np.dtype) (sar_array : grid sample)
  (threshold : option sample) (use_otsu : bool) (water_mask : grid Z) :
  apply_threshold threshold_otsu dtype sar_array threshold use_otsu = Ok water_mask ->
  binary_mask water_mask.
Proof.
  unfold apply_threshold.
  destruct (if use_otsu then _ else _) as [t|e]; cbn [bind]; [|discriminate].
  intro H. inversion H. apply get_every_pixel. intros i j a G.
  rewrite get_map in G.
  destruct (Np.get sar_array i j) as [x|]; [|discriminate].
  cbn [option_map] in G. inversion G.
  destruct (valid_sample x); [|now left].
  destruct (Np.lt x _); [now right | now left].
Qed.

(** What a successful run is made of. *)
Lemma process_sar_for_flood_stages (sar_dtype : Np.dtype) (sar_array : grid sample)
  (dem_dtype : Np.dtype) (dem_array : grid sample)
  (threshold : option sample) (use_otsu : bool) (dem_threshold : sample)
  (morphology_kernel : Z) (mask : grid Z) :
  process_sar_for_flood threshold_otsu sar_dtype sar_array dem_dtype dem_array
    threshold use_otsu dem_threshold morphology_kernel = Ok mask ->
  exists water_mask,
    apply_threshold threshold_otsu sar_dtype sar_array threshold use_otsu
    = Ok water_mask /\
    Np.shape sar_array = Np.shape dem_array /\
    mask = apply_morphological_operations
             (Np.map2 (fun (m : Z) (e : sample) =>
                         if Np.gt e (Np.cast_sample dem_dtype dem_threshold)
                         then 0%Z else m)
                water_mask dem_array)
             morphology_kernel.
Proof.
  unfold process_sar_for_flood.
  destruct (Np.shape_eqb (Np.shape sar_array) (Np.shape dem_array)) eqn:E;
    cbn [negb]; [|discriminate].
  apply shape_eqb_eq in E.
  destruct (apply_threshold threshold_otsu sar_dtype sar_array threshold use_otsu)
    as [water_mask|e] eqn:Ew; cbn [bind]; [|discriminate].
  pose proof (shape_row_lengths _ _ (apply_threshold_widths _ _ _ _ _ Ew)) as Sw.
  rewrite apply_dem_mask_ok by congruence. cbn [bind].
  intro H. inversion H. exists water_mask. auto.
Qed.

(** The cleanup writes 0 and 1 only, whatever the mask it is given. *)
Lemma cleanup_binary (mask : grid Z) (kernel_size : Z) :
  binary_mask (apply_morphological_operations mask kernel_size).
Proof.
  apply get_every_pixel. intros i j a G.
  unfold apply_morphological_operations in G. rewrite get_map in G.
  match type of G with
  | option_map _ ?o = _ => destruct o as [[|]|]; cbn in G; inversion G; auto
  end.
Qed.

Lemma process_sar_for_flood_shape (sar_dtype : Np.dtype) (sar_array : grid sample)
  (dem_dtype : Np.dtype) (dem_array : grid sample)
  (threshold : option sample) (use_otsu : bool) (dem_threshold : sample)
  (morphology_kernel : Z) (mask : grid Z) :
  process_sar_for_flood threshold_otsu sar_dtype sar_array dem_dtype dem_array
    threshold use_otsu dem_threshold morphology_kernel = Ok mask ->
  Np.shape mask = Np.shape sar_array.
Proof.
  intro H. apply process_sar_for_flood_stages in H.
  destruct H as (water_mask & Ew & S & ->).
  rewrite (shape_row_lengths _ _ (row_lengths_morphology _ morphology_kernel)).
  pose proof (shape_row_lengths _ _ (apply_threshold_widths _ _ _ _ _ Ew)) as Sw.
  rewrite shape_map2 by congruence. exact Sw.
Qed.

(** Whenever the flood pipeline returns a mask, in either mode, the mask
    has the shape of the backscatter grid and holds 0 and 1 only. *)
Theorem process_sar_for_flood_mask (sar_dtype : Np.dtype) (sar_array : grid sample)
  (dem_dtype : Np.dtype) (dem_array : grid sample)
  (threshold : option sample) (use_otsu : bool) (dem_threshold : sample)
  (morphology_kernel : Z) (mask : grid Z) :
  process_sar_for_flood threshold_otsu sar_dtype sar_array dem_dtype dem_array
    threshold use_otsu dem_threshold morphology_kernel = Ok mask ->
  Np.shape mask = Np.shape sar_array /\ binary_mask mask.
Proof.
  intro H. split.
  - exact (process_sar_for_flood_shape _ _ _ _ _ _ _ _ _ H).
  - apply process_sar_for_flood_stages in H.
    destruct H as (water_mask & _ & _ & ->). apply cleanup_binary.
Qed.

(** With the configured kernel size 3, a run of the flood pipeline on a
    rectangular scene flags no pixel nearer than 3 pixels to an edge of
    the scene; its statistics count the flagged pixels, never more than
    the scene has. *)
Theorem run_flood_pipeline_margin (sar_dtype : Np.dtype) (sar_array : grid sample)
  (dem_dtype : Np.dtype) (dem_array : grid sample)
  (flood_mask : grid Z) (stats : flood_statistics) :
  Np.rect sar_array ->
  run_flood_pipeline threshold_otsu sar_dtype sar_array dem_dtype dem_array
  = Ok (flood_mask, stats) ->
  Np.shape flood_mask = Np.shape sar_array /\
  flood_pixels stats = Z.of_nat (flagged flood_mask) /\
  (0 <= flood_pixels stats <= total_pixels stats)%Z /\
  forall i j, Np.get flood_mask i j = Some 1%Z ->
    (3 <= i /\ 3 <= j /\ i + 3 < fst (Np.shape sar_array)
     /\ j + 3 < snd (Np.shape sar_array))%nat.
Proof.
  intros R H. unfold run_flood_pipeline in H.
  destruct (process_sar_for_flood _ _ _ _ _ _ _ _ _) as [mask|e] eqn:E;
    cbn [bind] in H; [|discriminate].
  pose proof (process_sar_for_flood_shape _ _ _ _ _ _ _ _ _ E) as S.
  assert (B : binary_mask mask).
  { destruct (process_sar_for_flood_stages _ _ _ _ _ _ _ _ _ E) as (w & _ & _ & ->).
    apply cleanup_binary. }
  destruct (statistics_of_binary_mask mask (PyInt 30) B)
    as (st & Est & F & T & C & _); [reflexivity|].
  rewrite Est in H. cbn [bind] in H. inversion H; subst; clear H.
  split; [exact S|]. split; [exact F|]. split; [exact C|].
  intros i j G.
  apply process_sar_for_flood_stages in E.
  destruct E as (water_mask & Ew & Ss & ->).
  apply cleanup_inside in G; [|unfold FLOOD_CONFIG_morphology_kernel_size; lia].
  change (Z.to_nat FLOOD_CONFIG_morphology_kernel_size) with 3%nat in G.
  apply (inside_filtered _ _ _ _ _ _ _ G (apply_threshold_widths _ _ _ _ _ Ew) R).
Qed.


End WholeFloodPipeline.

Lemma process_sar_for_flood_mask_witness :
  Np.shape (constant_grid 2 3 0%Z) = Np.shape small_sar /\
  binary_mask (constant_grid 2 3 0%Z).
Proof.
  apply (process_sar_for_flood_mask threshold_midrange Np.float32 small_sar
           Np.float32 small_dem None true (Num 100) 3 (constant_grid 2 3 0%Z)).
  vm_compute. reflexivity.
Defined.

Lemma run_flood_pipeline_margin_witness :
  Np.shape centre_mask = Np.shape mixed_scene /\
  flood_pixels centre_statistics = Z.of_nat (flagged centre_mask) /\
  (0 <= flood_pixels centre_statistics <= total_pixels centre_statistics)%Z /\
  forall i j, Np.get centre_mask i j = Some 1%Z ->
    (3 <= i /\ 3 <= j /\ i + 3 < fst (Np.shape mixed_scene)
     /\ j + 3 < snd (Np.shape mixed_scene))%nat.
Proof.
  apply (run_flood_pipeline_margin threshold_midrange Np.float32 mixed_scene
           Np.float32 flat_dem centre_mask centre_statistics).
  - unfold Np.rect. pixelwise.
  - vm_compute. reflexivity.
Defined.





(** The product wraps around: four flagged pixels and the pixel size
    3,000,000,000, whose square is 9e18 and in range, give the area
    36e18 - 2^64 and not 36e18. *)
Example calculate_flood_statistics_wraps :
  exists stats,
    calculate_flood_statistics [ [1; 1]; [1; 1] ]%Z (PyInt 3000000000) = Ok stats /\
    flood_pixels stats = 4%Z /\
    flood_area_m2 stats = 17553255926290448384 /\
    (4 * (3000000000 * 3000000000) = 36000000000000000000)%Z.
Proof. eexists. repeat split. Qed.

(** The pixel size 2^32, whose square is 2^64, is out of range. *)
Example calculate_flood_statistics_overflows :
  ~ fits_uint64 (PyInt 4294967296) /\
  calculate_flood_statistics [ [1; 1]; [1; 1] ]%Z (PyInt 4294967296)
  = Raise (OverflowError "Python integer out of bounds for uint64").
Proof. split; [intro H; discriminate H | reflexivity]. Qed.

(* ===================================================================== *)
(** ** Further properties of normalization *)
(* ===================================================================== *)

Lemma minimum_nan_r (a : sample) : Np.minimum a NaN = NaN.
Proof. destruct a; reflexivity. Qed.

Lemma fold_minimum_nan (l : list sample) : fold_left Np.minimum l NaN = NaN.
Proof. induction l as [|x l IH]; simpl; [reflexivity | exact IH]. Qed.

Lemma fold_minimum_has_nan (l : list sample) (a : sample) :
  In NaN l -> fold_left Np.minimum l a = NaN.
Proof.
  revert a. induction l as [|x l IH]; intros a H; [contradiction|].
  destruct H as [H|H]; simpl.
  - subst x. rewrite minimum_nan_r. apply fold_minimum_nan.
  - apply IH. exact H.
Qed.

Lemma amin_nan (array : grid sample) :
  In NaN (concat array) -> Np.amin array = Ok NaN.
Proof.
  unfold Np.amin. destruct (concat array) as [|x l]; [contradiction|].
  intros [->|H]; f_equal.
  - apply fold_minimum_nan.
  - apply fold_minimum_has_nan. exact H.
Qed.

Section MoreNormalization.

Variable np_mean : grid sample -> sample.
Variable np_std : grid sample -> sample.

(** One NaN sample anywhere in the array and [min_max] returns the
    [float32] copy of the array as it is: the minimum is NaN and no
    maximum compares above it. *)
Theorem normalize_min_max_nan (array : grid sample) (i j : nat) :
  Np.get array i j = Some NaN ->
  normalize_raster np_mean np_std array "min_max"
  = Ok (Np.astype Np.float32 array).
Proof.
  intro G.
  assert (Gf : Np.get (Np.astype Np.float32 array) i j = Some NaN)
    by (rewrite get_astype, G; reflexivity).
  apply get_In_concat in Gf.
  rewrite normalize_min_max_eq. cbv zeta.
  rewrite (amin_nan _ Gf). cbn [bind].
  unfold Np.amax. destruct (concat (Np.astype Np.float32 array)) as [|x l];
    [contradiction|].
  cbn [bind]. unfold Np.gt, Np.lt. reflexivity.
Qed.

(** A method other than the two known raises whatever the array; on an
    array without samples [min_max] raises, for the minimum of nothing,
    while [z_score] returns the array. *)
Theorem normalize_raster_edge_cases (array : grid sample) (method : string) :
  (method <> "min_max"%string -> method <> "z_score"%string ->
   normalize_raster np_mean np_std array method
   = Raise (ValueError "Unknown normalization method")) /\
  (Np.size array = 0%nat ->
   normalize_raster np_mean np_std array "min_max"
   = Raise (ValueError "zero-size array to reduction operation minimum which has no identity") /\
   normalize_raster np_mean np_std array "z_score" = Ok array).
Proof.
  split.
  - intros H1 H2. unfold normalize_raster.
    apply String.eqb_neq in H1. apply String.eqb_neq in H2.
    now rewrite H1, H2.
  - intro Hs.
    assert (Ef : Np.astype Np.float32 array = array)
      by (apply map_no_samples; exact Hs).
    unfold Np.size in Hs. apply length_zero_iff_nil in Hs. split.
    + rewrite normalize_min_max_eq. cbv zeta. rewrite Ef.
      unfold Np.amin. now rewrite Hs.
    + unfold normalize_raster. cbn [String.eqb Ascii.eqb Bool.eqb].
      rewrite Ef. unfold std. rewrite Hs. reflexivity.
Qed.


End MoreNormalization.

Lemma normalize_min_max_nan_witness :
  normalize_raster mean_not_called std_not_called nan_array "min_max"
  = Ok (Np.astype Np.float32 nan_array).
Proof.
  apply (normalize_min_max_nan mean_not_called std_not_called nan_array 0 1).
  reflexivity.
Defined.

Lemma normalize_raster_edge_cases_witness :
  ("sigmoid"%string <> "min_max"%string -> "sigmoid"%string <> "z_score"%string ->
   normalize_raster mean_not_called std_not_called empty_array "sigmoid"
   = Raise (ValueError "Unknown normalization method")) /\
  (Np.size empty_array = 0%nat ->
   normalize_raster mean_not_called std_not_called empty_array "min_max"
   = Raise (ValueError "zero-size array to reduction operation minimum which has no identity") /\
   normalize_raster mean_not_called std_not_called empty_array "z_score" = Ok empty_array).
Proof.
  exact (normalize_raster_edge_cases mean_not_called std_not_called empty_array "sigmoid").
Defined.


(** Two samples that are one [float32] value are normalized to one value:
    16777216 and 16777217, beside 0, both become 1. *)
Example normalize_min_max_collapse :
  normalize_raster mean_not_called std_not_called
    [ [Num 0; Num 16777216; Num 16777217] ] "min_max"
  = Ok [ [Num (0 # 16777216); Num (16777216 # 16777216);
          Num (16777216 # 16777216)] ].
Proof. vm_compute. reflexivity. Qed.

Lemma clip_unit (z : Q) :
  exists v, Np.clip (Num z) (Num 0) (Num 1) = Num v /\ 0 <= v <= 1 /\
            (z <= 0 -> v == 0) /\ (1 <= z -> v == 1).
Proof.
  cbn [Np.clip Np.maximum Np.minimum].
  eexists. split; [reflexivity|].
  destruct (Qle_bool z 0) eqn:E1.
  - destruct (Qle_bool 0 1) eqn:E2; [|discriminate E2].
    apply Qle_bool_iff in E1.
    split; [lra|]. split; [intros _; reflexivity | intro; lra].
  - destruct (Qle_bool z 1) eqn:E2; qbool; split; try lra; split; intro; lra.
Qed.

Section ZScore.

Variable np_mean : grid sample -> sample.
Variable np_std : grid sample -> sample.

(** [z_score] on an array with samples works on the [float32] copy, with
    the mean and the deviation numpy computes of it.  When the deviation
    is not above 0 the copy is returned as it is.  When it is, every
    sample of the output lies in [0, 1]: a sample at or below the mean
    becomes 0 and one a deviation or more above it becomes 1, for the
    z-scores are clipped, not rescaled. *)
Theorem normalize_z_score (array : grid sample) :
  Np.size array <> 0%nat ->
  exists out,
    normalize_raster np_mean np_std array "z_score" = Ok out /\
    Np.shape out = Np.shape array /\
    (Np.gt (np_std (Np.astype Np.float32 array)) (Num 0) = false ->
     out = Np.astype Np.float32 array) /\
    (forall m s,
       np_mean (Np.astype Np.float32 array) = Num m ->
       np_std (Np.astype Np.float32 array) = Num s -> 0 < s ->
       forall i j q, Np.get array i j = Some (Num q) ->
         exists v, Np.get out i j = Some (Num v) /\ 0 <= v <= 1 /\
                   (Np.cast Np.float32 q <= m -> v == 0) /\
                   (m + s <= Np.cast Np.float32 q -> v == 1)).
Proof.
  intro Hs. unfold normalize_raster. cbn [String.eqb Ascii.eqb Bool.eqb].
  assert (C : concat (Np.astype Np.float32 array) <> []).
  { intro C. apply Hs. rewrite <- (size_astype Np.float32).
    unfold Np.size. now rewrite C. }
  unfold mean, std.
  destruct (concat (Np.astype Np.float32 array)) as [|x0 l0]; [contradiction|].
  destruct (Np.gt (np_std (Np.astype Np.float32 array)) (Num 0)) eqn:G.
  - eexists. split; [reflexivity|].
    split; [rewrite shape_map; apply shape_astype|]. split; [discriminate|].
    intros m s Em Es Hpos i j q Gq.
    rewrite get_map, get_astype, Gq. cbn [option_map Np.cast_sample].
    rewrite Em, Es. cbn [Np.sub Np.div].
    destruct (Qeq_bool s 0) eqn:Z0; [apply Qeq_bool_iff in Z0; lra|].
    destruct (clip_unit ((Np.cast Np.float32 q - m) / s)) as (v & Ev & Hv & Hz & Ho).
    exists v. split; [now rewrite Ev|]. split; [exact Hv|]. split.
    + intro Hq. apply Hz. apply Qle_shift_div_r; [exact Hpos | lra].
    + intro Hq. apply Ho. apply Qle_shift_div_l; [exact Hpos | lra].
  - eexists. split; [reflexivity|]. split; [apply shape_astype|].
    split; [reflexivity|].
    intros m s Em Es Hpos. rewrite Es in G.
    change (Np.Qlt_bool 0 s = false) in G.
    rewrite (proj2 (Qlt_bool_iff 0 s) Hpos) in G. discriminate G.
Qed.

End ZScore.

Lemma normalize_z_score_witness :
  exists out,
    normalize_raster Np.exact_mean (exact_std sqrt_of_squares) two_level_array
      "z_score" = Ok out /\
    Np.shape out = Np.shape two_level_array /\
    (Np.gt (exact_std sqrt_of_squares (Np.astype Np.float32 two_level_array))
           (Num 0) = false ->
     out = Np.astype Np.float32 two_level_array) /\
    (forall m s,
       Np.exact_mean (Np.astype Np.float32 two_level_array) = Num m ->
       exact_std sqrt_of_squares (Np.astype Np.float32 two_level_array) = Num s ->
       0 < s ->
       forall i j q, Np.get two_level_array i j = Some (Num q) ->
         exists v, Np.get out i j = Some (Num v) /\ 0 <= v <= 1 /\
                   (Np.cast Np.float32 q <= m -> v == 0) /\
                   (m + s <= Np.cast Np.float32 q -> v == 1)).
Proof.
  apply (normalize_z_score Np.exact_mean (exact_std sqrt_of_squares)
           two_level_array).
  discriminate.
Defined.

Example normalize_z_score_two_levels :
  Np.exact_mean (Np.astype Np.float32 two_level_array) = Num (4 # 2) /\
  exact_std sqrt_of_squares (Np.astype Np.float32 two_level_array) = Num 2 /\
  exists out,
    normalize_raster Np.exact_mean (exact_std sqrt_of_squares) two_level_array
      "z_score" = Ok out /\
    same_grid out [ [Num 0; Num 1] ].
Proof.
  split; [vm_compute; reflexivity|]. split; [vm_compute; reflexivity|].
  eexists. split; [vm_compute; reflexivity|].
  repeat constructor.
Qed.

(* ===================================================================== *)
(** ** Further properties of the weighted combination *)
(* ===================================================================== *)

Lemma weighted_sum2 (r1 r2 a b : Q) :
  0 <= r1 -> 0 <= r2 -> 0 <= a <= 1 -> 0 <= b <= 1 ->
  0 <= r1 * a + r2 * b <= r1 + r2.
Proof. intros. nra. Qed.


Lemma in_unit_no_nan (g : grid sample) : every_pixel in_unit g -> every_pixel no_nan g.
Proof.
  unfold every_pixel. intro H.
  eapply Forall_impl; [|exact H]. intros row Hrow.
  eapply Forall_impl; [|exact Hrow]. intros x (v & -> & _). reflexivity.
Qed.

Lemma add_arrays_ok (g h : grid sample) :
  Np.shape g = Np.shape h -> add_arrays g h = Ok (Np.map2 Np.add g h).
Proof.
  intro S. unfold add_arrays. now rewrite (proj2 (shape_eqb_eq _ _) S).
Qed.

Lemma shape_scale (w : Q) (g : grid sample) : Np.shape (scale w g) = Np.shape g.
Proof. apply shape_map. Qed.

Lemma get_scale (w : Q) (g : grid sample) (i j : nat) :
  Np.get (scale w g) i j = option_map (Np.mul (Num w)) (Np.get g i j).
Proof. apply get_map. Qed.

(** The pixels of [r1 * A + r2 * B]. *)
Lemma get_weighted2 (r1 r2 : Q) (A B : grid sample) (i j : nat) (y : sample) :
  (forall i j x, Np.get A i j = Some x -> in_unit x) ->
  (forall i j x, Np.get B i j = Some x -> in_unit x) ->
  Np.get (Np.map2 Np.add (scale r1 A) (scale r2 B)) i j = Some y ->
  exists a b, y = Num (r1 * a + r2 * b) /\ 0 <= a <= 1 /\ 0 <= b <= 1.
Proof.
  intros HA HB. rewrite get_map2, !get_scale.
  destruct (Np.get A i j) as [x|] eqn:GA; cbn [option_map]; [|discriminate].
  destruct (Np.get B i j) as [x'|] eqn:GB; cbn [option_map]; [|discriminate].
  destruct (HA i j x GA) as (a & -> & Ha).
  destruct (HB i j x' GB) as (b & -> & Hb).
  intro E. inversion E. exists a, b. auto.
Qed.

(** The pixels of [(r1 * A + r2 * B) + r3 * C]. *)
Lemma get_weighted3 (r1 r2 r3 : Q) (A B C : grid sample) (i j : nat) (y : sample) :
  (forall i j x, Np.get A i j = Some x -> in_unit x) ->
  (forall i j x, Np.get B i j = Some x -> in_unit x) ->
  (forall i j x, Np.get C i j = Some x -> in_unit x) ->
  Np.get (Np.map2 Np.add (Np.map2 Np.add (scale r1 A) (scale r2 B)) (scale r3 C))
         i j = Some y ->
  exists a b c, y = Num (r1 * a + r2 * b + r3 * c)
                /\ 0 <= a <= 1 /\ 0 <= b <= 1 /\ 0 <= c <= 1.
Proof.
  intros HA HB HC. rewrite get_map2, get_scale.
  destruct (Np.get (Np.map2 Np.add (scale r1 A) (scale r2 B)) i j) as [z|] eqn:G;
    [|discriminate].
  destruct (get_weighted2 r1 r2 A B i j z HA HB G) as (a & b & -> & Ha & Hb).
  destruct (Np.get C i j) as [x|] eqn:GC; cbn [option_map]; [|discriminate].
  destruct (HC i j x GC) as (c & -> & Hc).
  intro E. inversion E. exists a, b, c. auto.
Qed.

(** The [float32] copy of samples of [0, 1] holds samples of [0, 1]. *)
Lemma astype_in_unit (dt : Np.dtype) (g : grid sample) :
  every_pixel in_unit g -> every_pixel in_unit (Np.astype dt g).
Proof.
  apply every_pixel_map. intros x (v & -> & Hv). exists (Np.cast dt v).
  split; [reflexivity|].
  pose proof (cast_le dt 0 v ltac:(lra)) as L.
  pose proof (cast_le dt v 1 ltac:(lra)) as U.
  rewrite cast_0 in L. rewrite cast_1 in U. lra.
Qed.

Section MoreCombination.

Variable np_mean : grid sample -> sample.
Variable np_std : grid sample -> sample.

(** [min_max] on a non-empty array of samples of [0, 1] returns an array
    of the same rows with samples of [0, 1]. *)
Lemma normalize_unit (array : grid sample) :
  every_pixel in_unit array -> Np.size array <> 0%nat ->
  exists out,
    normalize_raster np_mean np_std array "min_max" = Ok out /\
    Np.shape out = Np.shape array /\
    forall i j y, Np.get out i j = Some y -> in_unit y.
Proof.
  intros Hu Hs.
  pose proof (astype_in_unit Np.float32 array Hu) as Hf.
  assert (Sf : Np.size (Np.astype Np.float32 array) <> 0%nat)
    by (rewrite size_astype; exact Hs).
  destruct (amin_amax_spec _ (in_unit_no_nan _ Hf) Sf)
    as (mn & mx & Emin & Emax & Imin & Imax & B).
  rewrite normalize_min_max_eq. cbv zeta. rewrite Emin, Emax. cbn [bind].
  change (Np.gt (Num mx) (Num mn)) with (Np.Qlt_bool mn mx).
  destruct (Np.Qlt_bool mn mx) eqn:E.
  - apply Qlt_bool_iff in E. eexists. split; [reflexivity|].
    split; [rewrite shape_map; apply shape_astype|].
    intros i j y. rewrite get_map.
    destruct (Np.get (Np.astype Np.float32 array) i j) as [x|] eqn:G;
      cbn [option_map]; [|discriminate].
    destruct (every_pixel_get _ _ i j x Hf G) as (q & -> & _).
    intro Ey. inversion Ey. cbn [Np.sub Np.div].
    destruct (Qeq_bool (mx - mn) 0) eqn:Z0; [apply Qeq_bool_iff in Z0; lra|].
    eexists. split; [reflexivity|].
    apply unit_interval; [exact E|]. apply B. eapply get_In_concat; eauto.
  - exists (Np.astype Np.float32 array). split; [reflexivity|].
    split; [apply shape_astype|].
    intros i j y G. exact (every_pixel_get _ _ i j y Hf G).
Qed.

(** Without exposure, on layers of one shape with samples of [0, 1] and
    weights that are not negative and not both zero, the combined risk has
    that shape and its samples lie in [0, 1]. *)
Theorem combine_hazards_unit_range (landslide flood : grid sample)
  (weights : dict Q) (w_l w_f : Q) :
  every_pixel in_unit landslide -> every_pixel in_unit flood ->
  Np.size landslide <> 0%nat -> Np.size flood <> 0%nat ->
  Np.shape landslide = Np.shape flood ->
  dict_find weights "landslide" = Some w_l ->
  dict_find weights "flood" = Some w_f ->
  0 <= w_l -> 0 <= w_f -> 0 < w_l + w_f ->
  exists risk,
    combine_hazards np_mean np_std landslide flood None (Some weights) = Ok risk /\
    Np.shape risk = Np.shape landslide /\
    forall i j y, Np.get risk i j = Some y -> in_unit y.
Proof.
  intros Ul Uf Sl Sf S Dl Df Hl Hf Hsum.
  destruct (normalize_unit landslide Ul Sl) as (ln & El & Shl & Pl).
  destruct (normalize_unit flood Uf Sf) as (fn & Ef & Shf & Pf).
  unfold combine_hazards, MULTI_HAZARD_CONFIG_normalization_method, dict_get.
  rewrite El, Ef, Dl, Df. cbn [bind].
  assert (Sn : forall a b, Np.shape (scale a ln) = Np.shape (scale b fn))
    by (intros; rewrite !shape_scale; congruence).
  rewrite (add_arrays_ok _ _ (Sn w_l w_f)). cbn [bind].
  unfold float_div.
  destruct (Qeq_bool (w_l + w_f) 0) eqn:Z0; [apply Qeq_bool_iff in Z0; lra|].
  cbn [bind]. rewrite (add_arrays_ok _ _ (Sn _ _)).
  eexists. split; [reflexivity|].
  split; [rewrite shape_map2 by apply Sn; rewrite shape_scale; exact Shl|].
  intros i j y G.
  destruct (get_weighted2 _ _ ln fn i j y Pl Pf G) as (a & b & -> & Ha & Hb).
  eexists. split; [reflexivity|].
  assert (R1 : 0 <= w_l / (w_l + w_f)) by (apply Qle_shift_div_l; lra).
  assert (R2 : 0 <= w_f / (w_l + w_f)) by (apply Qle_shift_div_l; lra).
  assert (R : w_l / (w_l + w_f) + w_f / (w_l + w_f) == 1) by (field; lra).
  pose proof (weighted_sum2 _ _ a b R1 R2 Ha Hb). lra.
Qed.

(** Without exposure, on layers that normalize, a weight table in which
    the landslide and flood weights sum to 0 raises [ZeroDivisionError],
    and one without a flood entry raises [KeyError]. *)
Theorem combine_hazards_bad_weights (landslide flood : grid sample)
  (weights : dict Q) (w_l : Q) :
  every_pixel in_unit landslide -> every_pixel in_unit flood ->
  Np.size landslide <> 0%nat -> Np.size flood <> 0%nat ->
  Np.shape landslide = Np.shape flood ->
  dict_find weights "landslide" = Some w_l ->
  (forall w_f, dict_find weights "flood" = Some w_f -> w_l + w_f == 0 ->
     combine_hazards np_mean np_std landslide flood None (Some weights)
     = Raise ZeroDivisionError) /\
  (dict_find weights "flood" = None ->
     combine_hazards np_mean np_std landslide flood None (Some weights)
     = Raise (KeyError "flood")).
Proof.
  intros Ul Uf Sl Sf S Dl.
  destruct (normalize_unit landslide Ul Sl) as (ln & El & Shl & Pl).
  destruct (normalize_unit flood Uf Sf) as (fn & Ef & Shf & Pf).
  unfold combine_hazards, MULTI_HAZARD_CONFIG_normalization_method, dict_get.
  rewrite El, Ef, Dl. cbn [bind]. split.
  - intros w_f Df Hz. rewrite Df. cbn [bind].
    rewrite add_arrays_ok by (rewrite !shape_scale; congruence). cbn [bind].
    unfold float_div. now rewrite (proj2 (Qeq_bool_iff _ _) Hz).
  - intros Df. now rewrite Df.
Qed.

End MoreCombination.

Lemma combine_hazards_unit_range_witness :
  exists risk,
    combine_hazards mean_not_called std_not_called probability_layer flood_layer None
      (Some weights_table) = Ok risk /\
    Np.shape risk = Np.shape probability_layer /\
    forall i j y, Np.get risk i j = Some y -> in_unit y.
Proof.
  apply (combine_hazards_unit_range mean_not_called std_not_called probability_layer flood_layer
           weights_table (35 # 100) (35 # 100));
    try reflexivity; try discriminate;
    unfold every_pixel, in_unit; pixelwise;
    eexists; (split; [reflexivity | split; discriminate]).
Defined.

Lemma combine_hazards_bad_weights_witness :
  (forall w_f, dict_find zero_weights "flood" = Some w_f -> 0 + w_f == 0 ->
     combine_hazards mean_not_called std_not_called probability_layer flood_layer None
       (Some zero_weights) = Raise ZeroDivisionError) /\
  (dict_find zero_weights "flood" = None ->
     combine_hazards mean_not_called std_not_called probability_layer flood_layer None
       (Some zero_weights) = Raise (KeyError "flood")).
Proof.
  apply (combine_hazards_bad_weights mean_not_called std_not_called probability_layer flood_layer
           zero_weights 0);
    try reflexivity; try discriminate;
    unfold every_pixel, in_unit; pixelwise;
    eexists; (split; [reflexivity | split; discriminate]).
Defined.

Example combine_hazards_errors :
  combine_hazards mean_not_called std_not_called probability_layer flood_layer None
    (Some zero_weights) = Raise ZeroDivisionError /\
  combine_hazards mean_not_called std_not_called probability_layer flood_layer None
    (Some landslide_only_weights) = Raise (KeyError "flood").
Proof. split; reflexivity. Qed.

Section Integration.

Variable np_mean : grid sample -> sample.
Variable np_std : grid sample -> sample.

(** The combination under the configured weights 0.4 / 0.4 / 0.2, with or
    without exposure. *)
Lemma combine_hazards_config (landslide flood : grid sample)
  (exposure : option (grid sample)) :
  every_pixel in_unit landslide -> every_pixel in_unit flood ->
  Np.size landslide <> 0%nat -> Np.size flood <> 0%nat ->
  Np.shape landslide = Np.shape flood ->
  match exposure with
  | None => True
  | Some e => every_pixel in_unit e /\ Np.size e <> 0%nat
              /\ Np.shape e = Np.shape landslide
  end ->
  exists risk,
    combine_hazards np_mean np_std landslide flood exposure None = Ok risk /\
    Np.shape risk = Np.shape landslide /\
    forall i j y, Np.get risk i j = Some y -> in_unit y.
Proof.
  intros Ul Uf Sl Sf S He.
  destruct (normalize_unit np_mean np_std landslide Ul Sl) as (ln & El & Shl & Pl).
  destruct (normalize_unit np_mean np_std flood Uf Sf) as (fn & Ef & Shf & Pf).
  unfold combine_hazards, MULTI_HAZARD_CONFIG_normalization_method.
  rewrite El, Ef. cbn [bind].
  change (dict_get MULTI_HAZARD_CONFIG_weights "landslide") with (Ok (4 # 10) : result Q).
  change (dict_get MULTI_HAZARD_CONFIG_weights "flood") with (Ok (4 # 10) : result Q).
  change (dict_get MULTI_HAZARD_CONFIG_weights "exposure") with (Ok (2 # 10) : result Q).
  cbn [bind].
  assert (Sn : forall a b, Np.shape (scale a ln) = Np.shape (scale b fn))
    by (intros; rewrite !shape_scale; congruence).
  rewrite (add_arrays_ok _ _ (Sn _ _)). cbn [bind].
  destruct exposure as [e|].
  - destruct He as (Ue & Se & She).
    destruct (normalize_unit np_mean np_std e Ue Se) as (en & Ee & Shen & Pe).
    rewrite Ee. cbn [bind].
    set (total := sum_values MULTI_HAZARD_CONFIG_weights).
    assert (Ht : total == 1) by reflexivity.
    assert (Hz : Qeq_bool total 0 = false) by reflexivity.
    unfold float_div. rewrite Hz. cbn [bind].
    rewrite (add_arrays_ok _ _ (Sn _ _)). cbn [bind].
    rewrite add_arrays_ok
      by (rewrite shape_map2 by apply Sn; rewrite !shape_scale; congruence).
    eexists. split; [reflexivity|]. split.
    + rewrite shape_map2
        by (rewrite shape_map2 by apply Sn; rewrite !shape_scale; congruence).
      rewrite shape_map2 by apply Sn. rewrite shape_scale. exact Shl.
    + intros i j y G.
      destruct (get_weighted3 _ _ _ ln fn en i j y Pl Pf Pe G)
        as (a & b & c & -> & Ha & Hb & Hc).
      eexists. split; [reflexivity|].
      assert (R1 : (4 # 10) / total == 4 # 10) by (rewrite Ht; reflexivity).
      assert (R2 : (2 # 10) / total == 2 # 10) by (rewrite Ht; reflexivity).
      rewrite R1, R2. lra.
  - unfold float_div.
    change (Qeq_bool ((4 # 10) + (4 # 10)) 0) with false. cbn [bind].
    rewrite (add_arrays_ok _ _ (Sn _ _)).
    eexists. split; [reflexivity|]. split.
    + rewrite shape_map2 by apply Sn. rewrite shape_scale. exact Shl.
    + intros i j y G.
      destruct (get_weighted2 _ _ ln fn i j y Pl Pf G) as (a & b & -> & Ha & Hb).
      eexists. split; [reflexivity|].
      assert (R : (4 # 10) / ((4 # 10) + (4 # 10)) == 1 # 2) by reflexivity.
      rewrite R. lra.
Qed.

(** The integration on layers of one shape with samples of [0, 1], with
    or without exposure: the risk raster has that shape and samples of
    [0, 1], and the classified raster gives every pixel a class of 1..5,
    none is left at the nodata class 0. *)
Theorem run_multi_hazard_integration_classes (landslide flood : grid sample)
  (exposure : option (grid sample)) :
  every_pixel in_unit landslide -> every_pixel in_unit flood ->
  Np.size landslide <> 0%nat -> Np.size flood <> 0%nat ->
  Np.shape landslide = Np.shape flood ->
  match exposure with
  | None => True
  | Some e => every_pixel in_unit e /\ Np.size e <> 0%nat
              /\ Np.shape e = Np.shape landslide
  end ->
  exists risk classified,
    run_multi_hazard_integration np_mean np_std landslide flood exposure
    = Ok (risk, classified) /\
    Np.shape risk = Np.shape landslide /\
    Np.shape classified = Np.shape landslide /\
    (forall i j y, Np.get risk i j = Some y -> in_unit y) /\
    (forall i j c, Np.get classified i j = Some c -> (1 <= c <= 5)%Z).
Proof.
  intros Ul Uf Sl Sf S He.
  destruct (combine_hazards_config landslide flood exposure Ul Uf Sl Sf S He)
    as (risk & Er & Shr & Pr).
  unfold run_multi_hazard_integration. rewrite Er. cbn [bind].
  change (classify_risk Np.float32 risk None)
    with (Ok (Np.map (classify_risk_pixel
                        (Np.cast Np.float32 (2 # 10)) (Np.cast Np.float32 (4 # 10))
                        (Np.cast Np.float32 (6 # 10)) (Np.cast Np.float32 (8 # 10)))
                risk)).
  cbn [bind]. eexists. eexists. split; [reflexivity|].
  split; [exact Shr|]. split; [rewrite shape_map; exact Shr|].
  split; [exact Pr|].
  intros i j c. rewrite get_map.
  destruct (Np.get risk i j) as [y|] eqn:G; cbn [option_map]; [|discriminate].
  destruct (Pr i j y G) as (v & -> & _).
  intro E. inversion E. apply classify_risk_pixel_range.
Qed.

End Integration.

Lemma run_multi_hazard_integration_classes_witness :
  exists risk classified,
    run_multi_hazard_integration mean_not_called std_not_called probability_layer flood_layer
      (Some exposure_layer) = Ok (risk, classified) /\
    Np.shape risk = Np.shape probability_layer /\
    Np.shape classified = Np.shape probability_layer /\
    (forall i j y, Np.get risk i j = Some y -> in_unit y) /\
    (forall i j c, Np.get classified i j = Some c -> (1 <= c <= 5)%Z).
Proof.
  apply (run_multi_hazard_integration_classes mean_not_called std_not_called probability_layer
           flood_layer (Some exposure_layer));
    try reflexivity; try discriminate;
    try (unfold every_pixel, in_unit; pixelwise;
         eexists; (split; [reflexivity | split; discriminate])).
  split; [|split; [discriminate | reflexivity]].
  unfold every_pixel, in_unit; pixelwise;
    eexists; (split; [reflexivity | split; discriminate]).
Defined.

(* ===================================================================== *)
(** ** Further properties of the classifiers *)
(* ===================================================================== *)

(** On strictly increasing thresholds the risk classifier puts a number in
    the bin delimited by its bounds as cast to the dtype of the array:
    class 1 up to the first bound, classes 2 to 4 between consecutive
    bounds, upper bound included, class 5 above the last.  On a [float64]
    array the bounds are those of the table; on a [float32] array each is
    the nearest [float32] value, which may lie on the other side of a
    sample. *)
Theorem classify_risk_bins (dtype : Np.dtype) (risk_array : grid sample)
  (thresholds : dict Q) (very_low low moderate high : Q) :
  increasing_thresholds thresholds very_low low moderate high ->
  exists classified,
    classify_risk dtype risk_array (Some thresholds) = Ok classified /\
    forall i j q, Np.get risk_array i j = Some (Num q) ->
      exists c,
        Np.get classified i j = Some c /\
        (c = 1%Z <-> q <= Np.cast dtype very_low) /\
        (c = 2%Z <-> Np.cast dtype very_low < q <= Np.cast dtype low) /\
        (c = 3%Z <-> Np.cast dtype low < q <= Np.cast dtype moderate) /\
        (c = 4%Z <-> Np.cast dtype moderate < q <= Np.cast dtype high) /\
        (c = 5%Z <-> Np.cast dtype high < q).
Proof.
  intros (H1 & H2 & H3 & H4 & L1 & L2 & L3).
  eexists. split; [apply classify_risk_ok; eassumption|].
  intros i j q G. eexists. rewrite get_map, G. cbn [option_map].
  split; [reflexivity|].
  pose proof (cast_le dtype _ _ (Qlt_le_weak _ _ L1)) as C1.
  pose proof (cast_le dtype _ _ (Qlt_le_weak _ _ L2)) as C2.
  pose proof (cast_le dtype _ _ (Qlt_le_weak _ _ L3)) as C3.
  rewrite classify_risk_pixel_bins by assumption.
  destruct (Qle_bool q (Np.cast dtype very_low)) eqn:E1,
    (Qle_bool q (Np.cast dtype low)) eqn:E2,
    (Qle_bool q (Np.cast dtype moderate)) eqn:E3,
    (Qle_bool q (Np.cast dtype high)) eqn:E4; qbool;
    repeat split; intros; try lia; try lra; try discriminate.
Qed.

Lemma classify_risk_bins_witness :
  exists classified,
    classify_risk Np.float32 (Np.astype Np.float32 risk_samples)
      (Some MULTI_HAZARD_CONFIG_classification_thresholds) = Ok classified /\
    forall i j q,
      Np.get (Np.astype Np.float32 risk_samples) i j = Some (Num q) ->
      exists c,
        Np.get classified i j = Some c /\
        (c = 1%Z <-> q <= Np.cast Np.float32 (2 # 10)) /\
        (c = 2%Z <-> Np.cast Np.float32 (2 # 10) < q <= Np.cast Np.float32 (4 # 10)) /\
        (c = 3%Z <-> Np.cast Np.float32 (4 # 10) < q <= Np.cast Np.float32 (6 # 10)) /\
        (c = 4%Z <-> Np.cast Np.float32 (6 # 10) < q <= Np.cast Np.float32 (8 # 10)) /\
        (c = 5%Z <-> Np.cast Np.float32 (8 # 10) < q).
Proof.
  apply (classify_risk_bins Np.float32 (Np.astype Np.float32 risk_samples)
           MULTI_HAZARD_CONFIG_classification_thresholds
           (2 # 10) (4 # 10) (6 # 10) (8 # 10)).
  unfold increasing_thresholds. repeat split; reflexivity.
Defined.

(** The [float32] value nearest to 0.8 lies above 0.8: on a [float32]
    array the sample 13421773 / 2^24 gets the class 4, and the class 5 on
    a [float64] array, where the bound is 0.8 itself. *)
Example classify_risk_float32_bound :
  Np.cast Np.float32 (8 # 10) = 13421773 # 16777216 /\
  classify_risk Np.float32 [[Num (13421773 # 16777216)]] None = Ok [[4%Z]] /\
  classify_risk Np.float64 [[Num (13421773 # 16777216)]] None = Ok [[5%Z]].
Proof. repeat split; reflexivity. Qed.

(** When the last bound is missing from the table, the risk classifier
    raises [KeyError] while the landslide classifier skips the missing
    rounds and leaves every sample above the moderate bound, as cast to
    the dtype of the array, at class 0. *)
Theorem missing_high_threshold (dtype : Np.dtype) (array : grid sample)
  (thresholds : dict Q) (very_low low moderate : Q) :
  dict_find thresholds "very_low" = Some very_low ->
  dict_find thresholds "low" = Some low ->
  dict_find thresholds "moderate" = Some moderate ->
  dict_find thresholds "high" = None ->
  very_low < low -> low < moderate ->
  classify_risk dtype array (Some thresholds) = Raise (KeyError "high") /\
  forall i j q, Np.get array i j = Some (Num q) -> Np.cast dtype moderate < q ->
    Np.get (classify_susceptibility dtype array thresholds) i j = Some 0%Z.
Proof.
  intros H1 H2 H3 H4 L1 L2. split.
  - unfold classify_risk, dict_get. now rewrite H1, H2, H3, H4.
  - intros i j q G Hq. unfold classify_susceptibility.
    rewrite get_map, G. cbn [option_map]. f_equal.
    unfold classify_susceptibility_pixel. cbn [removelast sorted_classes].
    cbn [susceptibility_loop]. unfold dict_get_default.
    rewrite H1, H2, H3, H4.
    pose proof (cast_le dtype _ _ (Qlt_le_weak _ _ L1)) as C1.
    pose proof (cast_le dtype _ _ (Qlt_le_weak _ _ L2)) as C2.
    assert (F : forall t, t <= Np.cast dtype moderate -> Qle_bool q t = false).
    { intros t Ht. destruct (Qle_bool q t) eqn:E; [|reflexivity].
      apply Qle_bool_iff in E. lra. }
    cbn [Np.le Np.gt Np.lt].
    rewrite (F (Np.cast dtype very_low)), (F (Np.cast dtype low)),
      (F (Np.cast dtype moderate)) by lra.
    rewrite !andb_false_r. reflexivity.
Qed.

Lemma missing_high_threshold_witness :
  classify_risk Np.float32 (Np.astype Np.float32 risk_samples)
    (Some thresholds_without_high)
  = Raise (KeyError "high") /\
  forall i j q,
    Np.get (Np.astype Np.float32 risk_samples) i j = Some (Num q) ->
    Np.cast Np.float32 (6 # 10) < q ->
    Np.get (classify_susceptibility Np.float32 (Np.astype Np.float32 risk_samples)
              thresholds_without_high) i j
    = Some 0%Z.
Proof.
  apply (missing_high_threshold Np.float32 (Np.astype Np.float32 risk_samples)
           thresholds_without_high
           (2 # 10) (4 # 10) (6 # 10)); reflexivity.
Defined.

(** The [float32] value nearest to 0.6 lies above 0.6: on a [float32]
    array that sample is still of the moderate class. *)
Example missing_high_float32_bound :
  Np.cast Np.float32 (6 # 10) = 5033165 # 8388608 /\
  classify_susceptibility Np.float32 [[Num (5033165 # 8388608)]]
    thresholds_without_high = [[3%Z]] /\
  classify_susceptibility Np.float64 [[Num (5033165 # 8388608)]]
    thresholds_without_high = [[0%Z]].
Proof. repeat split; reflexivity. Qed.

(** The exposure classifier is the risk classifier: on every array and
    every threshold table, given or defaulted, the two return the same
    classes or raise the same error. *)
Lemma classify_exposure_is_classify_risk (dtype : Np.dtype) (array : grid sample)
  (thresholds : option (dict Q)) :
  classify_exposure dtype array thresholds = classify_risk dtype array thresholds.
Proof. destruct thresholds; reflexivity. Qed.

(** On the four bounds, strictly increasing, and the class values 1..5 of
    the five class names, the generic classifier is the risk classifier. *)
Theorem classify_raster_with_class_values (dtype : Np.dtype) (array : grid sample)
  (very_low low moderate high : Q) :
  very_low < low -> low < moderate -> moderate < high ->
  let thresholds :=
    [ ("very_low"%string, very_low); ("low"%string, low);
      ("moderate"%string, moderate); ("high"%string, high) ] in
  classify_raster dtype array thresholds (Some class_mapping)
  = classify_risk dtype array (Some thresholds).
Proof.
  intros L1 L2 L3 thresholds.
  assert (E1 : Qle_bool very_low low = true) by (apply Qle_bool_iff; lra).
  assert (E2 : Qle_bool low moderate = true) by (apply Qle_bool_iff; lra).
  assert (E3 : Qle_bool moderate high = true) by (apply Qle_bool_iff; lra).
  unfold classify_raster, sorted_thresholds, thresholds.
  cbn [sorted insert_sorted snd]. rewrite E3. cbn [insert_sorted snd].
  rewrite E2. cbn [insert_sorted snd]. rewrite E1.
  reflexivity.
Qed.

Lemma classify_raster_with_class_values_witness :
  classify_raster Np.float64 risk_samples MULTI_HAZARD_CONFIG_classification_thresholds
    (Some class_mapping)
  = classify_risk Np.float64 risk_samples
      (Some MULTI_HAZARD_CONFIG_classification_thresholds).
Proof.
  apply (classify_raster_with_class_values Np.float64 risk_samples
           (2 # 10) (4 # 10) (6 # 10) (8 # 10)); reflexivity.
Defined.

Lemma classify_risk_labels_monotone_witness :
  exists classified,
    classify_risk Np.float64 risk_samples
      (Some MULTI_HAZARD_CONFIG_classification_thresholds) = Ok classified /\
    forall i j i' j' x y,
      Np.get risk_samples i j = Some (Num x) ->
      Np.get risk_samples i' j' = Some (Num y) ->
      x <= y ->
      exists c d,
        Np.get classified i j = Some c /\ Np.get classified i' j' = Some d /\
        (1 <= c <= d)%Z /\ (d <= 5)%Z.
Proof.
  apply (classify_risk_labels_monotone Np.float64 risk_samples
           MULTI_HAZARD_CONFIG_classification_thresholds
           (2 # 10) (4 # 10) (6 # 10) (8 # 10)).
  unfold increasing_thresholds. repeat split; reflexivity.
Defined.

(* ===================================================================== *)
(** ** Exposure density and the risk index *)
(* ===================================================================== *)








(* ===================================================================== *)
(** ** Colouring a classified raster ([apply_colormap]) *)
(* ===================================================================== *)

Section ColormapFacts.

Variable int16 : string -> result Z.

Lemma paint_skip (rounds : list (Z * (Z * Z * Z))) (v : Z) (rgb : Z * Z * Z) :
  (forall value color, In (value, color) rounds -> value <> v) ->
  paint rounds v rgb = rgb.
Proof.
  revert rgb. induction rounds as [|[value color] rounds IH]; intros rgb H;
    [reflexivity|].
  cbn [paint].
  destruct (Z.eqb_spec v value) as [->|_].
  - exfalso. apply (H value color); [now left | reflexivity].
  - apply IH. intros value' color' I. apply (H value' color'). now right.
Qed.

(** Every round comes from an entry of the class mapping whose class the
    colormap names. *)
Lemma colormap_rounds_origin (colormap : dict string)
  (class_mapping : list (Z * string)) (rounds : list (Z * (Z * Z * Z)))
  (value : Z) (color : Z * Z * Z) :
  colormap_rounds int16 colormap class_mapping = Ok rounds ->
  In (value, color) rounds ->
  exists class_name hex,
    In (value, class_name) class_mapping /\
    dict_find colormap class_name = Some hex /\
    parse_hex_color int16 hex = Ok color.
Proof.
  revert rounds. induction class_mapping as [|[val name] rest IH];
    intros rounds H I; cbn [colormap_rounds] in H.
  - inversion H; subst. contradiction.
  - destruct (dict_find colormap name) as [hex|] eqn:D.
    + destruct (parse_hex_color int16 hex) as [rgb|e] eqn:P; cbn [bind] in H;
        [|discriminate].
      destruct (colormap_rounds int16 colormap rest) as [rounds'|e] eqn:R;
        cbn [bind] in H; [|discriminate].
      inversion H; subst. destruct I as [I|I].
      * inversion I; subst. exists name, hex. split; [now left | auto].
      * destruct (IH rounds' eq_refl I) as (n & h & I' & D' & P').
        exists n, h. split; [now right | auto].
    + destruct (IH rounds H I) as (n & h & I' & D' & P').
      exists n, h. split; [now right | auto].
Qed.

Lemma paint_mapped (colormap : dict string) (class_mapping : list (Z * string))
  (rounds : list (Z * (Z * Z * Z))) (v : Z) (class_name hex : string)
  (color rgb : Z * Z * Z) :
  colormap_rounds int16 colormap class_mapping = Ok rounds ->
  NoDup (List.map fst class_mapping) ->
  In (v, class_name) class_mapping ->
  dict_find colormap class_name = Some hex ->
  parse_hex_color int16 hex = Ok color ->
  paint rounds v rgb = color.
Proof.
  revert rounds rgb. induction class_mapping as [|[val name] rest IH];
    intros rounds rgb H N I D P; [contradiction|].
  cbn [List.map fst] in N. inversion N as [|? ? Hnot Nrest]; subst.
  cbn [colormap_rounds] in H. destruct I as [I|I].
  - inversion I; subst. rewrite D, P in H. cbn [bind] in H.
    destruct (colormap_rounds int16 colormap rest) as [rounds'|e] eqn:R;
      cbn [bind] in H; [|discriminate].
    inversion H; subst. cbn [paint]. rewrite Z.eqb_refl.
    apply paint_skip. intros value' color' I' ->.
    destruct (colormap_rounds_origin colormap rest rounds' v color' R I')
      as (n & h & In' & _).
    apply Hnot. apply in_map_iff. exists (v, n). split; [reflexivity | exact In'].
  - assert (Hne : val <> v).
    { intros ->. apply Hnot. apply in_map_iff.
      exists (v, class_name). split; [reflexivity | exact I]. }
    destruct (dict_find colormap name) as [hex'|].
    + destruct (parse_hex_color int16 hex') as [rgb'|e]; cbn [bind] in H;
        [|discriminate].
      destruct (colormap_rounds int16 colormap rest) as [rounds'|e] eqn:R;
        cbn [bind] in H; [|discriminate].
      inversion H; subst. cbn [paint].
      destruct (Z.eqb_spec v val) as [->|_]; [contradiction Hne; reflexivity|].
      apply (IH rounds' rgb eq_refl Nrest I D P).
    + apply (IH rounds rgb H Nrest I D P).
Qed.

(** The coloured array has the shape of the classified one.  A pixel whose
    value has no entry in the class mapping, or only entries of classes the
    colormap does not name, stays black; a pixel whose value is mapped to a
    class the colormap names gets the three channels parsed from its
    colour, the class mapping having one entry per value. *)
Theorem apply_colormap_pixels (array : grid Z) (colormap : dict string)
  (class_mapping : list (Z * string)) (rgb : grid (Z * Z * Z)) :
  apply_colormap int16 array colormap class_mapping = Ok rgb ->
  NoDup (List.map fst class_mapping) ->
  Np.shape rgb = Np.shape array /\
  forall i j v, Np.get array i j = Some v ->
    ((forall class_name, In (v, class_name) class_mapping ->
        dict_find colormap class_name = None) ->
     Np.get rgb i j = Some (0, 0, 0)%Z) /\
    (forall class_name hex color,
        In (v, class_name) class_mapping ->
        dict_find colormap class_name = Some hex ->
        parse_hex_color int16 hex = Ok color ->
        Np.get rgb i j = Some color).
Proof.
  unfold apply_colormap. intros H N.
  destruct (colormap_rounds int16 colormap class_mapping) as [rounds|e] eqn:R;
    cbn [bind] in H; [|discriminate].
  inversion H; subst. split; [apply shape_map|].
  intros i j v G. rewrite get_map, G. cbn [option_map]. split.
  - intro Hnone. f_equal. apply paint_skip. intros value color I ->.
    destruct (colormap_rounds_origin colormap class_mapping rounds v color R I)
      as (n & h & I' & D & _).
    rewrite (Hnone n I') in D. discriminate.
  - intros class_name hex color I D P. f_equal.
    exact (paint_mapped colormap class_mapping rounds v class_name hex color
             (0, 0, 0)%Z R N I D P).
Qed.

End ColormapFacts.

Lemma apply_colormap_pixels_witness :
  Np.shape [ [(247, 247, 247); (52, 152, 219); (0, 0, 0)] ]%Z
  = Np.shape [ [0; 1; 2] ]%Z /\
  forall i j v, Np.get [ [0; 1; 2] ]%Z i j = Some v ->
    ((forall class_name, In (v, class_name) flood_class_mapping ->
        dict_find COLORMAPS_flood class_name = None) ->
     Np.get [ [(247, 247, 247); (52, 152, 219); (0, 0, 0)] ]%Z i j
     = Some (0, 0, 0)%Z) /\
    (forall class_name hex color,
        In (v, class_name) flood_class_mapping ->
        dict_find COLORMAPS_flood class_name = Some hex ->
        parse_hex_color int16_two_digits hex = Ok color ->
        Np.get [ [(247, 247, 247); (52, 152, 219); (0, 0, 0)] ]%Z i j
        = Some color).
Proof.
  apply (apply_colormap_pixels int16_two_digits [ [0; 1; 2] ]%Z COLORMAPS_flood
           flood_class_mapping).
  - reflexivity.
  - repeat constructor; simpl; intuition discriminate.
Defined.

(** When the bound of the class "low" is missing from the table, the
    landslide classifier takes 0 for the bound below "moderate": every
    sample above 0 and up to the moderate bound, as cast to the dtype of
    the array, is given class 3, also those at or below the very-low bound,
    which the first round had given class 1. *)
Theorem missing_low_threshold (dtype : Np.dtype) (array : grid sample)
  (thresholds : dict Q) (very_low moderate high : Q) :
  dict_find thresholds "very_low" = Some very_low ->
  dict_find thresholds "low" = None ->
  dict_find thresholds "moderate" = Some moderate ->
  dict_find thresholds "high" = Some high ->
  moderate < high ->
  forall i j q, Np.get array i j = Some (Num q) ->
    0 < q <= Np.cast dtype moderate ->
    Np.get (classify_susceptibility dtype array thresholds) i j = Some 3%Z.
Proof.
  intros H1 H2 H3 H4 L i j q G [Hq0 Hq]. unfold classify_susceptibility.
  rewrite get_map, G. cbn [option_map]. f_equal.
  unfold classify_susceptibility_pixel. cbn [removelast sorted_classes].
  cbn [susceptibility_loop]. unfold dict_get_default.
  rewrite H1, H2, H3, H4. rewrite cast_0. cbn [Np.le Np.gt Np.lt].
  pose proof (cast_le dtype _ _ (Qlt_le_weak _ _ L)) as C.
  rewrite (proj2 (Qlt_bool_iff 0 q) Hq0).
  rewrite (proj2 (Qle_bool_iff q (Np.cast dtype moderate)) Hq).
  assert (F1 : Np.Qlt_bool (Np.cast dtype moderate) q = false).
  { destruct (Np.Qlt_bool (Np.cast dtype moderate) q) eqn:E; [|reflexivity].
    apply Qlt_bool_iff in E. lra. }
  assert (F2 : Np.Qlt_bool (Np.cast dtype high) q = false).
  { destruct (Np.Qlt_bool (Np.cast dtype high) q) eqn:E; [|reflexivity].
    apply Qlt_bool_iff in E. lra. }
  rewrite F1, F2. cbn [andb assign].
  destruct (Qle_bool q (Np.cast dtype very_low)); reflexivity.
Qed.

Lemma missing_low_threshold_witness :
  Np.get (classify_susceptibility Np.float64 risk_samples thresholds_without_low) 0 0
  = Some 3%Z.
Proof.
  apply (missing_low_threshold Np.float64 risk_samples thresholds_without_low
           (2 # 10) (6 # 10) (8 # 10) eq_refl eq_refl eq_refl eq_refl
           eq_refl 0%nat 0%nat (1 # 10) eq_refl).
  split; [reflexivity | discriminate].
Defined.

(** The same on a [float32] array: its sample nearest to 0.1 is below the
    very-low bound and is given the class 3. *)
Example missing_low_float32 :
  Np.cast Np.float32 (1 # 10) = 13421773 # 134217728 /\
  classify_susceptibility Np.float32 [ [Num (13421773 # 134217728)] ]
    thresholds_without_low = [ [3%Z] ].
Proof. split; reflexivity. Qed.

(* ===================================================================== *)
(** ** Landslide prediction: the pixels without valid features *)
(* ===================================================================== *)

Lemma nth_error_firstn_lt {A} (n j : nat) (l : list A) :
  (j < n)%nat -> nth_error (firstn n l) j = nth_error l j.
Proof.
  revert j l. induction n as [|n IH]; intros j l H; [lia|].
  destruct l as [|a l]; [reflexivity|].
  destruct j as [|j]; [reflexivity|]. simpl. apply IH. lia.
Qed.

Lemma get_reshape {A} (height width : nat) (flat : list A) (i j : nat) :
  (i < height)%nat -> (j < width)%nat ->
  Np.get (reshape height width flat) i j = nth_error flat (i * width + j).
Proof.
  revert flat i. induction height as [|h IH]; intros flat i Hi Hj; [lia|].
  destruct i as [|i].
  - unfold Np.get. simpl. apply nth_error_firstn_lt. exact Hj.
  - unfold Np.get in *. simpl. rewrite IH by lia.
    rewrite nth_error_skipn. f_equal. lia.
Qed.

Lemma nth_error_concat_rect {A} (g : grid A) (width i j : nat) (x : A) :
  Forall (fun row => length row = width) g ->
  Np.get g i j = Some x ->
  nth_error (concat g) (i * width + j) = Some x.
Proof.
  intros R. revert i. induction R as [|row g Hrow R IH]; intros i G.
  - unfold Np.get in G. destruct i; discriminate G.
  - unfold Np.get in *. destruct i as [|i]; simpl in *.
    + rewrite nth_error_app1; [exact G|].
      apply nth_error_Some. congruence.
    + rewrite nth_error_app2 by lia.
      replace (width + i * width + j - length row)%nat with (i * width + j)%nat
        by lia.
      apply IH. exact G.
Qed.

Lemma valid_row_forallb (row : list sample) :
  valid_row row = forallb valid_sample row.
Proof.
  unfold valid_row. induction row as [|x row IH]; [reflexivity|].
  simpl. rewrite <- IH. unfold valid_sample.
  destruct (Np.isnan x), (Np.ne x (Num (-9999))), (existsb Np.isnan row),
    (existsb (fun x0 => negb (Np.ne x0 (Num (-9999)))) row); reflexivity.
Qed.

Lemma scatter_unselected (mask : list bool) (vals : list sample) (p : nat) :
  nth_error mask p = Some false -> nth_error (scatter mask vals) p = Some (Num 0).
Proof.
  revert vals p. induction mask as [|b mask IH]; intros vals p H.
  - destruct p; discriminate H.
  - destruct p as [|p].
    + simpl in H. inversion H; subst. reflexivity.
    + simpl in H. destruct b; [destruct vals|]; simpl; apply IH; exact H.
Qed.

Lemma assign_masked_unselected (mask : list bool) (vals flat : list sample) (p : nat) :
  assign_masked mask vals = Ok flat ->
  nth_error mask p = Some false -> nth_error flat p = Some (Num 0).
Proof.
  unfold assign_masked. intros H Hp.
  destruct (Nat.eqb (length vals) (count_occ bool_dec mask true)).
  - inversion H; subst. apply scatter_unselected. exact Hp.
  - destruct vals as [|v [|v' vals]]; try discriminate H.
    inversion H; subst. rewrite nth_error_map, Hp. reflexivity.
Qed.

Section PredictionFacts.

Variable predict_proba : list (list sample) -> result (list sample).

(** In a run that succeeds, on a stack of rectangular bands of one shape,
    a pixel at which some band holds NaN or the nodata value is left out
    of the prediction: its probability is 0, and the classified raster
    gives it class 1, the class of the lowest susceptibility. *)
Theorem predict_susceptibility_invalid_pixel (features : list (grid sample))
  (height width : nat) (probabilities : grid sample) (classified : grid Z)
  (band : grid sample) (i j : nat) (x : sample) :
  predict_susceptibility predict_proba features = Ok (probabilities, classified) ->
  Forall (fun b => Np.rect b /\ Np.shape b = (height, width)) features ->
  In band features -> Np.get band i j = Some x -> valid_sample x = false ->
  Np.get probabilities i j = Some (Num 0) /\
  Np.get classified i j = Some 1%Z.
Proof.
  intros H F Hin G Hx.
  assert (Hb : Np.rect band /\ Np.shape band = (height, width))
    by (rewrite Forall_forall in F; exact (F band Hin)).
  destruct Hb as [Rb Sb].
  assert (Hw : Forall (fun row => length row = width) band).
  { unfold Np.rect in Rb. rewrite Sb in Rb. exact Rb. }
  assert (Hi : (i < height)%nat).
  { unfold Np.get in G. destruct (nth_error band i) eqn:E; [|discriminate].
    assert (i < length band)%nat by (apply nth_error_Some; congruence).
    unfold Np.shape in Sb. inversion Sb. lia. }
  assert (Hj : (j < width)%nat).
  { unfold Np.get in G. destruct (nth_error band i) as [row|] eqn:E; [|discriminate].
    rewrite Forall_forall in Hw. rewrite <- (Hw row (nth_error_In _ _ E)).
    apply nth_error_Some. congruence. }
  assert (Hp : (i * width + j < height * width)%nat) by nia.
  assert (Hs : Np.shape (hd [] features) = (height, width)).
  { destruct features as [|b0 rest]; [contradiction|].
    inversion F as [|? ? [_ S0] _]; subst. exact S0. }
  unfold predict_susceptibility, extract_features_for_prediction, features_2d in H.
  rewrite Hs in H. cbn [fst snd] in H.
  set (rows := List.map
                 (fun p => List.map (fun b => nth p (concat b) NaN) features)
                 (seq 0 (height * width))) in H.
  destruct (predict_proba (select (List.map valid_row rows) rows)) as [predicted|e];
    cbn [bind] in H; [|discriminate].
  destruct (assign_masked (List.map valid_row rows) predicted) as [flat|e] eqn:Ea;
    cbn [bind] in H; [|discriminate].
  inversion H; subst; clear H.
  assert (Hmask : nth_error (List.map valid_row rows) (i * width + j) = Some false).
  { rewrite nth_error_map. unfold rows. rewrite nth_error_map.
    rewrite nth_error_seq.
    destruct (Nat.ltb_spec (i * width + j) (height * width)) as [_|C]; [|lia].
    cbn [option_map Nat.add]. f_equal.
    rewrite valid_row_forallb.
    destruct (forallb valid_sample _) eqn:Fa; [|reflexivity].
    rewrite forallb_forall in Fa.
    specialize (Fa x). rewrite Hx in Fa. symmetry. apply Fa.
    apply in_map_iff. exists band. split; [|exact Hin].
    apply nth_error_nth. apply nth_error_concat_rect; assumption. }
  assert (Hprob : Np.get (reshape height width flat) i j = Some (Num 0)).
  { rewrite get_reshape by assumption.
    exact (assign_masked_unselected _ _ _ _ Ea Hmask). }
  split; [exact Hprob|].
  unfold classify_susceptibility. rewrite get_map, Hprob. reflexivity.
Qed.

End PredictionFacts.

Lemma predict_susceptibility_invalid_pixel_witness :
  Np.get [ [Num (9 # 10); Num 0]; [Num 0; Num (9 # 10)] ] 0 1 = Some (Num 0) /\
  Np.get [ [5; 1]; [1; 5] ]%Z 0 1 = Some 1%Z.
Proof.
  apply (predict_susceptibility_invalid_pixel predict_high feature_stack 2 2
           [ [Num (9 # 10); Num 0]; [Num 0; Num (9 # 10)] ]
           [ [5; 1]; [1; 5] ]%Z
           [ [Num 1; Num (-9999)]; [NaN; Num 4] ] 0 1 (Num (-9999))).
  - reflexivity.
  - repeat constructor.
  - right. left. reflexivity.
  - reflexivity.
  - reflexivity.
Defined.
